(** * Polling, mirroring and error classification of the Jira and CASB adapters

    A shallow embedding of
    [Packs/Jira/Integrations/JiraV2/JiraV2.py] and
    [Packs/McAfeeMVisionCASB/Integrations/McAfeeMVisionCASB/McAfeeMVisionCASB.py].

    Python dictionaries and lists are JSON documents, exceptions are values
    of an error type, and the adapters' effects (HTTP requests, the error
    log, the persisted last-run object) are threaded through a state-and-error
    monad. *)

From stdpp Require Import base numbers option list strings gmap pretty.
From Stdlib Require Import Ascii String.

Local Open Scope Z_scope.
Set Warnings "-register-all,-clear-no-such-hyp".

(** ** Python values *)

(** A JSON document, as [json.loads] and [requests]' [.json()] produce it.
    Objects keep their insertion order, as Python dictionaries do. *)
Inductive json : Type :=
| JNull
| JBool (b : bool)
| JNum (n : Z)
| JStr (s : string)
| JArr (xs : list json)
| JObj (kv : list (string * json)).

(** Python's truth value of a document: [None], [False], [0], the empty
    string, list and dictionary are false. *)
Definition truthy (v : json) : bool :=
  match v with
  | JNull => false
  | JBool b => b
  | JNum n => negb (n =? 0)
  | JStr s => negb (String.eqb s "")
  | JArr xs => match xs with [] => false | _ => true end
  | JObj kv => match kv with [] => false | _ => true end
  end.

(** [v == s] for a string [s]. *)
Definition py_eq_str (v : json) (s : string) : bool :=
  match v with
  | JStr s' => String.eqb s' s
  | _ => false
  end.

(** [v == n] for an integer [n]. *)
Definition py_eq_num (v : json) (n : Z) : bool :=
  match v with
  | JNum m => m =? n
  | JBool b => (if b then 1 else 0) =? n
  | _ => false
  end.

(** [a or b] *)
Definition py_or (a b : json) : json := if truthy a then a else b.

(** Lookup of a key in a dictionary's items. *)
Fixpoint assoc (k : string) (kv : list (string * json)) : option json :=
  match kv with
  | [] => None
  | (k', v) :: rest => if String.eqb k k' then Some v else assoc k rest
  end.

(** [d[k] = v]: overwrite in place, or append a new key. *)
Fixpoint assoc_set (k : string) (v : json) (kv : list (string * json))
  : list (string * json) :=
  match kv with
  | [] => [(k, v)]
  | (k', v') :: rest =>
      if String.eqb k k' then (k, v) :: rest else (k', v') :: assoc_set k v rest
  end.

(** ** Exceptions *)

(** The exception classes the adapters raise or catch.  All of them derive
    from [Exception]; only [ValueError] is caught by class. *)
Inductive exn_class :=
| ValueError | TypeError | AttributeError | KeyError | IndexError
| AssertionError
| PlainException      (* raise Exception(...) *)
| RequestError        (* an exception of the HTTP layer *)
| OSError             (* open() on a missing file *)
| ReturnError.        (* the failure return_error ends a command with *)

Record exn := Exn { exn_kind : exn_class; exn_msg : string }.

Definition is_ValueError (e : exn) : bool :=
  match exn_kind e with ValueError => true | _ => false end.

(** A computation that may raise. *)
Definition res (A : Type) : Type := exn + A.

Definition res_bind {A B} (r : res A) (k : A -> res B) : res B :=
  match r with inl e => inl e | inr a => k a end.

(** ** Python string helpers *)

Definition quote_char : ascii := "034"%char.
Definition newline : string := String "010"%char "".
Definition dquote : string := String quote_char "".

Definition lower_ascii (c : ascii) : ascii :=
  let n := nat_of_ascii c in
  if ((65 <=? n) && (n <=? 90))%nat then ascii_of_nat (n + 32) else c.

(** The lower case of ASCII text: the letters [A] to [Z] are folded and
    nothing else is.  This is what [s.lower()] gives on ASCII text; the
    platform of the examples uses it. *)
Fixpoint ascii_lower (s : string) : string :=
  match s with
  | EmptyString => EmptyString
  | String c s' => String (lower_ascii c) (ascii_lower s')
  end.

(** [needle in hay] on strings. *)
Fixpoint contains (needle hay : string) : bool :=
  String.prefix needle hay
  || match hay with
     | EmptyString => false
     | String _ hay' => contains needle hay'
     end.

(** [sep.join(parts)] *)
Fixpoint join (sep : string) (parts : list string) : string :=
  match parts with
  | [] => ""
  | [p] => p
  | p :: rest => p +:+ sep +:+ join sep rest
  end.

(** [str(n)] of an integer. *)
Definition str_of_Z (n : Z) : string := pretty n.

(** [s.split(sep)] for a separator of one character. *)
Fixpoint split_on (sep : ascii) (s : string) : list string :=
  match s with
  | EmptyString => [""]
  | String c rest =>
      if Ascii.eqb c sep then "" :: split_on sep rest
      else match split_on sep rest with
           | [] => [String c ""]
           | part :: parts => String c part :: parts
           end
  end.

(** [s.startswith(prefix)] *)
Definition startswith (prefix s : string) : bool := String.prefix prefix s.

(** [a == b]: numbers and booleans compare by value, lists item by item,
    dictionaries key by key whatever the order. *)
Fixpoint py_eq (a b : json) : bool :=
  match a, b with
  | JNull, JNull => true
  | JBool x, JBool y => Bool.eqb x y
  | JBool x, JNum n | JNum n, JBool x => n =? (if x then 1 else 0)
  | JNum n, JNum m => n =? m
  | JStr s, JStr t => String.eqb s t
  | JArr xs, JArr ys =>
      (fix items (xs ys : list json) : bool :=
         match xs, ys with
         | [], [] => true
         | x :: xs', y :: ys' => py_eq x y && items xs' ys'
         | _, _ => false
         end) xs ys
  | JObj kv, JObj kv' =>
      (List.length kv =? List.length kv')%nat
      && (fix items (kv : list (string * json)) : bool :=
            match kv with
            | [] => true
            | (k, v) :: rest =>
                match assoc k kv' with
                | Some v' => py_eq v v'
                | None => false
                end && items rest
            end) kv
  | _, _ => false
  end.

(** [repr(v)], given [repr] on strings: a list and a dictionary are written
    with the [repr] of their items, separated by [", "]. *)
Section Repr.

Variable repr_of_str : string -> string.

Fixpoint repr_with (v : json) : string :=
  match v with
  | JNull => "None"
  | JBool true => "True"
  | JBool false => "False"
  | JNum n => str_of_Z n
  | JStr s => repr_of_str s
  | JArr xs => "[" +:+ join ", " (map repr_with xs) +:+ "]"
  | JObj kv =>
      "{" +:+ join ", " (map (fun p => match p with
                                       | (k, x) => repr_of_str k +:+ ": " +:+ repr_with x
                                       end) kv) +:+ "}"
  end.

End Repr.

Definition single_quote : ascii := "039"%char.
Definition backslash : ascii := "092"%char.

Definition hex_digit (n : nat) : ascii :=
  ascii_of_nat (if (n <? 10)%nat then 48 + n else 87 + n).

Definition repr_char (q c : ascii) : string :=
  let n := nat_of_ascii c in
  if Ascii.eqb c backslash || Ascii.eqb c q then String backslash (String c "")
  else if (n =? 10)%nat then String backslash "n"
  else if (n =? 13)%nat then String backslash "r"
  else if (n =? 9)%nat then String backslash "t"
  else if (n <? 32)%nat || (n =? 127)%nat
       then String backslash (String "x"%char (String (hex_digit (n / 16))
                                            (String (hex_digit (n mod 16)) "")))
       else String c "".

(** [repr(s)] of a string of ASCII text: in single quotes, or in double
    quotes when the text holds a single quote and no double quote; the
    backslash, the quote in use and the control characters are escaped.  The
    platform of the examples uses it. *)
Definition ascii_repr (s : string) : string :=
  let q := if contains (String single_quote "") s && negb (contains dquote s)
           then quote_char else single_quote in
  String q (String.concat "" (map (repr_char q) (list_ascii_of_string s)) +:+ String q "").

Definition type_name (v : json) : string :=
  match v with
  | JNull => "NoneType" | JBool _ => "bool" | JNum _ => "int"
  | JStr _ => "str" | JArr _ => "list" | JObj _ => "dict"
  end.

Definition no_attribute (v : json) (attr : string) : exn :=
  Exn AttributeError
      ("'" +:+ type_name v +:+ "' object has no attribute '" +:+ attr +:+ "'").

(** [v.get(k)]: only dictionaries have [get]. *)
Definition py_get (v : json) (k : string) : res json :=
  match v with
  | JObj kv => inr (default JNull (assoc k kv))
  | _ => inl (no_attribute v "get")
  end.

(** [v.get(k, d)] *)
Definition py_get_default (v : json) (k : string) (d : json) : res json :=
  match v with
  | JObj kv => inr (default d (assoc k kv))
  | _ => inl (no_attribute v "get")
  end.

(** [v[k]] for a string key. *)
Definition py_item (v : json) (k : string) : res json :=
  match v with
  | JObj kv =>
      match assoc k kv with
      | Some x => inr x
      | None => inl (Exn KeyError ("'" +:+ k +:+ "'"))
      end
  | JArr _ => inl (Exn TypeError "list indices must be integers or slices, not str")
  | JStr _ => inl (Exn TypeError "string indices must be integers")
  | _ => inl (Exn TypeError ("'" +:+ type_name v +:+ "' object is not subscriptable"))
  end.

(** [v[i]] for a list index that [enumerate] produced. *)
Definition py_nth (v : json) (i : nat) : res json :=
  match v with
  | JArr xs =>
      match xs !! i with
      | Some x => inr x
      | None => inl (Exn IndexError "list index out of range")
      end
  | JObj _ => inl (Exn KeyError (pretty i))
  | _ => inl (Exn TypeError ("'" +:+ type_name v +:+ "' object is not subscriptable"))
  end.

(** [v[k] = x] on a dictionary. *)
Definition py_setitem (v : json) (k : string) (x : json) : res json :=
  match v with
  | JObj kv => inr (JObj (assoc_set k x kv))
  | _ => inl (Exn TypeError
                  ("'" +:+ type_name v +:+ "' object does not support item assignment"))
  end.

(** The elements a [for] loop (or [join]) sees: the items of a list, the
    keys of a dictionary, the characters of a string. *)
Definition py_iter (v : json) : res (list json) :=
  match v with
  | JArr xs => inr xs
  | JObj kv => inr (map (fun p => JStr (fst p)) kv)
  | JStr s => inr (map (fun c => JStr (String c "")) (list_ascii_of_string s))
  | _ => inl (Exn TypeError ("'" +:+ type_name v +:+ "' object is not iterable"))
  end.

Fixpoint all_strings (xs : list json) : option (list string) :=
  match xs with
  | [] => Some []
  | JStr s :: rest => option_map (cons s) (all_strings rest)
  | _ :: _ => None
  end.

(** [sep.join(v)] *)
Definition py_join (sep : string) (v : json) : res string :=
  res_bind (py_iter v) (fun xs =>
    match all_strings xs with
    | Some ss => inr (join sep ss)
    | None => inl (Exn TypeError "sequence item: expected str instance")
    end).

(** [s in v] for a string [s]: a substring of a string, a key of a
    dictionary, an item of a list. *)
Definition py_in_str (s : string) (v : json) : res bool :=
  match v with
  | JStr t => inr (contains s t)
  | JObj kv => inr (bool_decide (is_Some (assoc s kv)))
  | JArr xs => inr (existsb (fun x => py_eq_str x s) xs)
  | _ => inl (Exn TypeError ("argument of type '" +:+ type_name v +:+ "' is not iterable"))
  end.

(** [v.values()] *)
Definition py_values (v : json) : res json :=
  match v with
  | JObj kv => inr (JArr (map snd kv))
  | _ => inl (no_attribute v "values")
  end.

(** *** [int(...)] *)

Fixpoint strip_left (cs : list ascii) : list ascii :=
  match cs with
  | c :: rest => if Ascii.is_space c then strip_left rest else cs
  | [] => []
  end.

Definition strip (cs : list ascii) : list ascii :=
  rev (strip_left (rev (strip_left cs))).

(** Decimal digits, a single underscore allowed between two digits. *)
Fixpoint digits_value (acc : Z) (after_digit : bool) (cs : list ascii) : option Z :=
  match cs with
  | [] => if after_digit then Some acc else None
  | c :: rest =>
      match Ascii.is_nat c with
      | Some d => digits_value (10 * acc + Z.of_nat d) true rest
      | None =>
          if Ascii.eqb c "_" && after_digit then digits_value acc false rest
          else None
      end
  end.

(** [int(s)] of a string: blanks stripped, an optional sign, decimal digits. *)
Definition int_of_string (s : string) : option Z :=
  match strip (list_ascii_of_string s) with
  | "-"%char :: ds => option_map Z.opp (digits_value 0 false ds)
  | "+"%char :: ds => digits_value 0 false ds
  | ds => digits_value 0 false ds
  end.

(** [int(v)] *)
Definition py_int (v : json) : res Z :=
  match v with
  | JNum n => inr n
  | JBool b => inr (if b then 1 else 0)
  | JStr s =>
      match int_of_string s with
      | Some n => inr n
      | None => inl (Exn ValueError
                         ("invalid literal for int() with base 10: '" +:+ s +:+ "'"))
      end
  | _ => inl (Exn TypeError
                  ("int() argument must be a string or a number, not '"
                   +:+ type_name v +:+ "'"))
  end.


(** ** Dates *)

(** A [datetime], as [dateparser.parse] returns it: a point on the time line
    in microseconds, and whether it carries a time zone.  Python refuses to
    order an offset-naive against an offset-aware value. *)
Record datetime := Datetime { instant : Z; aware : bool }.

Definition dt_lt (a b : datetime) : res bool :=
  if Bool.eqb (aware a) (aware b) then inr (instant a <? instant b)
  else inl (Exn TypeError "can't compare offset-naive and offset-aware datetimes").

(** [a < b] where either side may be [None] (a date that did not parse). *)
Definition dt_lt_opt (a b : option datetime) : res bool :=
  match a, b with
  | Some x, Some y => dt_lt x y
  | _, _ => inl (Exn TypeError "'<' not supported between these instances")
  end.

(** [a > b] *)
Definition dt_gt_opt (a b : option datetime) : res bool := dt_lt_opt b a.

(** [d - timedelta(minutes=m)] *)
Definition minus_minutes (d : datetime) (m : Z) : datetime :=
  Datetime (instant d - m * 60000000) (aware d).

(** ** The world the adapters act on *)

Record request := Request {
  req_method : string;
  req_url : string;
  req_body : string;
  req_params : list (string * json);
  req_files : option (string * string)   (* attachment name, file bytes *)
}.

Record response := Response {
  resp_ok : bool;
  status_code : Z;
  resp_text : string;
  resp_json : option json;   (* [None]: the body does not parse as JSON *)
  resp_content : string;
  resp_reason : string
}.

(** [result.json()] *)
Definition response_json (r : response) : res json :=
  match resp_json r with
  | Some j => inr j
  | None => inl (Exn ValueError "Expecting value: line 1 column 1 (char 0)")
  end.

(** What is outside the adapters: the remote server, which answers a request
    knowing the requests sent before it, the library and host functions
    whose results the adapters only pass along, and the two string functions
    of Python that follow the character tables of the interpreter
    ([str.lower] and the [repr] of a string). *)
Record platform := Platform {
  http : list request -> request -> res response;
  str_lower : string -> string;                      (* str.lower *)
  str_repr : string -> string;                       (* repr of a str *)
  parse : string -> option datetime;                 (* dateparser.parse *)
  strftime_minute : datetime -> string;              (* strftime('%Y-%m-%d %H:%M') *)
  json_dumps : json -> string;                       (* json.dumps *)
  json_loads : string -> res json;                   (* json.loads *)
  argToList : json -> list json;
  tableToMarkdown : string -> json -> json -> string; (* name, rows, headers *)
  getFilePath : string -> res (string * string);     (* path and name of an entry *)
  read_file : string -> res string;                  (* open(path, 'rb').read() *)
  integrationInstance : string;
  command : string                                   (* demisto.command() *)
}.

(** [repr(v)] *)
Definition py_repr (P : platform) (v : json) : string := repr_with (str_repr P) v.

(** [str(v)] *)
Definition py_str (P : platform) (v : json) : string :=
  match v with
  | JStr s => s
  | _ => py_repr P v
  end.

(** [s.lower()] as a method call on a document. *)
Definition py_lower (P : platform) (v : json) : res string :=
  match v with
  | JStr s => inr (str_lower P s)
  | _ => inl (no_attribute v "lower")
  end.

Record world := World {
  sent : list request;        (* HTTP requests issued, oldest first *)
  error_log : list string;    (* demisto.error *)
  results : list json;        (* demisto.results *)
  last_run : json;            (* demisto.getLastRun / setLastRun *)
  file_count : nat            (* files handed to the host by fileResult *)
}.

Definition with_sent (w : world) (s : list request) : world :=
  World s (error_log w) (results w) (last_run w) (file_count w).
Definition with_error_log (w : world) (l : list string) : world :=
  World (sent w) l (results w) (last_run w) (file_count w).
Definition with_results (w : world) (r : list json) : world :=
  World (sent w) (error_log w) r (last_run w) (file_count w).
Definition with_last_run (w : world) (j : json) : world :=
  World (sent w) (error_log w) (results w) j (file_count w).
Definition with_file_count (w : world) (n : nat) : world :=
  World (sent w) (error_log w) (results w) (last_run w) n.

(** ** The monad of effects *)

Definition M (A : Type) : Type := world -> res A * world.

Definition ret {A} (a : A) : M A := fun w => (inr a, w).
Definition raise {A} (e : exn) : M A := fun w => (inl e, w).
Definition lift {A} (r : res A) : M A := fun w => (r, w).

Definition bind {A B} (m : M A) (k : A -> M B) : M B :=
  fun w => match m w with
           | (inl e, w') => (inl e, w')
           | (inr a, w') => k a w'
           end.

Notation "'let!' x ':=' m 'in' k" := (bind m (fun x => k))
  (at level 10, x name, m at level 100, k at level 200, only parsing).
Notation "'let!' ' p ':=' m 'in' k" := (bind m (fun x => match x with p => k end))
  (at level 10, p pattern, m at level 100, k at level 200, only parsing).
Notation "m ';;;' k" := (bind m (fun _ => k))
  (at level 100, k at level 200, right associativity, only parsing).

(** [try: m  except C as e: h e], for the exceptions [catches] selects. *)
Definition try_except {A} (m : M A) (catches : exn -> bool) (h : exn -> M A) : M A :=
  fun w => match m w with
           | (inl e, w') => if catches e then h e w' else (inl e, w')
           | (inr a, w') => (inr a, w')
           end.

(** [except Exception] *)
Definition any_exception (e : exn) : bool := true.

(** [try: m  finally: return b]: the [return] discards the outcome of [m],
    an exception in flight included. *)
Definition finally_return {A B} (m : M A) (b : world -> B) : M B :=
  fun w => let w' := snd (m w) in (inr (b w'), w').

(** [try: m  except C as e: h e], followed by [k] outside the [try]: [h]
    handles what [m] raises, and what [k] raises is not its business. *)
Definition try_bind {A B} (m : M A) (catches : exn -> bool) (h : exn -> M B)
    (k : A -> M B) : M B :=
  fun w => match m w with
           | (inl e, w') => if catches e then h e w' else (inl e, w')
           | (inr a, w') => k a w'
           end.

(** Loops: [for x in xs: body x]. *)
Fixpoint for_each {A} (xs : list A) (body : A -> M unit) : M unit :=
  match xs with
  | [] => ret tt
  | x :: rest => body x ;;; for_each rest body
  end.

(** [[f x for x in xs]] where [f] may raise or act. *)
Fixpoint map_M {A B} (f : A -> M B) (xs : list A) : M (list B) :=
  match xs with
  | [] => ret []
  | x :: rest => let! y := f x in let! ys := map_M f rest in ret (y :: ys)
  end.

(** [demisto.error(msg)] *)
Definition demisto_error (msg : string) : M unit :=
  fun w => (inr tt, with_error_log w (error_log w ++ [msg])).

(** [demisto.results(entry)] *)
Definition demisto_results (entry : json) : M unit :=
  fun w => (inr tt, with_results w (results w ++ [entry])).

Definition getLastRun : M json := fun w => (inr (last_run w), w).
Definition setLastRun (j : json) : M unit := fun w => (inr tt, with_last_run w j).

(** Issue one HTTP request: it is recorded, and the server answers (or the
    connection fails). *)
Definition http_send (P : platform) (rq : request) : M response :=
  fun w => (http P (sent w) rq, with_sent w (sent w ++ [rq])).

(** ** Helpers of the host platform *)

(** Modelled from the spec: [return_error] of CommonServerPython is not under
    src/.  It ends the command with "a classified failure ... with a
    human-readable message", "surfaced immediately, aborting the current
    command". *)
Definition return_error {A} (message : string) : M A :=
  raise (Exn ReturnError message).

(** Modelled from the spec: [demisto.get] is the host's dotted-path lookup,
    not under src/: "a fixed list of dotted-path field extractions (e.g.,
    fields.status.name), with graceful fallback ... when a path is absent".
    The path is given as its components. *)
Fixpoint demisto_get (obj : json) (path : list string) : json :=
  match path with
  | [] => obj
  | part :: rest =>
      match obj with
      | JObj kv =>
          match assoc part kv with
          | Some x => demisto_get x rest
          | None => JNull
          end
      | _ => JNull
      end
  end.

(** Modelled from the spec: [dict_safe_get(obj, keys, "", str)] of
    CommonServerPython is not under src/.  It reads "the remote record's
    last-modified timestamp": the value under the keys, the empty string when
    a key is absent; a value that is not a string is a [TypeError]. *)
Fixpoint safe_path (obj : json) (keys : list string) : json :=
  match keys with
  | [] => obj
  | key :: rest =>
      match obj with
      | JObj kv =>
          match assoc key kv with
          | Some x => safe_path x rest
          | None => JStr ""
          end
      | _ => JStr ""
      end
  end.

Definition dict_safe_get_str (obj : json) (keys : list string) : res string :=
  match safe_path obj keys with
  | JStr s => inr s
  | _ => inl (Exn TypeError "Safe get Error: Return Type Error")
  end.

(** Modelled from the spec: [urljoin] of CommonServerPython is not under
    src/; it joins the base URL and a path with exactly one slash. *)
Fixpoint ends_with_slash (s : string) : bool :=
  match s with
  | EmptyString => false
  | String c EmptyString => Ascii.eqb c "/"
  | String _ rest => ends_with_slash rest
  end.

Definition urljoin (url suffix : string) : string :=
  let url := if ends_with_slash url then url else url +:+ "/" in
  match suffix with
  | String "/"%char rest => url +:+ rest
  | _ => url +:+ suffix
  end.

(** The entry types and formats of the host ([EntryType], [entryTypes],
    [EntryFormat]). *)
Definition EntryType_NOTE : json := JNum 1.
Definition EntryType_FILE : json := JNum 3.
Definition EntryType_ERROR : json := JNum 4.
Definition EntryFormat_JSON : json := JStr "json".
Definition EntryFormat_TEXT : json := JStr "text".

(** Modelled from the spec: [fileResult] of CommonServerPython is not under
    src/: "file attachment exchange via a file-id/path indirection".  The
    file is stored with the host under a fresh id, and the entry that names
    it is returned. *)
Definition fileResult (filename : json) (data : string) : M json :=
  fun w =>
    (inr (JObj [("Contents", JStr ""); ("ContentsFormat", EntryFormat_TEXT);
                ("Type", EntryType_FILE); ("File", filename);
                ("FileID", JStr (pretty (file_count w)))]),
     with_file_count w (S (file_count w))).

(** ** More of Python and of the host, for the commands *)

(** [try: m  finally: return x], where [x] is [d] until the last step of
    [m] assigns it: an exception in flight is discarded by the [return],
    and [d] is returned. *)
Definition finally_return_or {A} (m : M A) (d : A) : M A :=
  fun w => match m w with
           | (inr a, w') => (inr a, w')
           | (inl _, w') => (inr d, w')
           end.

(** [v[0]] *)
Definition py_first (v : json) : res json :=
  match v with
  | JArr (x :: _) => inr x
  | JArr [] => inl (Exn IndexError "list index out of range")
  | JStr (String c _) => inr (JStr (String c ""))
  | JStr EmptyString => inl (Exn IndexError "string index out of range")
  | JObj _ => inl (Exn KeyError "0")
  | _ => inl (Exn TypeError ("'" +:+ type_name v +:+ "' object is not subscriptable"))
  end.

(** Where an index of a slice lands in a sequence of length [len]: a
    negative index counts from the end, and both ends are clipped. *)
Definition slice_bound (len i : Z) : Z :=
  if i <? 0 then Z.max (len + i) 0 else Z.min i len.

(** [xs[start:stop]] *)
Definition slice {A} (start stop : Z) (xs : list A) : list A :=
  let len := Z.of_nat (List.length xs) in
  let first := slice_bound len start in
  let last := slice_bound len stop in
  take (Z.to_nat (last - first)) (drop (Z.to_nat first) xs).

(** [v[start:stop]]: lists and strings can be sliced; a dictionary refuses
    a slice as a key. *)
Definition py_slice (v : json) (start stop : Z) : res json :=
  match v with
  | JArr xs => inr (JArr (slice start stop xs))
  | JStr s =>
      inr (JStr (string_of_list_ascii (slice start stop (list_ascii_of_string s))))
  | JObj _ => inl (Exn TypeError "unhashable type: 'slice'")
  | _ => inl (Exn TypeError ("'" +:+ type_name v +:+ "' object is not subscriptable"))
  end.

(** The values that can be a key of a dictionary or a member of a set. *)
Definition hashable (v : json) : bool :=
  match v with
  | JArr _ | JObj _ => false
  | _ => true
  end.

Definition unhashable (v : json) : exn :=
  Exn TypeError ("unhashable type: '" +:+ type_name v +:+ "'").

(** [s.add(x)] on a set kept as the list of its members, in the order they
    came in. *)
Definition set_add (x : json) (s : list json) : res (list json) :=
  if hashable x then inr (if existsb (py_eq x) s then s else s ++ [x])
  else inl (unhashable x).

(** A dictionary whose keys are any hashable values, as a comprehension
    builds it: [d[k] = v] keeps the place and the key of an equal key that
    is there already. *)
Fixpoint dict_set (k v : json) (d : list (json * json)) : list (json * json) :=
  match d with
  | [] => [(k, v)]
  | (k', v') :: rest =>
      if py_eq k k' then (k', v) :: rest else (k', v') :: dict_set k v rest
  end.

(** [CommandResults(...)] of CommonServerPython, as the record of the
    arguments it is built from; an argument that is left out is [None]. *)
Record CommandResults := {
  outputs_prefix : option string;
  outputs_key_field : option string;
  readable_output : string;
  outputs : json;
  raw_response : json
}.

(** Modelled from the spec: [return_outputs] of CommonServerPython is not
    under src/.  It hands the host the "(readable-text,
    structured-context-mapping, raw-JSON) triples" of a command: the world
    records the three arguments of the call, as the command gave them. *)
Definition return_outputs (readable_output : string) (outputs raw_response : json) : M unit :=
  demisto_results (JObj [("HumanReadable", JStr readable_output);
                         ("EntryContext", outputs);
                         ("Contents", raw_response)]).

(** * The Jira adapter ([JiraV2.py]) *)

Module Jira.

Definition BASIC_AUTH_ERROR_MSG : string :=
  "For cloud users: As of June 2019, Basic authentication with passwords for Jira is no"
  +:+ " longer supported, please use an API Token or OAuth 1.0".

Definition JIRA_RESOLVE_REASON : string :=
  "Issue was marked as " +:+ dquote +:+ "Done" +:+ dquote.

(** [Client]: the base URL; the authentication headers it also carries do
    not take part in any decision below. *)
Record Client := { base_url : string }.

(** What [send_request] returns: the parsed body ([resp_type='json']) or the
    response object itself. *)
Inductive reply :=
| Parsed (j : json)
| Raw (r : response).

(** The request [send_request] hands to the HTTP layer: [resource_url] is
    a full URL when [link] is set, and a path under the base URL otherwise. *)
Definition request_of (client : Client) (method resource_url body : string)
    (link : bool) (files : option (string * string)) : request :=
  Request method
    (if link then resource_url else urljoin (base_url client) resource_url)
    body [] files.

Section Adapter.

Variable P : platform.

(** [Client.send_request] (lines 50-90). *)
Definition send_request (client : Client) (method resource_url body : string)
    (link : bool) (resp_type : string) (files : option (string * string)) : M reply :=
  let! result := http_send P (request_of client method resource_url body link files) in
  (if negb (resp_ok result) then
     try_except
       (let! rj := lift (response_json result) in
        let! error_messages := lift (py_get rj "errorMessages") in
        if truthy error_messages then
          let! items := lift (py_item rj "errorMessages") in
          let! joined := lift (py_join "," items) in
          return_error ("Status code: " +:+ str_of_Z (status_code result) +:+ newline
                        +:+ "Message: " +:+ joined)
        else
          let! errors := lift (py_get rj "errors") in
          if truthy errors then
            let! errs := lift (py_item rj "errors") in
            let! vals := lift (py_values errs) in
            let! joined := lift (py_join "," vals) in
            return_error ("Status code: " +:+ str_of_Z (status_code result) +:+ newline
                          +:+ "Message: " +:+ joined)
          else
            return_error ("Status code: " +:+ str_of_Z (status_code result) +:+ newline
                          +:+ "Error text: " +:+ resp_text result))
       is_ValueError
       (fun ve =>
          if status_code result =? 401 then
            return_error ("Unauthorized request, please check authentication related parameters."
                          +:+ BASIC_AUTH_ERROR_MSG)
          else if status_code result =? 404 then
            return_error "Could not connect to the Jira server. Verify that the server URL is correct."
          else if (status_code result =? 500) && bool_decide (is_Some files) then
            return_error ("Failed to execute request, status code: 500" +:+ newline
                          +:+ "Body: " +:+ resp_text result +:+ newline
                          +:+ "Make sure file name doesn't contain any special characters")
          else
            return_error ("Failed reaching the server. status code: "
                          +:+ str_of_Z (status_code result)))
   else ret tt) ;;;
  if String.eqb resp_type "json" then
    let! j := lift (response_json result) in ret (Parsed j)
  else ret (Raw result).

(** A call with [resp_type='json'], whose result the callers use as a
    document. *)
Definition send_request_json (client : Client) (method resource_url body : string)
    (link : bool) (files : option (string * string)) : M json :=
  let! r := send_request client method resource_url body link "json" files in
  match r with
  | Parsed j => ret j
  | Raw _ => raise (Exn TypeError "a response object is not a document")
  end.

(** [list_transitions_data_for_issue] (lines 715-722). *)
Definition list_transitions_data_for_issue (client : Client) (issue_id : string) : M json :=
  send_request_json client "GET" ("rest/api/2/issue/" +:+ issue_id +:+ "/transitions") ""
    false None.

Definition transitions_url (issue_id : string) : string :=
  "rest/api/latest/issue/" +:+ issue_id +:+ "/transitions?expand=transitions.fields".

(** The loop of [edit_status] over [enumerate(transitions)], from index [i]
    on: [Some] of what the first matching iteration returns, [None] when the
    loop runs to its end. *)
Fixpoint edit_status_loop (client : Client) (issue_id : string) (status j_res : json)
    (i : nat) (transitions : list json) : M (option reply) :=
  match transitions with
  | [] => ret None
  | transition :: rest =>
      let! name := lift (py_lower P transition) in
      let! wanted := lift (py_lower P status) in
      if String.eqb name wanted then
        let! all := lift (py_get j_res "transitions") in
        let! chosen := lift (py_nth all i) in
        let! id := lift (py_get chosen "id") in
        let json_body := JObj [("transition", JObj [("id", JStr (py_str P id))])] in
        let! r := send_request client "POST" (transitions_url issue_id)
                    (json_dumps P json_body) false "text" None in
        ret (Some r)
      else edit_status_loop client issue_id status j_res (S i) rest
  end.

(** [edit_status] (lines 701-712). *)
Definition edit_status (client : Client) (issue_id : string) (status : json) : M reply :=
  let! j_res := list_transitions_data_for_issue client issue_id in
  let! all := lift (py_get j_res "transitions") in
  let! items := lift (py_iter all) in
  let! transitions := map_M (fun transition => lift (py_get transition "name")) items in
  let! found := edit_status_loop client issue_id status j_res 0 transitions in
  match found with
  | Some r => ret r
  | None =>
      return_error ("Status " +:+ dquote +:+ py_str P status +:+ dquote +:+ " not found. "
                    +:+ newline +:+ "Valid transitions are: " +:+ py_repr P (JArr transitions)
                    +:+ " " +:+ newline)
  end.

(** [edit_transition] (lines 725-741). *)
Fixpoint edit_transition_loop (client : Client) (issue_id : string) (transition_name : json)
    (transitions_data : list json) : M (option reply) :=
  match transitions_data with
  | [] => ret None
  | transition :: rest =>
      let! name := lift (py_get transition "name") in
      if py_eq name transition_name then
        let! id := lift (py_get transition "id") in
        let json_body := JObj [("transition", JObj [("id", id)])] in
        let! r := send_request client "POST" (transitions_url issue_id)
                    (json_dumps P json_body) false "text" None in
        ret (Some r)
      else edit_transition_loop client issue_id transition_name rest
  end.

Definition edit_transition (client : Client) (issue_id : string) (transition_name : json)
  : M reply :=
  let! j_res := list_transitions_data_for_issue client issue_id in
  let! transitions_data := lift (py_get j_res "transitions") in
  let! items := lift (py_iter transitions_data) in
  let! found := edit_transition_loop client issue_id transition_name items in
  match found with
  | Some r => ret r
  | None =>
      return_error ("Transitions " +:+ dquote +:+ py_str P transition_name +:+ dquote
                    +:+ " not found. " +:+ newline +:+ "Valid transitions are: "
                    +:+ py_repr P transitions_data +:+ " " +:+ newline)
  end.

(** [run_query] (lines 119-173) for a call without [extra_fields] and
    without [nofields], or with an empty [nofields]: the two [if] blocks of
    lines 140-149 are then skipped.  [fetch_incidents], [get_id_offset] and
    the search of [get_modified_remote_data_command] call it so. *)
Definition run_query (client : Client) (query : string) (start_at : string)
    (max_results : json) : M json :=
  let url := urljoin (base_url client) "rest/api/latest/search/" in
  let query_params :=
    [("jql", JStr query); ("startAt", JStr start_at); ("maxResults", max_results)] in
  let! result :=
    try_except (http_send P (Request "GET" url "" query_params None))
      is_ValueError
      (fun _ => raise (Exn ValueError "Could not deserialize privateKey")) in
  try_except
    (let! rj := lift (response_json result) in
     let! issues := lift (py_get rj "issues") in
     if truthy issues then ret rj
     else
       let! messages :=
         lift (py_get_default rj "errorMessages"
                 (JArr [JStr "could not fetch any issues, please check your query"])) in
       let! errors := lift (py_join "," messages) in
       if contains "could not fetch any issues, please check your query" errors
       then ret (JObj [])
       else raise (Exn PlainException
                     ("No issues were found, error message from Jira: " +:+ errors)))
    is_ValueError
    (fun ve => raise (Exn PlainException
                        ("Failed to send request, reason: " +:+ resp_reason result))).

(** ["{name}({email})".format(...) if person else 'null(null)'] *)
Definition name_and_email (person : json) : res json :=
  if truthy person then
    res_bind (py_get_default person "displayName" (JStr "null")) (fun name =>
    res_bind (py_get_default person "emailAddress" (JStr "null")) (fun email =>
    inr (JStr (py_str P name +:+ "(" +:+ py_str P email +:+ ")"))))
  else inr (JStr "null(null)").

Fixpoint filenames (attachments : list json) : res (list json) :=
  match attachments with
  | [] => inr []
  | attach :: rest =>
      res_bind (py_get attach "filename") (fun f =>
      res_bind (filenames rest) (fun fs => inr (f :: fs)))
  end.

Fixpoint check_custom (keys : list json) : res unit :=
  match keys with
  | [] => inr tt
  | i :: rest => res_bind (py_in_str "custom" i) (fun _ => check_custom rest)
  end.

(** One turn of the loop of [generate_md_context_get_issue] (lines 326-382),
    called without [customfields]: the display row and the context row of
    one issue. *)
Definition md_context_of_element (element : json) : res (json * json) :=
  let field path := demisto_get element path in
  (* the comprehension over the names of the fields is evaluated, and may
     raise, although its result is unused without [customfields] *)
  res_bind (py_iter (field ["fields"])) (fun names =>
  res_bind (check_custom names) (fun _ =>
  res_bind (name_and_email (field ["fields"; "assignee"])) (fun assignee =>
  res_bind (name_and_email (field ["fields"; "creator"])) (fun creator =>
  res_bind (name_and_email (field ["fields"; "reporter"])) (fun reporter =>
  let attachments := field ["fields"; "attachment"] in
  res_bind (match attachments with
            | JArr xs =>
                res_bind (filenames xs) (fun fs =>
                res_bind (py_join "," (JArr fs)) (fun joined =>
                inr [("attachment", JStr joined)]))
            | _ => inr []
            end) (fun attachment =>
  inr (JObj ([("id", field ["id"]); ("key", field ["key"]);
              ("summary", field ["fields"; "summary"]);
              ("status", field ["fields"; "status"; "name"]);
              ("priority", field ["fields"; "priority"; "name"]);
              ("project", field ["fields"; "project"; "name"]);
              ("duedate", field ["fields"; "duedate"]);
              ("created", field ["fields"; "created"]);
              ("assignee", assignee); ("creator", creator); ("reporter", reporter);
              ("issueType", field ["fields"; "issuetype"; "description"]);
              ("labels", field ["fields"; "labels"]);
              ("description", field ["fields"; "description"]);
              ("ticket_link", field ["self"])] ++ attachment),
       JObj ([("Id", field ["id"]); ("Key", field ["key"]);
              ("Summary", field ["fields"; "summary"]);
              ("Status", field ["fields"; "status"; "name"]);
              ("Priority", field ["fields"; "priority"; "name"]);
              ("ProjectName", field ["fields"; "project"; "name"]);
              ("DueDate", field ["fields"; "duedate"]);
              ("Created", field ["fields"; "created"]);
              ("Assignee", assignee); ("Creator", creator);
              ("LastSeen", field ["fields"; "lastViewed"]);
              ("LastUpdate", field ["fields"; "updated"])] ++ attachment)))))))).

Fixpoint md_context_of_elements (data : list json) : res (list json * list json) :=
  match data with
  | [] => inr ([], [])
  | element :: rest =>
      res_bind (md_context_of_element element) (fun mc =>
      res_bind (md_context_of_elements rest) (fun r =>
      inr (fst mc :: fst r, snd mc :: snd r)))
  end.

(** [generate_md_context_get_issue] (lines 321-384): the ["md"] and the
    ["context"] lists. *)
Definition generate_md_context_get_issue (data : json) : res (json * json) :=
  let data := match data with JArr xs => xs | _ => [data] end in
  res_bind (md_context_of_elements data) (fun r => inr (JArr (fst r), JArr (snd r))).

(** [get_issue] (lines 633-655), as the polling and mirroring paths call it:
    [expand_links] and [get_attachments] keep their default [False].  The
    result is [(human_readable, outputs, contents)]. *)
Definition get_issue (client : Client) (issue_id : string) (headers : json)
    (is_update : bool) : M (string * json * json) :=
  let! j_res := send_request_json client "GET" ("rest/api/latest/issue/" +:+ issue_id) ""
                  false None in
  let! md_and_context := lift (generate_md_context_get_issue j_res) in
  let human_readable := tableToMarkdown P (command P) (fst md_and_context) headers in
  let human_readable :=
    if is_update
    then human_readable +:+ "Issue #" +:+ issue_id +:+ " was updated successfully"
    else human_readable in
  ret (human_readable,
       JObj [("Ticket(val.Id == obj.Id)", snd md_and_context)],
       j_res).

(** [get_comments_command] (lines 764-781):
    [(human_readable, outputs, contents)]. *)
Definition get_comments_command (client : Client) (issue_id : string)
  : M (string * json * json) :=
  let! body := send_request_json client "GET"
                 ("rest/api/latest/issue/" +:+ issue_id +:+ "/comment") "" false None in
  let! found := lift (py_get body "comments") in
  if truthy found then
    let! items := lift (py_iter found) in
    let! comments :=
      map_M (fun comment =>
               let! text := lift (py_get comment "body") in
               let! created := lift (py_get comment "created") in
               ret (JObj [("Comment", text);
                          ("User", demisto_get comment ["updateAuthor"; "name"]);
                          ("Created", created)])) items in
    let human_readable := tableToMarkdown P "Comments" (JArr comments) JNull in
    ret (human_readable,
         JObj [("Ticket(val.Id == obj.Id)",
                JObj [("Id", JStr issue_id); ("Comment", JArr comments)])],
         body)
  else ret ("No comments were found in the ticket", JNull, JNull).

(** [get_attachment_data] (lines 985-996): the file name and the content. *)
Definition get_attachment_data (client : Client) (attachment : json) : M (json * string) :=
  let! attachment_url := lift (py_get attachment "content") in
  let! filename := lift (py_get attachment "filename") in
  let! r := send_request client "GET" (py_str P attachment_url) "" true "text" None in
  match r with
  | Raw result => ret (filename, resp_content result)
  | Parsed j => raise (no_attribute j "content")
  end.

(** [get_attachments] (lines 999-1022). *)
Definition get_attachments (client : Client) (attachments : json)
    (incident_modified_date : option datetime) (only_new : bool) : M (list json) :=
  if truthy attachments then
    let! items := lift (py_iter attachments) in
    if negb only_new then
      map_M (fun attachment =>
               let! '(filename, attachments_zip) := get_attachment_data client attachment in
               fileResult filename attachments_zip) items
    else
      let! found :=
        map_M (fun attachment =>
                 let! created := lift (dict_safe_get_str attachment ["created"]) in
                 let attachment_modified_date := parse P created in
                 let! newer := lift (dt_lt_opt incident_modified_date
                                       attachment_modified_date) in
                 if newer then
                   let! '(filename, attachments_zip) :=
                     get_attachment_data client attachment in
                   let! file := fileResult filename attachments_zip in
                   ret [file]
                 else ret []) items in
      ret (List.concat found)
  else ret [].

(** [get_comments] (lines 1025-1041). *)
Definition get_comments (comments : json) (incident_modified_date : option datetime)
    (only_new : bool) : res json :=
  if negb only_new then inr comments
  else
    res_bind (py_iter comments) (fun items =>
    res_bind
      ((fix each (cs : list json) : res (list json) :=
          match cs with
          | [] => inr []
          | comment :: rest =>
              res_bind (dict_safe_get_str comment ["updated"]) (fun updated =>
              let comment_modified_date := parse P updated in
              res_bind (dt_lt_opt incident_modified_date comment_modified_date)
                (fun newer =>
              res_bind (each rest) (fun kept =>
              inr (if newer then comment :: kept else kept))))
          end) items)
      (fun returned_comments => inr (JArr returned_comments))).

(** The dictionary [{'comments': ..., 'attachments': ...}] of an incident's
    entries. *)
Record entries := Entries { comments : json; attachments : list json }.

(** [get_incident_entries] (lines 1044-1069). *)
Definition get_incident_entries (client : Client) (issue : json)
    (incident_modified_date : option datetime) (only_new : bool)
    (should_get_comments should_get_attachments : bool) : M entries :=
  let! comments :=
    if should_get_comments then
      let! id := lift (py_item issue "id") in
      let! '(_, _, comments_content) := get_comments_command client (py_str P id) in
      if truthy comments_content then
        let! raw := lift (py_get_default comments_content "comments" (JArr [])) in
        lift (get_comments raw incident_modified_date only_new)
      else ret (JArr [])
    else ret (JArr []) in
  let! attachments :=
    if should_get_attachments then
      let attachments := demisto_get issue ["fields"; "attachment"] in
      if truthy attachments then
        get_attachments client attachments incident_modified_date only_new
      else ret []
    else ret [] in
  ret (Entries comments attachments).

(** [get_entries_for_fetched_incident] (lines 923-939): whatever fails, the
    entries gathered so far (none) are returned.  The date argument is the
    empty string there, which [only_new=False] never compares. *)
Definition get_entries_for_fetched_incident (client : Client) (ticket_id : json)
    (should_get_comments should_get_attachments : bool) : M entries :=
  try_except
    (let! '(_, _, raw_response) := get_issue client (py_str P ticket_id) JNull false in
     get_incident_entries client raw_response None false
       should_get_comments should_get_attachments)
    any_exception
    (fun e => ret (Entries (JArr []) [])).

(** [get_mirror_type] (lines 421-437). *)
Definition get_mirror_type (should_mirror_in should_mirror_out : bool) : json :=
  if should_mirror_in && should_mirror_out then JStr "Both"
  else if should_mirror_in then JStr "In"
  else if should_mirror_out then JStr "Out"
  else JNull.

Definition label (type : string) (value : string) : json :=
  JObj [("type", JStr type); ("value", JStr value)].

(** The loop over the fetched attachments (lines 474-479): the path and
    name of every file entry that is not an error entry. *)
Fixpoint file_names_of (file_results : list json) : res (list json) :=
  match file_results with
  | [] => inr []
  | file_result :: rest =>
      res_bind (py_item file_result "Type") (fun type =>
      res_bind
        (if negb (py_eq_num type 4) then
           res_bind (py_get_default file_result "FileID" (JStr "")) (fun path =>
           res_bind (py_get_default file_result "File" (JStr "")) (fun name =>
           inr [JObj [("path", path); ("name", name)]]))
         else inr []) (fun here =>
      res_bind (file_names_of rest) (fun more => inr (here ++ more))))
  end.

(** [create_incident_from_ticket] (lines 440-502). *)
Definition create_incident_from_ticket (client : Client) (issue : json)
    (should_get_attachments should_get_comments should_mirror_in should_mirror_out : bool)
    (comment_tag attachment_tag : json) : M json :=
  let field path := demisto_get issue path in
  let! id := lift (py_get issue "id") in
  let labels :=
    [label "issue" (json_dumps P issue); label "id" (py_str P id);
     label "lastViewed" (py_str P (field ["fields"; "lastViewed"]));
     label "priority" (py_str P (field ["fields"; "priority"; "name"]));
     label "status" (py_str P (field ["fields"; "status"; "name"]));
     label "project" (py_str P (field ["fields"; "project"; "name"]));
     label "updated" (py_str P (field ["fields"; "updated"]));
     label "reportername" (py_str P (field ["fields"; "reporter"; "displayName"]));
     label "reporteremail" (py_str P (field ["fields"; "reporter"; "emailAddress"]));
     label "created" (py_str P (field ["fields"; "created"]));
     label "summary" (py_str P (field ["fields"; "summary"]));
     label "description" (py_str P (field ["fields"; "description"]))] in
  let name := field ["fields"; "summary"] in
  let name := if truthy name then JStr ("Jira issue: " +:+ py_str P id) else name in
  let priority := field ["fields"; "priority"; "name"] in
  let severity :=
    if truthy (field ["fields"; "priority"]) && truthy priority then
      if py_eq_str priority "Highest" then 4
      else if py_eq_str priority "High" then 3
      else if py_eq_str priority "Medium" then 2
      else if py_eq_str priority "Low" then 1
      else 0
    else 0 in
  let! file_names :=
    if should_get_attachments then
      let! got := get_entries_for_fetched_incident client id false true in
      lift (file_names_of (attachments got))
    else ret [] in
  let! labels :=
    if should_get_comments then
      let! got := get_entries_for_fetched_incident client id true false in
      ret (labels ++ [label "comments" (py_str P (comments got))])
    else ret (labels ++ [label "comments" "[]"]) in
  let! issue := lift (py_setitem issue "mirror_direction"
                        (get_mirror_type should_mirror_in should_mirror_out)) in
  let! issue := lift (py_setitem issue "mirror_tags" (JArr [comment_tag; attachment_tag])) in
  let! issue := lift (py_setitem issue "mirror_instance" (JStr (integrationInstance P))) in
  ret (JObj [("name", name); ("labels", JArr labels);
             ("details", demisto_get issue ["fields"; "description"]);
             ("severity", JNum severity); ("attachment", JArr file_names);
             ("rawJSON", JStr (json_dumps P issue))]).

(** The variables the loop of [fetch_incidents] updates. *)
Record fetch_state := FetchState {
  st_id_offset : json;
  st_last_created_time : json;
  st_incidents : list json
}.

(** What the loop reads from a ticket before it decides (lines 970-971):
    [int(ticket.get('id'))] and [ticket.get('fields', {}).get('created', '')]. *)
Definition read_ticket (ticket : json) : res (Z * json) :=
  res_bind (py_get ticket "id") (fun raw_id =>
  res_bind (py_int raw_id) (fun ticket_id =>
  res_bind (py_get_default ticket "fields" (JObj [])) (fun fields =>
  res_bind (py_get_default fields "created" (JStr "")) (fun ticket_created =>
  inr (ticket_id, ticket_created))))).

(** The loop of [fetch_incidents] over the issues of the response
    (lines 969-979). *)
Fixpoint fetch_loop (client : Client)
    (should_get_attachments should_get_comments should_mirror_in should_mirror_out : bool)
    (comment_tag attachment_tag : json) (curr_id : Z) (tickets : list json)
    (st : fetch_state) : M fetch_state :=
  match tickets with
  | [] => ret st
  | ticket :: rest =>
      let! '(ticket_id, ticket_created) := lift (read_ticket ticket) in
      if ticket_id <=? curr_id then
        fetch_loop client should_get_attachments should_get_comments should_mirror_in
          should_mirror_out comment_tag attachment_tag curr_id rest st
      else
        let! high := lift (py_int (st_id_offset st)) in
        let st :=
          if high <? ticket_id
          then FetchState (JNum ticket_id) ticket_created (st_incidents st)
          else st in
        let! incident :=
          create_incident_from_ticket client ticket should_get_attachments
            should_get_comments should_mirror_in should_mirror_out comment_tag
            attachment_tag in
        fetch_loop client should_get_attachments should_get_comments should_mirror_in
          should_mirror_out comment_tag attachment_tag curr_id rest
          (FetchState (st_id_offset st) (st_last_created_time st)
             (st_incidents st ++ [incident]))
  end.

(** [parse(v)] of a value read from the last run: only a string parses. *)
Definition parse_value (v : json) : res (option datetime) :=
  match v with
  | JStr s => inr (parse P s)
  | _ => inl (Exn TypeError "Input type must be str")
  end.

(** The cursor [fetch_incidents] starts from (lines 944-951): the stored one
    when there is a last run, the configured [id_offset] otherwise, and [0]
    for a missing or empty offset. *)
Definition starting_cursor (last_run id_offset : json) : res (json * json) :=
  res_bind
    (if truthy last_run then
       res_bind (py_get last_run "idOffset") (fun stored_offset =>
       res_bind (py_get last_run "lastCreatedTime") (fun stored_time =>
       inr (py_or stored_offset (JStr ""), py_or stored_time (JStr ""))))
     else inr (id_offset, JStr ""))
    (fun c => inr (if negb (truthy (fst c)) then JNum 0 else fst c, snd c)).

(** The query [fetch_incidents] sends (lines 954-964). *)
Definition fetch_query (query : string) (id_offset last_created_time : json)
    (fetch_by_created : bool) : res string :=
  if fetch_by_created && truthy last_created_time then
    res_bind (parse_value last_created_time) (fun last_issue_time =>
    match last_issue_time with
    | None => inl (Exn AssertionError ("could not parse " +:+ py_str P last_created_time))
    | Some t =>
        let minute_to_fetch := minus_minutes t 2 in
        inr (query +:+ " AND created>=" +:+ dquote +:+ strftime_minute P minute_to_fetch
             +:+ dquote)
    end)
  else
    let query :=
      if truthy id_offset then query +:+ " AND id >= " +:+ py_str P id_offset else query in
    let query := if fetch_by_created then query +:+ " AND created>-1m" else query in
    inr query.

(** [fetch_incidents] (lines 942-982). *)
Definition fetch_incidents (client : Client) (query : string) (id_offset : json)
    (should_get_attachments should_get_comments should_mirror_in should_mirror_out : bool)
    (comment_tag attachment_tag : json) (fetch_by_created : bool) : M (list json) :=
  let! last_run := getLastRun in
  let! '(id_offset, last_created_time) := lift (starting_cursor last_run id_offset) in
  let max_results := JNum 50 in
  let! query := lift (fetch_query query id_offset last_created_time fetch_by_created) in
  let! res := run_query client query "" max_results in
  let! st :=
    if truthy res then
      let! curr_id := lift (py_int id_offset) in
      let! issues := lift (py_get res "issues") in
      let! tickets := lift (py_iter issues) in
      fetch_loop client should_get_attachments should_get_comments should_mirror_in
        should_mirror_out comment_tag attachment_tag curr_id tickets
        (FetchState id_offset last_created_time [])
    else ret (FetchState id_offset last_created_time []) in
  setLastRun (JObj [("idOffset", st_id_offset st);
                    ("lastCreatedTime", st_last_created_time st)]) ;;;
  ret (st_incidents st).

(** [incident_data.get('fields').get('status').get('name')] *)
Definition status_name (incident_data : json) : res json :=
  res_bind (py_get incident_data "fields") (fun fields =>
  res_bind (py_get fields "status") (fun status =>
  py_get status "name")).

(** The entry that closes the incident on the host. *)
Definition closing_entry : json :=
  JObj [("Type", EntryType_NOTE);
        ("Contents", JObj [("dbotIncidentClose", JBool true);
                           ("closeReason", JStr JIRA_RESOLVE_REASON)]);
        ("ContentsFormat", EntryFormat_JSON)].

(** [handle_incoming_closing_incident] (lines 1090-1108). *)
Definition handle_incoming_closing_incident (incident_data : json) : res json :=
  res_bind (status_name incident_data) (fun name =>
  inr (if py_eq_str name "Done" then closing_entry else JObj [])).

(** [GetRemoteDataResponse(mirrored_object, entries)] *)
Record GetRemoteDataResponse := {
  mirrored_object : json;
  response_entries : list json
}.

(** The [except] clause of [get_remote_data_command] (lines 1276-1293),
    reached with [incident_update] as the [try] block left it. *)
Definition mirror_in_failed (remote_incident_id : string) (incident_update : json) (e : exn)
  : M GetRemoteDataResponse :=
  (if contains "Rate limit exceeded" (exn_msg e) then return_error "API rate limit"
   else ret tt) ;;;
  let! incident_update :=
    if truthy incident_update then
      lift (py_setitem incident_update "in_mirror_error" (JStr (exn_msg e)))
    else ret (JObj [("id", JStr remote_incident_id);
                    ("in_mirror_error", JStr (exn_msg e))]) in
  ret {| mirrored_object := incident_update; response_entries := [] |}.

(** The entry of a new comment (lines 1260-1267). *)
Definition comment_entry (comment : json) : res json :=
  res_bind (py_get_default comment "body" (JStr "")) (fun body =>
  inr (JObj [("Type", EntryType_NOTE); ("Contents", body);
             ("ContentsFormat", EntryFormat_TEXT); ("Note", JBool true)])).

Fixpoint comment_entries (comments : list json) : res (list json) :=
  match comments with
  | [] => inr []
  | comment :: rest =>
      res_bind (comment_entry comment) (fun e =>
      res_bind (comment_entries rest) (fun es => inr (e :: es)))
  end.

(** [get_remote_data_command] (lines 1212-1293), for the arguments
    [id] and [lastUpdate].  The [try] block is modelled in two parts, before
    and after [incident_update = issue_raw_response], because the [except]
    clause reads [incident_update]. *)
Definition get_remote_data_command (client : Client)
    (remote_incident_id last_update : string) : M GetRemoteDataResponse :=
  try_bind
    (let! '(_, _, issue_raw_response) := get_issue client remote_incident_id JNull false in
     let! updated := lift (dict_safe_get_str issue_raw_response ["fields"; "updated"]) in
     let jira_modified_date := parse P updated in
     let incident_modified_date := parse P last_update in
     let! newer := lift (dt_gt_opt jira_modified_date incident_modified_date) in
     ret (issue_raw_response, incident_modified_date, newer))
    any_exception
    (mirror_in_failed remote_incident_id (JObj []))
    (fun '(issue_raw_response, incident_modified_date, newer) =>
       if newer : bool then
         try_except
           (let incident_update := issue_raw_response in
            let! closed_issue := lift (handle_incoming_closing_incident incident_update) in
            if truthy closed_issue then
              let! incident_update :=
                lift (py_setitem incident_update "in_mirror_error" (JStr "")) in
              ret {| mirrored_object := incident_update;
                     response_entries := [closed_issue] |}
            else
              let! entries := get_incident_entries client issue_raw_response
                                incident_modified_date true true true in
              let! new_comments := lift (py_iter (comments entries)) in
              let! notes := lift (comment_entries new_comments) in
              let parsed_entries := notes ++ attachments entries in
              let! incident_update :=
                lift (py_setitem incident_update "in_mirror_error" (JStr "")) in
              ret {| mirrored_object := incident_update;
                     response_entries := parsed_entries |})
           any_exception
           (mirror_in_failed remote_incident_id issue_raw_response)
       else
         ret {| mirrored_object := JObj [("in_mirror_error", JStr "")];
                response_entries := [] |}).

(** [get_project_id] (lines 505-514). *)
Fixpoint find_project (project_key project_name : json) (projects : list json) : res (option json) :=
  match projects with
  | [] => inr None
  | project :: rest =>
      res_bind (py_lower P project_key) (fun wanted_key =>
      res_bind (py_get project "key") (fun key =>
      res_bind (py_lower P key) (fun key =>
      res_bind
        (if String.eqb wanted_key key then inr true
         else
           res_bind (py_lower P project_name) (fun wanted_name =>
           res_bind (py_get project "name") (fun name =>
           res_bind (py_lower P name) (fun name =>
           inr (String.eqb wanted_name name))))) (fun found =>
      if found : bool then res_bind (py_get project "id") (fun id => inr (Some id))
      else find_project project_key project_name rest))))
  end.

Definition get_project_id (client : Client) (project_key project_name : json) : M json :=
  (if negb (truthy project_key) && negb (truthy project_name) then
     return_error "You must provide at least one of the following: project_key or project_name"
   else ret tt) ;;;
  let! result := send_request_json client "GET" "rest/api/latest/issue/createmeta" ""
                   false None in
  let! projects := lift (py_get result "projects") in
  let! items := lift (py_iter projects) in
  let! found := lift (find_project project_key project_name items) in
  match found with
  | Some id => ret id
  | None => return_error "Project not found"
  end.

(** [obj[k1][k2]...[kn] = v] *)
Fixpoint set_path (obj : json) (path : list string) (v : json) : res json :=
  match path with
  | [] => inr v
  | [k] => py_setitem obj k v
  | k :: rest =>
      res_bind (py_item obj k) (fun child =>
      res_bind (set_path child rest v) (fun child' =>
      py_setitem obj k child'))
  end.

(** [issue['fields'].get(k)] *)
Definition fields_get (issue : json) (k : string) : res json :=
  res_bind (py_item issue "fields") (fun fields => py_get fields k).

(** [if not issue['fields'].get(k): issue['fields'][k] = {}] *)
Definition ensure_field (k : string) (issue : json) : res json :=
  res_bind (fields_get issue k) (fun current =>
  if truthy current then inr issue else set_path issue ["fields"; k] (JObj [])).

Fixpoint run_steps (steps : list (json -> res json)) (issue : json) : res json :=
  match steps with
  | [] => inr issue
  | step :: rest => res_bind (step issue) (run_steps rest)
  end.

Section IssueFields.

(** The keyword arguments [**issue_args]. *)
Variable issue_args : list (string * json).

(** [issue_args.get(k)] *)
Definition arg (k : string) : json := default JNull (assoc k issue_args).

(** [if issue_args.get(k): issue['fields']<path> = f(issue_args[k])] *)
Definition copy_arg (k : string) (path : list string) (f : json -> json) (issue : json)
  : res json :=
  if truthy (arg k) then set_path issue ("fields" :: path) (f (arg k)) else inr issue.

(** The same after making sure [issue['fields'][parent]] is there. *)
Definition copy_arg_under (k parent child : string) (issue : json) : res json :=
  if truthy (arg k) then
    res_bind (ensure_field parent issue) (fun issue =>
    set_path issue ["fields"; parent; child] (arg k))
  else inr issue.

(** The custom fields a mirrored delta carries (lines 541-544). *)
Fixpoint copy_custom_fields (args : list (string * json)) (issue : json) : res json :=
  match args with
  | [] => inr issue
  | (field_name, value) :: rest =>
      res_bind
        (if negb (String.eqb field_name "") && startswith "customfield" field_name
         then set_path issue ["fields"; field_name] value
         else inr issue)
        (copy_custom_fields rest)
  end.

(** The document [get_issue_fields] starts from (lines 524-536). *)
Definition issue_json_of : M json :=
  let load (v : json) : M json :=
    match v with
    | JStr s => lift (json_loads P s)
    | _ => return_error "issueJson must be in a valid json format"
    end in
  match assoc "issue_json" issue_args, assoc "issueJson" issue_args with
  | Some v, _ => load v
  | None, Some v => load v
  | None, None => ret (JObj [])
  end.

(** [get_issue_fields] (lines 517-630). *)
Definition get_issue_fields (client : Client) (issue_creating mirroring : bool) : M json :=
  let! issue := issue_json_of in
  let! issue :=
    lift (run_steps
      [ (fun issue =>
           res_bind (py_get issue "fields") (fun fields =>
           if truthy fields then inr issue else py_setitem issue "fields" (JObj [])));
        (fun issue => if mirroring then copy_custom_fields issue_args issue else inr issue);
        (fun issue =>
           res_bind (fields_get issue "issuetype") (fun issuetype =>
           if negb (truthy issuetype) && issue_creating
           then set_path issue ["fields"; "issuetype"] (JObj []) else inr issue));
        copy_arg "summary" ["summary"] id;
        (fun issue =>
           res_bind (fields_get issue "project") (fun project =>
           if negb (truthy project) && (truthy (arg "projectKey") || truthy (arg "projectName"))
           then set_path issue ["fields"; "project"] (JObj []) else inr issue));
        copy_arg "projectKey" ["project"; "key"] id;
        copy_arg "projectName" ["project"; "name"] id ] issue) in
  let! issue :=
    if issue_creating then
      let! fields := lift (py_item issue "fields") in
      let! project := lift (py_get_default fields "project" (JObj [])) in
      let! key := lift (py_get_default project "key" (JStr "")) in
      let! project := lift (py_get_default fields "project" (JObj [])) in
      let! name := lift (py_get_default project "name" (JStr "")) in
      let! project_id := get_project_id client key name in
      lift (set_path issue ["fields"; "project"; "id"] project_id)
    else ret issue in
  lift (run_steps
    [ copy_arg "issueTypeName" ["issuetype"; "name"] id;
      copy_arg "issueTypeId" ["issuetype"; "id"] id;
      copy_arg_under "parentIssueId" "parent" "id";
      copy_arg_under "parentIssueKey" "parent" "key";
      copy_arg "description" ["description"] id;
      copy_arg "components" ["components"]
        (fun v => JArr (map (fun comp => JObj [("name", comp)]) (argToList P v)));
      copy_arg "security" ["security"] (fun v => JObj [("name", v)]);
      copy_arg "environment" ["environment"] id;
      (fun issue =>
         match arg "labels" with
         | JStr s =>
             if truthy (JStr s)
             then set_path issue ["fields"; "labels"] (JArr (map JStr (split_on "," s)))
             else inr issue
         | JArr xs =>
             if truthy (JArr xs) then set_path issue ["fields"; "labels"] (JArr xs)
             else inr issue
         | _ => inr issue
         end);
      copy_arg_under "priority" "priority" "name";
      (fun issue =>
         let duedate := py_or (arg "duedate") (arg "dueDate") in
         if truthy duedate then set_path issue ["fields"; "duedate"] duedate else inr issue);
      copy_arg_under "assignee" "assignee" "name";
      copy_arg_under "assignee_id" "assignee" "accountId";
      copy_arg_under "reporter_id" "reporter" "accountId";
      copy_arg_under "reporter" "reporter" "name" ] issue).

End IssueFields.

(** [edit_issue_command] (lines 687-698).  [args] are the keyword arguments
    besides [issue_id] and [mirroring]: [headers], [status] and [transition]
    are taken from them, the others go on to [get_issue_fields]. *)
Definition edit_issue_command (client : Client) (issue_id : string) (mirroring : bool)
    (args : list (string * json)) : M (string * json * json) :=
  let headers := default JNull (assoc "headers" args) in
  let status := default JNull (assoc "status" args) in
  let transition := default JNull (assoc "transition" args) in
  let kwargs :=
    filter (fun p => negb (String.eqb (fst p) "headers" || String.eqb (fst p) "status"
                           || String.eqb (fst p) "transition"
                           || String.eqb (fst p) "issue_creating") = true) args in
  let issue_creating := truthy (default JNull (assoc "issue_creating" args)) in
  let url := "rest/api/latest/issue/" +:+ issue_id +:+ "/" in
  let! issue := get_issue_fields kwargs client issue_creating mirroring in
  send_request client "PUT" url (json_dumps P issue) false "text" None ;;;
  (if truthy status && truthy transition then
     return_error "Please provide only status or transition, but not both."
   else if truthy status then edit_status client issue_id status ;;; ret tt
   else if truthy transition then edit_transition client issue_id transition ;;; ret tt
   else ret tt) ;;;
  get_issue client issue_id headers true.

(** [add_comment] (lines 784-793). *)
Definition add_comment (client : Client) (issue_id : string) (comment : string)
    (visibility : json) : M json :=
  let body := [("body", JStr comment)] in
  let body :=
    if truthy visibility
    then body ++ [("visibility", JObj [("type", JStr "role"); ("value", visibility)])]
    else body in
  send_request_json client "POST" ("rest/api/latest/issue/" +:+ issue_id +:+ "/comment")
    (json_dumps P (JObj body)) false None.

(** [get_file] (lines 836-842): the name and the bytes of an entry's file. *)
Definition get_file (entry_id : string) : res (string * string) :=
  res_bind (getFilePath P entry_id) (fun path_and_name =>
  res_bind (read_file P (fst path_and_name)) (fun file_bytes =>
  inr (snd path_and_name, file_bytes))).

(** [upload_file] (lines 823-833). *)
Definition upload_file (client : Client) (entry_id issue_id : string)
    (attachment_name : json) : M json :=
  let! '(file_name, file_bytes) := lift (get_file entry_id) in
  let name := if truthy attachment_name then py_str P attachment_name else file_name in
  send_request_json client "POST"
    ("rest/api/latest/issue/" +:+ issue_id +:+ "/attachments") "" false
    (Some (name, file_bytes)).

(** [UpdateRemoteSystemArgs(args)] *)
Record UpdateRemoteSystemArgs := {
  data : json;
  args_entries : json;
  incident_changed : json;
  remote_incident_id : string;
  delta : json
}.

(** One turn of the loop over the entries (lines 1143-1151). *)
Definition push_entry (client : Client) (remote_id : string) (entry : json) : M unit :=
  let! id := lift (py_get entry "id") in
  let! type := lift (py_get entry "type") in
  if py_eq_num type 3 then
    let! path_res := lift (getFilePath P (py_str P id)) in
    let file_name := snd path_res in
    upload_file client (py_str P id) remote_id (JStr file_name) ;;; ret tt
  else
    let! contents := lift (py_get_default entry "contents" (JStr "")) in
    add_comment client remote_id (py_str P contents) (JStr "") ;;; ret tt.

(** The field edit of [update_remote_system_command] (lines 1132-1139):
    the delta becomes the keyword arguments of [edit_issue_command], which
    refuses a second value for [issue_id] or [mirroring]. *)
Definition push_fields (client : Client) (remote_args : UpdateRemoteSystemArgs) : M unit :=
  if truthy (delta remote_args) && truthy (incident_changed remote_args) then
    match delta remote_args with
    | JObj kwargs =>
        if bool_decide (is_Some (assoc "issue_id" kwargs))
           || bool_decide (is_Some (assoc "mirroring" kwargs))
           || bool_decide (is_Some (assoc "client" kwargs))
        then raise (Exn TypeError "edit_issue_command() got multiple values for an argument")
        else edit_issue_command client (remote_incident_id remote_args) true kwargs ;;; ret tt
    | other => raise (no_attribute other "keys")
    end
  else ret tt.

(** [update_remote_system_command] (lines 1111-1156). *)
Definition update_remote_system_command (client : Client)
    (remote_args : UpdateRemoteSystemArgs) : M string :=
  let entries := args_entries remote_args in
  let remote_id := remote_incident_id remote_args in
  finally_return
    (try_except
       (push_fields client remote_args ;;;
        if truthy entries then
          let! items := lift (py_iter entries) in
          for_each items (push_entry client remote_id)
        else ret tt)
       any_exception
       (fun e =>
          demisto_error ("Error in Jira outgoing mirror for incident " +:+ remote_id
                         +:+ " " +:+ newline +:+ "Error message: " +:+ exn_msg e)))
    (fun _ => remote_id).

End Adapter.

(** ** The other commands *)

Section Commands.

Variable P : platform.

(** [tableToMarkdown(name, t, headers, removeNull=True)] and
    [demisto.getParam(name)] of the host, and [dateparser.parse] with the
    setting [TIMEZONE]. *)
Variable tableToMarkdown_removeNull : string -> json -> json -> string.
Variable getParam : string -> json.
Variable parse_in_timezone : json -> string -> option datetime.

(** [get_id_offset] (lines 176-186). *)
Definition get_id_offset (client : Client) : M unit :=
  let query := "ORDER BY created ASC" in
  let! j_res := run_query P client query "" (JNum 1) in
  let! issues := lift (py_get j_res "issues") in
  let! first := lift (py_first issues) in
  let! first_issue_id := lift (py_get first "id") in
  return_outputs ("ID Offset: " +:+ py_str P first_issue_id)
    (JObj [("Ticket.idOffSet", first_issue_id)]) JNull.

(** The comprehension of [get_custom_fields]:
    [{field.get('id'): field.get('description') for field in fields}]. *)
Fixpoint fields_by_id (fields : list json) (d : list (json * json))
  : res (list (json * json)) :=
  match fields with
  | [] => inr d
  | field :: rest =>
      res_bind (py_get field "id") (fun id =>
      res_bind (py_get field "description") (fun description =>
      if hashable id then fields_by_id rest (dict_set id description d)
      else inl (unhashable id)))
  end.

(** The request [get_custom_fields] sends, past [send_request]. *)
Definition fields_request (client : Client) : request :=
  Request "GET" (urljoin (base_url client) "rest/api/latest/field") "" [] None.

(** [get_custom_fields] (lines 189-212): the descriptions of the fields by
    their ids. *)
Definition get_custom_fields (client : Client) : M (list (json * json)) :=
  finally_return_or
    (try_bind (http_send P (fields_request client))
       any_exception
       (fun e =>
          demisto_error ("Could not get custom fields because got the next exception: "
                         +:+ exn_msg e) ;;;
          ret [])
       (fun res =>
          if status_code res =? 200 then
            let! custom_fields_list := lift (response_json res) in
            let! fields := lift (py_iter custom_fields_list) in
            lift (fields_by_id fields [])
          else
            demisto_error ("Could not get custom fields. status code: "
                           +:+ str_of_Z (status_code res) +:+ ". reason: "
                           +:+ resp_reason res) ;;;
            ret []))
    [].

(** [search_user] (lines 234-258). *)
Definition search_user (client : Client) (query max_results : string) (is_jirav2api : bool)
  : M json :=
  let url :=
    if is_jirav2api
    then "rest/api/latest/user/search?username=" +:+ query +:+ "&maxResults=" +:+ max_results
    else "rest/api/latest/user/search?query=" +:+ query +:+ "&maxResults=" +:+ max_results in
  send_request_json P client "GET" url "" false None.

(** [attribute.lower() in [user.get('displayName', '').lower(),
    user.get('emailAddress', '').lower()]] *)
Definition user_matches (attribute : string) (user : json) : res bool :=
  res_bind (py_get_default user "displayName" (JStr "")) (fun display_name =>
  res_bind (py_lower P display_name) (fun display_name =>
  res_bind (py_get_default user "emailAddress" (JStr "")) (fun email =>
  res_bind (py_lower P email) (fun email =>
  inr (String.eqb (str_lower P attribute) display_name
       || String.eqb (str_lower P attribute) email))))).

(** The set comprehension of [get_account_id_from_attribute]:
    [{user.get(id_key) for user in users if <user matches>}], with the
    members in the order they came in. *)
Fixpoint matching_ids (attribute id_key : string) (users : list json) (ids : list json)
  : res (list json) :=
  match users with
  | [] => inr ids
  | user :: rest =>
      res_bind (user_matches attribute user) (fun matches =>
      res_bind (if matches : bool
                then res_bind (py_get user id_key) (fun id => set_add id ids)
                else inr ids) (fun ids =>
      matching_ids attribute id_key rest ids))
  end.

(** What a command returns: a [CommandResults], or a plain message. *)
Inductive command_outcome :=
| Message (text : string)
| Results (r : CommandResults).

(** [get_account_id_from_attribute] (lines 261-318). *)
Definition get_account_id_from_attribute (client : Client)
    (attribute max_results is_jirav2api : string) : M command_outcome :=
  let v2 := String.eqb is_jirav2api "true" in
  let id_key := if v2 then "name" else "accountId" in
  let! found := search_user client attribute max_results v2 in
  let! users := lift (py_iter found) in
  let! account_ids := lift (matching_ids attribute id_key users []) in
  (* [account_ids] after the [if not account_ids:] block, or the message
     the block returns *)
  let! resolved :=
    match account_ids, users with
    | _ :: _, _ => ret (inr account_ids)
    | [], [] =>
        ret (inl ("No Account ID was found for attribute: " +:+ attribute +:+ "."))
    | [], [user] =>
        let! id := lift (py_get user id_key) in
        let! only := lift (set_add id []) in
        ret (inr only)
    | [], _ =>
        ret (inl ("Multiple account IDs found, but it was not possible to resolve which "
                  +:+ "one of them is most relevant to attribute " +:+ dquote +:+ attribute
                  +:+ dquote +:+ ".Please try to provide the " +:+ dquote +:+ "DisplayName"
                  +:+ dquote +:+ " attribute."))
    end in
  match resolved with
  | inl message => ret (Message message)
  | inr (_ :: _ :: _) =>
      ret (Message ("Multiple account IDs were found for attribute: " +:+ attribute +:+ "."
                    +:+ newline
                    +:+ "Please try to provide the other attribute available - Email or "
                    +:+ "DisplayName."))
  | inr [account_id] =>
      ret (Results {| outputs_prefix := Some "Jira.User";
                      outputs_key_field := Some "AccountID";
                      readable_output :=
                        "Account ID for attribute: " +:+ attribute +:+ " is: "
                        +:+ py_str P account_id;
                      outputs := JObj [("Attribute", JStr attribute);
                                       ("AccountID", account_id)];
                      raw_response := JNull |})
  | inr [] =>
      (* [next(iter(set()))]; the set is not empty here *)
      raise (Exn PlainException "StopIteration")
  end.

(** [generate_md_context_create_issue] (lines 387-401): the document after
    the project was written into it, and the ["md"] and ["context"] of the
    result. *)
Definition generate_md_context_create_issue (data project_name project_key : json)
  : res (json * json * json) :=
  res_bind (if truthy project_name then py_setitem data "projectName" project_name
            else inr data) (fun data =>
  res_bind (if truthy project_key then py_setitem data "projectKey" project_key
            else if truthy (getParam "projectKey")
                 then py_setitem data "projectKey" (getParam "projectKey")
                 else inr data) (fun data =>
  inr (data,
       JArr [data],
       JObj [("Ticket", JArr [JObj [("Id", demisto_get data ["id"]);
                                    ("Key", demisto_get data ["key"])]])]))).

(** The keyword arguments left for [**issue_args] once the ones named like
    a parameter are bound. *)
Definition kwargs_without (names : list string) (args : list (string * json))
  : list (string * json) :=
  filter (fun p => existsb (String.eqb (fst p)) names = false) args.

Definition multiple_values (function parameter : string) : exn :=
  Exn TypeError (function +:+ "() got multiple values for argument '" +:+ parameter +:+ "'").

(** [create_issue_command] (lines 675-684); [args] is [demisto.args()]. *)
Definition create_issue_command (client : Client) (args : list (string * json)) : M unit :=
  let! issue :=
    if bool_decide (is_Some (assoc "client" args)) then
      raise (multiple_values "get_issue_fields" "client")
    else if bool_decide (is_Some (assoc "issue_creating" args)) then
      raise (Exn TypeError
               "get_issue_fields() got multiple values for keyword argument 'issue_creating'")
    else
      get_issue_fields P (kwargs_without ["mirroring"] args) client true
        (truthy (default JNull (assoc "mirroring" args))) in
  let! j_res := send_request_json P client "POST" "rest/api/latest/issue"
                  (json_dumps P issue) false None in
  let! '(j_res, md, context) :=
    lift (generate_md_context_create_issue j_res
            (default JNull (assoc "projectName" args))
            (default JNull (assoc "projectKey" args))) in
  let human_readable := tableToMarkdown P (command P) md (JStr "") in
  return_outputs human_readable context j_res.

(** [issue_query_command] (lines 658-672), called without [extra_fields]:
    [(human_readable, outputs, contents)]. *)
Definition issue_query_command (client : Client) (query start_at : string)
    (max_results headers : json) : M (string * json * json) :=
  let! j_res := run_query P client query start_at max_results in
  if negb (truthy j_res) then ret ("No issues matched the query.", JObj [], JObj [])
  else
    let issues := demisto_get j_res ["issues"] in
    let! md_and_context := lift (generate_md_context_get_issue P issues) in
    let human_readable :=
      tableToMarkdown P (command P) (fst md_and_context) (JArr (argToList P headers)) in
    ret (human_readable,
         JObj [("Ticket(val.Id == obj.Id)", snd md_and_context)],
         j_res).

(** [add_link_command] (lines 845-882). *)
Definition add_link_command (client : Client) (issue_id : string)
    (title url summary global_id relationship application_type application_name : json)
  : M unit :=
  let req_url := "rest/api/latest/issue/" +:+ issue_id +:+ "/remotelink" in
  let link := JObj [("object", JObj [("url", url); ("title", title)])] in
  let! link := lift (if truthy summary then py_setitem link "summary" summary
                     else inr link) in
  let! link := lift (if truthy global_id then py_setitem link "globalId" global_id
                     else inr link) in
  let! link := lift (if truthy relationship
                     then py_setitem link "relationship" relationship else inr link) in
  let! link := lift (if truthy application_type || truthy application_name
                     then py_setitem link "application" (JObj []) else inr link) in
  let! link := lift (if truthy application_type
                     then set_path link ["application"; "type"] application_type
                     else inr link) in
  let! link := lift (if truthy application_type
                     then set_path link ["application"; "name"] application_name
                     else inr link) in
  let! data := send_request_json P client "POST" req_url (json_dumps P link) false None in
  let data := match data with JArr xs => xs | _ => [data] end in
  let md_list :=
    map (fun element =>
           JObj [("id", demisto_get element ["id"]);
                 ("key", demisto_get element ["updateAuthor"; "key"]);
                 ("comment", demisto_get element ["body"]);
                 ("ticket_link", demisto_get element ["self"])]) data in
  let human_readable := tableToMarkdown_removeNull (command P) (JArr md_list) (JStr "") in
  return_outputs human_readable (JObj []) (JArr data).

(** [delete_issue_command] (lines 885-892); [args] is [demisto.args()]. *)
Definition delete_issue_command (client : Client) (issue_id_or_key : string)
    (args : list (string * json)) : M unit :=
  let url := "rest/api/latest/issue/" +:+ issue_id_or_key in
  let! issue :=
    if bool_decide (is_Some (assoc "client" args)) then
      raise (multiple_values "get_issue_fields" "client")
    else
      get_issue_fields P (kwargs_without ["issue_creating"; "mirroring"] args) client
        (truthy (default JNull (assoc "issue_creating" args)))
        (truthy (default JNull (assoc "mirroring" args))) in
  let! r := send_request P client "DELETE" url (json_dumps P issue) false "text" None in
  match r with
  | Raw result =>
      if status_code result =? 204 then demisto_results (JStr "Issue deleted successfully.")
      else demisto_results (JStr "Failed to delete issue.")
  | Parsed j => raise (no_attribute j "status_code")
  end.

(** [get_user_info_data] (lines 1159-1168): the request goes past
    [send_request], so a failure status is not turned into an error. *)
Definition user_info_request (client : Client) : request :=
  Request "GET" (urljoin (base_url client) "rest/api/latest/myself") "" [] None.

Definition get_user_info_data (client : Client) : M response :=
  http_send P (user_info_request client).

(** [[issue.get('id') for issue in modified_issues if issue.get('id')]] *)
Fixpoint truthy_ids (issues : list json) : res (list json) :=
  match issues with
  | [] => inr []
  | issue :: rest =>
      res_bind (py_get issue "id") (fun id =>
      res_bind (if truthy id then res_bind (py_get issue "id") (fun id => inr [id])
                else inr []) (fun here =>
      res_bind (truthy_ids rest) (fun more => inr (here ++ more))))
  end.

(** [get_modified_remote_data_command] (lines 1171-1209), for the argument
    [lastUpdate]: the ids [GetModifiedRemoteDataResponse] is built from. *)
Definition get_modified_remote_data_command (client : Client) (last_update : string)
  : M (list json) :=
  finally_return_or
    (try_bind (get_user_info_data client)
       any_exception
       (fun e =>
          demisto_error ("Could not get Jira's timezone for get-modified-remote-data. "
                         +:+ "failed because: " +:+ exn_msg e) ;;;
          ret [])
       (fun res =>
          if status_code res =? 200 then
            let! body := lift (response_json res) in
            let! timezone_name := lift (py_get body "timeZone") in
            (if negb (truthy timezone_name) then
               let! body := lift (response_json res) in
               demisto_error ("Could not get Jira's time zone for get-modified-remote-data."
                              +:+ "Got unexpected reason: " +:+ py_str P body)
             else ret tt) ;;;
            match parse_in_timezone timezone_name last_update with
            | None => raise (Exn AssertionError ("could not parse " +:+ last_update))
            | Some last_update_date =>
                let last_update := strftime_minute P last_update_date in
                let! '(_, _, context) :=
                  issue_query_command client
                    ("updated > " +:+ dquote +:+ last_update +:+ dquote) "" (JNum 100)
                    (JStr "") in
                let! modified_issues := lift (py_get_default context "issues" (JArr [])) in
                let! issues := lift (py_iter modified_issues) in
                lift (truthy_ids issues)
            end
          else
            demisto_error ("Could not get Jira's time zone for get-modified-remote-data. "
                           +:+ "status code: " +:+ str_of_Z (status_code res)
                           +:+ ". reason: " +:+ resp_reason res) ;;;
            ret []))
    [].

End Commands.

End Jira.

(** * The CASB adapter ([McAfeeMVisionCASB.py]) *)

Module CASB.

(** The members of the set of seen ids: the hashable values an [incidentId]
    can be ([True] and [1] are the same member, as in Python). *)
Inductive key :=
| KNone
| KNum (n : Z)
| KStr (s : string).

#[global] Instance key_eq_dec : EqDecision key.
Proof. solve_decision. Defined.

#[global] Instance key_countable : Countable key.
Proof.
  refine (inj_countable'
            (fun k => match k with
                      | KNone => inl tt
                      | KNum n => inr (inl n)
                      | KStr s => inr (inr s)
                      end)
            (fun x => match x with
                      | inl _ => KNone
                      | inr (inl n) => KNum n
                      | inr (inr s) => KStr s
                      end) _).
  by intros [].
Defined.

Definition key_of (v : json) : res key :=
  match v with
  | JNull => inr KNone
  | JBool b => inr (KNum (if b then 1 else 0))
  | JNum n => inr (KNum n)
  | JStr s => inr (KStr s)
  | JArr _ => inl (Exn TypeError "unhashable type: 'list'")
  | JObj _ => inl (Exn TypeError "unhashable type: 'dict'")
  end.

(** The last-run dictionary of this adapter: [start_time] ([None] when the
    key is absent) and the set [ids] (absent before the first incidents). *)
Record last_run := LastRun {
  start_time : json;
  ids : option (gset key)
}.

Record Client := { base_url : string }.

(** [assign_params]: the keyword arguments whose value is not empty. *)
Definition assign_params (kwargs : list (string * json)) : json :=
  JObj (filter (fun p => truthy (snd p) = true) kwargs).

(** [result.get('body', {}).get('incidents', {})] *)
Definition incidents_of (result : json) : res json :=
  res_bind (py_get_default result "body" (JObj [])) (fun body =>
  py_get_default body "incidents" (JObj [])).

(** [result.get('body', {}).get('responseInfo', {}).get('nextStartTime', {})] *)
Definition next_start_time (result : json) : res json :=
  res_bind (py_get_default result "body" (JObj [])) (fun body =>
  res_bind (py_get_default body "responseInfo" (JObj [])) (fun info =>
  py_get_default info "nextStartTime" (JObj []))).

Section Adapter.

Variable P : platform.
(** [arg_to_number] and [arg_to_datetime(...).strftime(DATE_FORMAT)] of
    CommonServerPython, which may refuse their argument. *)
Variable arg_to_number : json -> res json.
Variable first_fetch_time : json -> res json.

(** Modelled from the spec: [BaseClient._http_request] is not under src/.
    It "issues authenticated requests to a base URL, normalizes non-2xx
    responses into typed failures", and returns the parsed body. *)
Definition http_request (client : Client) (method url_suffix : string)
    (params : list (string * json)) (json_data : json) : M json :=
  let! result := http_send P (Request method (base_url client +:+ url_suffix)
                                (json_dumps P json_data) params None) in
  if negb (resp_ok result) then
    raise (Exn RequestError ("Error in API call [" +:+ str_of_Z (status_code result)
                             +:+ "] - " +:+ resp_reason result))
  else
    match resp_json result with
    | Some j => ret j
    | None => raise (Exn RequestError "Failed to parse json object from response")
    end.

(** [Client.incident_query] (lines 36-49). *)
Definition incident_query (client : Client)
    (limit start_time end_time actor_ids service_names categories : json) : M json :=
  let url_suffix := "/external/api/v1/queryIncidents" in
  let params := [("limit", limit)] in
  let data :=
    assign_params
      [("startTime", start_time); ("endTime", end_time); ("actorIds", actor_ids);
       ("serviceNames", service_names);
       ("incidentCriteria", assign_params [("categories", categories)])] in
  http_request client "POST" url_suffix params data.

(** The loop of [fetch_incidents] over the incidents of the response
    (lines 129-144): the set of seen ids and the incidents to emit. *)
Fixpoint fetch_loop (incidents : list json) (ids : gset key) (xsoar_incidents : list json)
  : res (gset key * list json) :=
  match incidents with
  | [] => inr (ids, xsoar_incidents)
  | incident :: rest =>
      res_bind (py_get incident "incidentId") (fun incident_id =>
      res_bind (key_of incident_id) (fun k =>
      if bool_decide (k ∈ ids) then fetch_loop rest ids xsoar_incidents
      else
        res_bind (py_get incident "timeModified") (fun occurred =>
        fetch_loop rest ({[k]} ∪ ids)
          (xsoar_incidents ++
           [JObj [("name", JStr ("McAfee MVision CASB Incident " +:+ py_str P incident_id));
                  ("occurred", occurred);
                  ("raw_json", JStr (json_dumps P incident));
                  ("dbotMirrorId", incident_id)]]))))
  end.

(** The arguments of the query (lines 121-122): the limit, and the stored
    start time or else the configured first fetch time. *)
Definition query_args (params : json) (stored : last_run) : res (json * json) :=
  res_bind (py_get_default params "max_fetch" (JNum 50)) (fun max_fetch =>
  res_bind (arg_to_number max_fetch) (fun limit =>
  res_bind
    (if truthy (start_time stored) then inr (start_time stored)
     else
       res_bind (py_get_default params "first_fetch" (JStr "3 days")) (fun first_fetch =>
       first_fetch_time first_fetch)) (fun start_time =>
  inr (limit, start_time)))).

(** [fetch_incidents] (lines 117-151); [stored] is what
    [demisto.getLastRun()] returns.  The result is the new last run and the
    incidents to emit. *)
Definition fetch_incidents (client : Client) (params : json) (stored : last_run)
  : M (last_run * list json) :=
  let! '(limit, start_time) := lift (query_args params stored) in
  let! result := incident_query client limit start_time (JStr "") JNull JNull JNull in
  let! incidents := lift (incidents_of result) in
  if truthy incidents then
    let ids := default ∅ (ids stored) in
    let! items := lift (py_iter incidents) in
    let! '(ids, xsoar_incidents) := lift (fetch_loop items ids []) in
    let! next := lift (next_start_time result) in
    ret (LastRun next (Some ids), xsoar_incidents)
  else ret (stored, []).

End Adapter.

(** ** The commands *)

Section Commands.

Variable P : platform.

(** [arg_to_number] of CommonServerPython, with its result read as the
    integer it is, or [None]; [arg_to_datetime(...).strftime(DATE_FORMAT)];
    and [tableToMarkdown(name, t, headerTransform=pascalToSpace,
    removeNull=True)].  The first two may refuse their argument. *)
Variable arg_to_number : json -> res (option Z).
Variable format_time : json -> res json.
Variable table : string -> json -> string.

(** The truth value of an optional integer: [None] and [0] are false. *)
Definition number_truthy (n : option Z) : bool :=
  match n with
  | Some n => negb (n =? 0)
  | None => false
  end.

(** An optional integer as a document. *)
Definition number_json (n : option Z) : json :=
  match n with
  | Some n => JNum n
  | None => JNull
  end.

(** [calculate_offset_and_limit] (lines 80-86). *)
Definition calculate_offset_and_limit (kwargs : list (string * json)) : res (Z * Z) :=
  let arg k := default JNull (assoc k kwargs) in
  res_bind (arg_to_number (arg "limit")) (fun limit =>
  if number_truthy limit then inr (0, default 0 limit)
  else
    res_bind (arg_to_number (arg "page")) (fun page =>
    res_bind (if number_truthy page then arg_to_number (arg "page_size") else inr None)
      (fun page_size =>
    if number_truthy page && number_truthy page_size then
      let page := default 0 page - 1 in
      let page_size := default 0 page_size in
      inr (page * page_size, page * page_size + page_size)
    else inr (0, 50)))).

(** [Client.policy_dictionary_list] (lines 63-65). *)
Definition policy_dictionary_list (client : Client) : M json :=
  http_request P client "GET" "/dlp/dictionary" [] JNull.

(** The row of a policy in the result (lines 246-250). *)
Definition policy_row (policy : json) : res json :=
  res_bind (py_get policy "id") (fun id =>
  res_bind (py_get policy "name") (fun name =>
  res_bind (py_get policy "last_modified_time") (fun last_modified =>
  inr (JObj [("ID", id); ("Name", name); ("LastModified", last_modified)])))).

(** The loop of [policy_dictionary_list_command] (lines 243-251). *)
Fixpoint filter_policies (names : list json) (policies : list json) : res (list json) :=
  match policies with
  | [] => inr []
  | policy :: rest =>
      res_bind (match names with
                | [] => inr true
                | _ => res_bind (py_get policy "name") (fun name =>
                       inr (existsb (py_eq name) names))
                end) (fun keep =>
      res_bind (if keep : bool
                then res_bind (policy_row policy) (fun row => inr [row])
                else inr []) (fun here =>
      res_bind (filter_policies names rest) (fun more => inr (here ++ more))))
  end.

(** [policy_dictionary_list_command] (lines 235-263). *)
Definition policy_dictionary_list_command (client : Client) (args : list (string * json))
  : M CommandResults :=
  let! '(offset, limit) := lift (calculate_offset_and_limit args) in
  let names := argToList P (default JNull (assoc "name" args)) in
  let! result := policy_dictionary_list client in
  let! policies := lift (py_slice result offset limit) in
  let! items := lift (py_iter policies) in
  let! filtered_policies := lift (filter_policies names items) in
  let readable_output := table "List of MVISION CASB Policies" (JArr filtered_policies) in
  ret {| outputs := JArr filtered_policies;
         outputs_prefix := Some "MVisionCASB.dictionaries";
         outputs_key_field := Some "ID";
         readable_output := readable_output;
         raw_response := JArr filtered_policies |}.

(** [CategoryToIncidentType.get(category)] *)
Definition CategoryToIncidentType (category : json) : res json :=
  match category with
  | JStr s =>
      inr (if existsb (String.eqb s)
                ["Access"; "Admin"; "Audit"; "Data"; "Policy"; "Vulnerability"]
           then JStr "Alert"
           else if existsb (String.eqb s)
                     ["CompromisedAccount"; "InsiderThreat"; "PrivilegeAccess"]
                then JStr "Threat"
                else JNull)
  | JArr _ | JObj _ => inl (unhashable category)
  | _ => inr JNull
  end.

Fixpoint categories_of (categories : list json) : res (list json) :=
  match categories with
  | [] => inr []
  | category :: rest =>
      res_bind (CategoryToIncidentType category) (fun incident_type =>
      res_bind (categories_of rest) (fun more =>
      inr (JObj [("incidentType", incident_type); ("category", category)] :: more)))
  end.

(** The loop [for _ in range(page_number)] of [incident_query_command]
    (lines 172-174): each page is queried from where the page before
    ended. *)
Fixpoint query_pages (client : Client) (pages : nat)
    (page_size start_time end_time actor_ids service_names categories : json)
    (result : json) : M json :=
  match pages with
  | O => ret result
  | S pages =>
      let! result := incident_query P client page_size start_time end_time actor_ids
                       service_names categories in
      let! start_time := lift (next_start_time result) in
      query_pages client pages page_size start_time end_time actor_ids service_names
        categories result
  end.

(** The row of an incident in the readable table (lines 180-189). *)
Definition incident_row (incident : json) : res json :=
  res_bind (py_get incident "incidentId") (fun id =>
  res_bind (py_get incident "timeCreated") (fun created =>
  res_bind (py_get incident "status") (fun status =>
  res_bind (py_get incident "remediationResponse") (fun action =>
  res_bind (py_get incident "serviceNames") (fun service =>
  res_bind (py_get incident "incidentRiskSeverity") (fun severity =>
  res_bind (py_get incident "actorId") (fun actor =>
  res_bind (py_get incident "policyName") (fun policy =>
  inr (JObj [("IncidentID", id); ("Time(UTC)", created); ("Status", status);
             ("Alert Action", action); ("Service Name", service);
             ("Alert Severity", severity); ("User Name", actor);
             ("Policy Name", policy)]))))))))).

Fixpoint incident_rows (incidents : list json) : res (list json) :=
  match incidents with
  | [] => inr []
  | incident :: rest =>
      res_bind (incident_row incident) (fun row =>
      res_bind (incident_rows rest) (fun rows => inr (row :: rows)))
  end.

(** [incident_query_command] (lines 154-206). *)
Definition incident_query_command (client : Client) (args : list (string * json))
  : M CommandResults :=
  let arg k := default JNull (assoc k args) in
  let! limit := lift (arg_to_number (default (JNum 50) (assoc "limit" args))) in
  let! start_time := lift (format_time (default (JStr "3 days") (assoc "start_time" args))) in
  let! end_time := lift (format_time (default (JStr "now") (assoc "end_time" args))) in
  let actor_ids := JArr (argToList P (arg "actor_ids")) in
  let service_names := JArr (argToList P (arg "service_names")) in
  let! categories :=
    match argToList P (arg "categories") with
    | _ :: _ as categories =>
        let! mapped := lift (categories_of categories) in ret (JArr mapped)
    | [] =>
        match argToList P (arg "incident_types") with
        | _ :: _ as incident_types =>
            ret (JArr (map (fun incident_type => JObj [("incidentType", incident_type)])
                         incident_types))
        | [] => ret (JArr [])
        end
    end in
  let! page_number := lift (arg_to_number (arg "page_number")) in
  let! page_size :=
    lift (if number_truthy page_number then arg_to_number (arg "page_size")
          else inr None) in
  let! result :=
    if negb (number_truthy page_number) || negb (number_truthy page_size) then
      incident_query P client (number_json limit) start_time end_time actor_ids
        service_names categories
    else
      query_pages client (Z.to_nat (default 0 page_number)) (number_json page_size)
        start_time end_time actor_ids service_names categories (JObj []) in
  let! body := lift (py_get_default result "body" (JObj [])) in
  let! incidents := lift (py_get body "incidents") in
  if truthy incidents then
    let! items := lift (py_iter incidents) in
    let! readable_dict := lift (incident_rows items) in
    ret {| outputs := incidents;
           outputs_prefix := Some "MVisionCASB.Incident";
           outputs_key_field := Some "incidentId";
           readable_output := table "MVISION CASB Incidents" (JArr readable_dict);
           raw_response := incidents |}
  else
    ret {| outputs := JNull; outputs_prefix := None; outputs_key_field := None;
           readable_output := "No Incidents were found with the requested filters.";
           raw_response := JNull |}.

End Commands.

End CASB.

(** * Vocabulary of the statements, and the data of the examples *)

(** A response with the given status, text and parsed body. *)
Definition answer (ok : bool) (status : Z) (text : string) (body : option json) : response :=
  Response ok status text body "" "".

(** A platform around a given server: dates are written as integers,
    documents are printed as [repr] prints them. *)
Definition demo_platform (server : list request -> request -> res response) : platform :=
  {| http := server;
     str_lower := ascii_lower;
     str_repr := ascii_repr;
     parse := fun s => option_map (fun n => Datetime n true) (int_of_string s);
     strftime_minute := fun d => str_of_Z (instant d);
     json_dumps := repr_with ascii_repr;
     json_loads := fun s => inr (JStr s);
     argToList := fun v => match v with JArr xs => xs | _ => [v] end;
     tableToMarkdown := fun name _ _ => name;
     getFilePath := fun id => inr ("/tmp/" +:+ id, id);
     read_file := fun _ => inr "bytes";
     integrationInstance := "jira-1";
     command := "jira" |}.

Definition demo_client : Jira.Client := {| Jira.base_url := "https://jira.example" |}.

Definition empty_world : world := World [] [] [] (JObj []) 0.

Definition issue (id : string) (summary : string) : json :=
  JObj [("id", JStr id);
        ("fields", JObj [("summary", JStr summary); ("created", JStr ("1" +:+ id))])].

(** An entry as [fileResult] builds it: a dictionary with a [Type]. *)
Definition is_entry (v : json) : Prop :=
  exists kv t, v = JObj kv /\ assoc "Type" kv = Some t.

Definition ticket_id_at_most (h : Z) (t : json) : Prop :=
  exists n c, Jira.read_ticket t = inr (n, c) /\ n <= h.

(** What [starting_cursor] makes of a stored offset: a missing or empty one
    is [0]. *)
Definition norm_offset (v : json) : json :=
  let v' := py_or v (JStr "") in if negb (truthy v') then JNum 0 else v'.

(** The answer [res2] to a later query brings nothing, or a list of issues
    that were all in the list of the answer [res1]: the remote data did not
    change between the two. *)
Definition redelivered (res1 res2 : json) : Prop :=
  res2 = JObj []
  \/ exists ts1 ts2,
       py_get res1 "issues" = inr (JArr ts1)
       /\ py_get res2 "issues" = inr (JArr ts2)
       /\ forall t, t ∈ ts2 -> t ∈ ts1.

(** A Jira server over a fixed list of issues, kept in the order of their
    ids.  It answers a search with the issues whose id is at least the bound
    of the [id >= n] clause of the query, when the query has one, and with
    no more of them than [maxResults].  The answer does not depend on the
    requests sent before: the data never changes. *)
Definition query_bound (jql : string) : Z :=
  if contains " AND id >= " jql
  then default 0 (int_of_string (List.last (split_on " "%char jql) ""))
  else 0.

Definition issue_id_at_least (bound : Z) (ticket : json) : bool :=
  match py_get ticket "id" with
  | inr raw_id => match py_int raw_id with
                  | inr ticket_id => bound <=? ticket_id
                  | inl _ => false
                  end
  | inl _ => false
  end.

Definition dataset_server (issues : list json) : list request -> request -> res response :=
  fun _ rq =>
    let bound := match assoc "jql" (req_params rq) with
                 | Some (JStr jql) => query_bound jql
                 | _ => 0
                 end in
    let page := match assoc "maxResults" (req_params rq) with
                | Some (JNum n) => Z.to_nat n
                | _ => 50%nat
                end in
    inr (answer true 200 ""
           (Some (JObj [("issues",
                         JArr (take page (List.filter (issue_id_at_least bound) issues)))]))).

(** The issues 1 to 60. *)
Definition sixty_issues : list json :=
  map (fun n => issue (str_of_Z (Z.of_nat n)) "s") (seq 1 60).

Definition three_issues : json :=
  JObj [("issues", JArr [issue "99" "a"; issue "101" "b"; issue "105" "c"])].

Definition search_server (found : json) : list request -> request -> res response :=
  fun _ _ => inr (answer true 200 "" (Some found)).

(** The key under which an incident is remembered. *)
Definition incident_key (incident : json) (k : CASB.key) : Prop :=
  exists id, py_get incident "incidentId" = inr id /\ CASB.key_of id = inr k.

(** The answer [r2] to a later query brings no incidents, or a list of
    incidents that were all in the list of the answer [r1]. *)
Definition casb_redelivered (r1 r2 : json) : Prop :=
  (exists v2, CASB.incidents_of r2 = inr v2 /\ truthy v2 = false)
  \/ exists ts1 ts2 next2,
       CASB.incidents_of r1 = inr (JArr ts1)
       /\ CASB.incidents_of r2 = inr (JArr ts2)
       /\ (forall t, t ∈ ts2 -> t ∈ ts1)
       /\ CASB.next_start_time r2 = inr next2.

Definition done_issue (updated : string) : json :=
  JObj [("id", JStr "10");
        ("fields", JObj [("summary", JStr "s"); ("updated", JStr updated);
                         ("status", JObj [("name", JStr "Done")])])].

(** A server that answers every request with the same document. *)
Definition issue_server (doc : json) : list request -> request -> res response :=
  fun _ _ => inr (answer true 200 "" (Some doc)).

(** A response that carries a close directive and nothing else: exactly
    one entry, and it closes the incident. *)
Definition emits_one_close_directive (r : Jira.GetRemoteDataResponse) : Prop :=
  exists e, Jira.response_entries r = [e]
            /\ demisto_get e ["Contents"; "dbotIncidentClose"] = JBool true.

(** The line [update_remote_system_command] logs when it catches [e]. *)
Definition outgoing_mirror_error (remote_id : string) (e : exn) : string :=
  "Error in Jira outgoing mirror for incident " +:+ remote_id
  +:+ " " +:+ newline +:+ "Error message: " +:+ exn_msg e.

(** A comment entry of the war room, and the request that pushes it. *)
Definition comment_of (id contents : string) : json :=
  JObj [("id", JStr id); ("type", JNum 1); ("contents", JStr contents)].

Definition comment_push (P : platform) (client : Jira.Client) (remote_id contents : string)
  : request :=
  Jira.request_of client "POST" ("rest/api/latest/issue/" +:+ remote_id +:+ "/comment")
    (json_dumps P (JObj [("body", JStr contents)])) false None.

(** A server that refuses the connection for one request body and accepts
    every other request. *)
Definition refusing_server (refused : string) : list request -> request -> res response :=
  fun _ rq =>
    if String.eqb (req_body rq) refused
    then inl (Exn RequestError "Connection refused")
    else inr (answer true 201 "" (Some (JObj [("id", JStr "1")]))).

Definition two_comments : Jira.UpdateRemoteSystemArgs :=
  {| Jira.data := JObj [];
     Jira.args_entries := JArr [comment_of "1@7" "first"; comment_of "2@7" "second"];
     Jira.incident_changed := JBool false;
     Jira.remote_incident_id := "10";
     Jira.delta := JObj [] |}.

Definition nothing_to_push : Jira.UpdateRemoteSystemArgs :=
  {| Jira.data := JObj [("summary", JStr "s")];
     Jira.args_entries := JArr [];
     Jira.incident_changed := JBool true;
     Jira.remote_incident_id := "10";
     Jira.delta := JObj [] |}.

Definition three_comments : Jira.UpdateRemoteSystemArgs :=
  {| Jira.data := JObj [];
     Jira.args_entries :=
       JArr [comment_of "1@7" "first"; comment_of "2@7" "second"; comment_of "3@7" "third"];
     Jira.incident_changed := JBool false;
     Jira.remote_incident_id := "10";
     Jira.delta := JObj [] |}.

(** A server that answers every request with a failure. *)
Definition failing_server (status : Z) (text : string) (body : option json)
  : list request -> request -> res response :=
  fun _ _ => inr (answer false status text body).

Definition no_such_issue : json :=
  JObj [("errorMessages", JArr [JStr "Issue Does Not Exist"]); ("errors", JObj [])].

Definition transitions_doc : json :=
  JObj [("transitions",
         JArr [JObj [("id", JStr "11"); ("name", JStr "Open")];
               JObj [("id", JStr "21"); ("name", JStr "In Progress")];
               JObj [("id", JStr "31"); ("name", JStr "Done")]])].

Definition transitions_with_apostrophe : json :=
  JObj [("transitions",
         JArr [JObj [("id", JStr "11"); ("name", JStr "Open")];
               JObj [("id", JStr "41"); ("name", JStr "Won't Do")]])].

(** The Jira poll of the examples, against a server that always answers
    with the three issues. *)
Definition jira_poll : M (list json) :=
  Jira.fetch_incidents (demo_platform (search_server three_issues)) demo_client
    "project=SOC" (JNum 100) false false false false JNull JNull false.

Definition casb_incident (id : string) : json :=
  JObj [("incidentId", JStr id); ("timeModified", JStr "2021-01-01T00:00:00.000Z")].

Definition casb_answer (ids : list string) (next : string) : json :=
  JObj [("body", JObj [("incidents", JArr (casb_incident <$> ids));
                       ("responseInfo", JObj [("nextStartTime", JStr next)])])].

(** A server that answers the first query with [first] and every later one
    with [later]. *)
Definition two_window_server (first later : json) : list request -> request -> res response :=
  fun before _ =>
    inr (answer true 200 "" (Some (match before with [] => first | _ => later end))).

Definition casb_client : CASB.Client := {| CASB.base_url := "https://casb.example" |}.

Definition casb_platform : platform :=
  demo_platform (two_window_server (casb_answer ["A"; "B"] "t1") (casb_answer ["B"; "C"] "t2")).

(** The CASB poll of the examples: the first query is answered with the
    incidents [A] and [B], the later ones with [B] and [C]. *)
Definition casb_poll (stored : CASB.last_run) : M (CASB.last_run * list json) :=
  CASB.fetch_incidents casb_platform (fun v => inr v) (fun _ => inr (JStr "t0"))
    casb_client (JObj []) stored.

(** The same poll against a server that always answers with the incidents
    [A] and [B]. *)
Definition casb_same_poll (stored : CASB.last_run) : M (CASB.last_run * list json) :=
  CASB.fetch_incidents (demo_platform (search_server (casb_answer ["A"; "B"] "t1")))
    (fun v => inr v) (fun _ => inr (JStr "t0")) casb_client (JObj []) stored.

(** ** Vocabulary of the further properties *)

(** The request [run_query] sends. *)
Definition search_request (client : Jira.Client) (query start_at : string) (max_results : json)
  : request :=
  Request "GET" (urljoin (Jira.base_url client) "rest/api/latest/search/") ""
    [("jql", JStr query); ("startAt", JStr start_at); ("maxResults", max_results)] None.

(** The text [run_query] looks for in the joined error messages. *)
Definition no_issues_text : string := "could not fetch any issues, please check your query".

(** A project of the [createmeta] answer with the given key and name. *)
Definition project_named (project : json) (key_and_name : string * string) : Prop :=
  py_get project "key" = inr (JStr (fst key_and_name))
  /\ py_get project "name" = inr (JStr (snd key_and_name)).

(** [get_project_id] takes a project whose key or whose name is the wanted
    one, case ignored. *)
Definition project_matches (P : platform) (project_key project_name : string)
    (key_and_name : string * string) : Prop :=
  str_lower P (fst key_and_name) = str_lower P project_key
  \/ str_lower P (snd key_and_name) = str_lower P project_name.

(** The keyword arguments [edit_issue_command] hands on to
    [get_issue_fields]. *)
Definition edit_kwargs (args : list (string * json)) : list (string * json) :=
  filter (fun p => negb (String.eqb (fst p) "headers" || String.eqb (fst p) "status"
                         || String.eqb (fst p) "transition"
                         || String.eqb (fst p) "issue_creating") = true) args.

(** The date under [field] of [item] is after [date]: what
    [incident_modified_date < parse(dict_safe_get(item, [field], "", str))]
    decides. *)
Definition dated_after (P : platform) (date : option datetime) (field : string)
    (item : json) : res bool :=
  res_bind (dict_safe_get_str item [field]) (fun s => dt_lt_opt date (parse P s)).

(** The failure [get_remote_data_command] passes on instead of reporting
    it in the mirrored object. *)
Definition rate_limit_failure : exn := Exn ReturnError "API rate limit".

(** A failure that [except Exception] catches on the host: any failure but
    the exit of [return_error]. *)
Definition caught (e : exn) : Prop := exn_kind e <> ReturnError.

(** The tickets of a search answer that [fetch_incidents] takes for new,
    given the offset the poll started from. *)
Definition is_above (curr_id : Z) (ticket : json) : bool :=
  match Jira.read_ticket ticket with
  | inr (ticket_id, _) => curr_id <? ticket_id
  | inl _ => false
  end.

Definition tickets_above (curr_id : Z) (tickets : list json) : list json :=
  filter (fun t => is_above curr_id t = true) tickets.

(** [incident] is the incident [create_incident_from_ticket] builds from
    [ticket], in some state of the world. *)
Definition made_from (P : platform) (client : Jira.Client)
    (a c mi mo : bool) (ct at_ : json) (ticket incident : json) : Prop :=
  exists w w', Jira.create_incident_from_ticket P client ticket a c mi mo ct at_ w
               = (inr incident, w').

(** A server that accepts every request and answers with a JSON body. *)
Definition accepting (P : platform) : Prop :=
  forall before rq, exists r j,
    http P before rq = inr r /\ resp_ok r = true /\ resp_json r = Some j.

(** An entry of the war room that is not a file: a dictionary whose [type]
    is not 3. *)
Definition is_note_entry (entry : json) : Prop :=
  exists kv, entry = JObj kv /\ py_eq_num (default JNull (assoc "type" kv)) 3 = false.

(** [str(entry.get('contents', ''))] *)
Definition entry_contents (P : platform) (entry : json) : string :=
  match entry with
  | JObj kv => py_str P (default (JStr "") (assoc "contents" kv))
  | _ => ""
  end.


(** The record of a call [return_outputs(readable_output, outputs,
    raw_response)] among the results: the three arguments as the command
    gave them. *)
Definition outputs_entry (readable_output : string) (outputs raw_response : json) : json :=
  JObj [("HumanReadable", JStr readable_output); ("EntryContext", outputs);
        ("Contents", raw_response)].

(** The key under which [get_account_id_from_attribute] reads the id of a
    user: [name] on a server of the v2 API, [accountId] otherwise. *)
Definition account_id_key (is_jirav2api : string) : string :=
  if String.eqb is_jirav2api "true" then "name" else "accountId".

(** The result [get_account_id_from_attribute] gives for an account id. *)
Definition account_id_found (P : platform) (attribute : string) (account_id : json)
  : Jira.command_outcome :=
  Jira.Results
    {| outputs_prefix := Some "Jira.User";
       outputs_key_field := Some "AccountID";
       readable_output :=
         "Account ID for attribute: " +:+ attribute +:+ " is: " +:+ py_str P account_id;
       outputs := JObj [("Attribute", JStr attribute); ("AccountID", account_id)];
       raw_response := JNull |}.

Definition several_account_ids (attribute : string) : Jira.command_outcome :=
  Jira.Message
    ("Multiple account IDs were found for attribute: " +:+ attribute +:+ "." +:+ newline
     +:+ "Please try to provide the other attribute available - Email or DisplayName.").

Definition several_users_none_exact (attribute : string) : Jira.command_outcome :=
  Jira.Message
    ("Multiple account IDs found, but it was not possible to resolve which "
     +:+ "one of them is most relevant to attribute " +:+ dquote +:+ attribute
     +:+ dquote +:+ ".Please try to provide the " +:+ dquote +:+ "DisplayName"
     +:+ dquote +:+ " attribute.").

(** A user of the answer: whether its display name or its e-mail address
    is the attribute, case ignored, and its account id, a string. *)
Definition user_with (P : platform) (attribute id_key : string) (user : json)
    (seen : bool * string) : Prop :=
  Jira.user_matches P attribute user = inr (fst seen)
  /\ py_get user id_key = inr (JStr (snd seen)).

(** The document of a created issue after [generate_md_context_create_issue]
    wrote the project into it: the name given in the arguments, and the key
    given in the arguments or else the configured one. *)
Definition with_project (getParam : string -> json) (project_name project_key : json)
    (kv : list (string * json)) : list (string * json) :=
  let kv := if truthy project_name then assoc_set "projectName" project_name kv else kv in
  if truthy project_key then assoc_set "projectKey" project_key kv
  else if truthy (getParam "projectKey")
       then assoc_set "projectKey" (getParam "projectKey") kv
       else kv.

(** The argument [k] of a command. *)
Definition arg_of (args : list (string * json)) (k : string) : json :=
  default JNull (assoc k args).

(** The search [get_modified_remote_data_command] runs for a last update
    written as [minute]. *)
Definition modified_since_query (minute : string) : string :=
  "updated > " +:+ dquote +:+ minute +:+ dquote.

(** A request of the CASB incident query that asks for at most [limit]
    incidents. *)
Definition asks_for (limit : json) (rq : request) : Prop :=
  req_method rq = "POST" /\ req_params rq = [("limit", limit)].

(** The result [incident_query_command] gives when there is no incident
    to show. *)
Definition no_incidents_found : CommandResults :=
  {| outputs := JNull; outputs_prefix := None; outputs_key_field := None;
     readable_output := "No Incidents were found with the requested filters.";
     raw_response := JNull |}.

(** ** The data of the further examples *)

(** A push of one comment together with a change of the issue type. *)
Definition type_change_and_comment : Jira.UpdateRemoteSystemArgs :=
  {| Jira.data := JObj [];
     Jira.args_entries := JArr [comment_of "1@7" "first"];
     Jira.incident_changed := JBool true;
     Jira.remote_incident_id := "10";
     Jira.delta := JObj [("issueTypeName", JStr "Bug")] |}.

(** A comment, or an attachment, with its dates. *)
Definition dated_item (id when : string) : json :=
  JObj [("id", JStr id); ("created", JStr when); ("updated", JStr when)].

(** The answer to [createmeta], which is also the answer to a creation. *)
Definition two_projects : json :=
  JObj [("projects",
         JArr [JObj [("id", JStr "1"); ("key", JStr "OPS"); ("name", JStr "Operations")];
               JObj [("id", JStr "2"); ("key", JStr "SOC"); ("name", JStr "Security")]]);
        ("id", JStr "10001"); ("key", JStr "SOC-1")].


Definition edit_args : list (string * json) :=
  [("summary", JStr "s"); ("status", JStr "Done"); ("transition", JStr "Close")].

(** A user of the search for users. *)
Definition jira_user (account_id display_name email : string) : json :=
  JObj [("accountId", JStr account_id); ("displayName", JStr display_name);
        ("emailAddress", JStr email)].

(** The CASB poll against a server that always answers with the given
    incidents. *)
Definition casb_poll_of (ids : list string) (stored : CASB.last_run)
  : M (CASB.last_run * list json) :=
  CASB.fetch_incidents (demo_platform (search_server (casb_answer ids "t9")))
    (fun v => inr v) (fun _ => inr (JStr "t0")) casb_client (JObj []) stored.

(** The host of the further examples: no parameter is configured, numbers
    are given as numbers, times are passed on as they are, and a table is
    shown by its name. *)
Definition no_param : string -> json := fun _ => JNull.

Definition number_of_arg (v : json) : res (option Z) :=
  match v with
  | JNum n => inr (Some n)
  | JNull => inr None
  | _ => inl (Exn ValueError "not a number")
  end.

Definition parse_as_integer : json -> string -> option datetime :=
  fun _ s => option_map (fun n => Datetime n true) (int_of_string s).

Definition table_name : string -> json -> string := fun name _ => name.

Definition create_args : list (string * json) :=
  [("summary", JStr "s"); ("projectKey", JStr "SOC")].

(** The answer of a server to the request for the user and to the search
    for the modified issues. *)
Definition modified_issues : json :=
  JObj [("timeZone", JStr "UTC");
        ("issues", JArr [JObj [("id", JStr "10"); ("fields", JObj [])];
                         JObj [("id", JStr ""); ("fields", JObj [])];
                         JObj [("id", JStr "12"); ("fields", JObj [])]])].

Definition casb_policy (id : Z) (name : string) : json :=
  JObj [("id", JNum id); ("name", JStr name); ("last_modified_time", JStr "2021-01-01")].

Definition casb_policy_shown (id : Z) (name : string) : json :=
  JObj [("ID", JNum id); ("Name", JStr name); ("LastModified", JStr "2021-01-01")].

Definition five_policies : json :=
  JArr [casb_policy 1 "a"; casb_policy 2 "b"; casb_policy 3 "c"; casb_policy 4 "d";
        casb_policy 5 "e"].

(** An issue whose assignee has no e-mail address. *)
Definition assigned_issue : json :=
  JObj [("id", JStr "10"); ("key", JStr "SOC-1");
        ("fields", JObj [("assignee", JObj [("displayName", JStr "Ann")])])].

(** A platform around a given server whose [argToList] makes the empty
    list of a missing argument. *)
Definition listing_platform (server : list request -> request -> res response) : platform :=
  {| http := server;
     str_lower := ascii_lower;
     str_repr := ascii_repr;
     parse := fun s => option_map (fun n => Datetime n true) (int_of_string s);
     strftime_minute := fun d => str_of_Z (instant d);
     json_dumps := repr_with ascii_repr;
     json_loads := fun s => inr (JStr s);
     argToList := fun v => match v with JNull => [] | JArr xs => xs | _ => [v] end;
     tableToMarkdown := fun name _ _ => name;
     getFilePath := fun id => inr ("/tmp/" +:+ id, id);
     read_file := fun _ => inr "bytes";
     integrationInstance := "casb-1";
     command := "casb" |}.

(** * Properties *)

(** ** Sanity checks of the Python helpers *)

Example lower_ex : ascii_lower "In Progress" = "in progress".
Proof. reflexivity. Qed.

Example contains_ex : contains "limit" "Rate limit exceeded" = true.
Proof. reflexivity. Qed.

Example str_of_Z_ex : str_of_Z (-105) = "-105".
Proof. reflexivity. Qed.

Example py_int_ex1 : py_int (JStr "10105") = inr 10105.
Proof. reflexivity. Qed.

Example py_int_ex2 : py_int (JStr " -1_000 ") = inr (-1000).
Proof. reflexivity. Qed.

Example py_int_ex3 : py_int (JStr "") = inl (Exn ValueError "invalid literal for int() with base 10: ''").
Proof. reflexivity. Qed.

Example py_repr_ex :
  repr_with ascii_repr (JArr [JStr "Open"; JStr "In Progress"; JStr "Done"])
  = "['Open', 'In Progress', 'Done']".
Proof. reflexivity. Qed.

Example ascii_repr_ex :
  repr_with ascii_repr (JArr [JStr "Open"; JStr "Won't Do"])
  = "['Open', " +:+ dquote +:+ "Won't Do" +:+ dquote +:+ "]".
Proof. reflexivity. Qed.

(** ** Running the monad *)

Lemma bind_inr {A B} (m : M A) (k : A -> M B) w a w' :
  m w = (inr a, w') -> bind m k w = k a w'.
Proof. unfold bind. by intros ->. Qed.

Lemma bind_inl {A B} (m : M A) (k : A -> M B) w e w' :
  m w = (inl e, w') -> bind m k w = (inl e, w').
Proof. unfold bind. by intros ->. Qed.

Lemma bind_lift_inr {A B} (r : res A) (k : A -> M B) w a :
  r = inr a -> bind (lift r) k w = k a w.
Proof. by intros ->. Qed.


Lemma bind_ret_r {A} (m : M A) w : bind m (fun a => ret a) w = m w.
Proof. unfold bind, ret. by destruct (m w) as [[e|a] w']. Qed.

Lemma ret_eq {A} (a : A) w : ret a w = (inr a, w).
Proof. done. Qed.

Lemma bind_ok {A B} (m : M A) (k : A -> M B) w a w1 b w' :
  m w = (inr a, w1) -> k a w1 = (inr b, w') -> bind m k w = (inr b, w').
Proof. unfold bind. by intros -> ->. Qed.

Lemma bind_inv {A B} (m : M A) (k : A -> M B) w b w' :
  bind m k w = (inr b, w') ->
  exists a w1, m w = (inr a, w1) /\ k a w1 = (inr b, w').
Proof.
  unfold bind. destruct (m w) as [[e|a] w1]; [done|]. intros H. by exists a, w1.
Qed.

Lemma lift_inv {A} (r : res A) w a w' :
  lift r w = (inr a, w') -> r = inr a /\ w' = w.
Proof. unfold lift. by intros [= -> ->]. Qed.

Lemma ret_inv {A} (x : A) w a w' :
  ret x w = (inr a, w') -> a = x /\ w' = w.
Proof. unfold ret. by intros [= -> ->]. Qed.

Lemma res_bind_inv {A B} (r : res A) (k : A -> res B) b :
  res_bind r k = inr b -> exists a, r = inr a /\ k a = inr b.
Proof. destruct r as [e|a]; [done|]. intros H. by exists a. Qed.

Lemma map_M_Forall {A B} (f : A -> M B) (Q : B -> Prop) (xs : list A) :
  (forall x w y w', f x w = (inr y, w') -> Q y) ->
  forall w l w', map_M f xs w = (inr l, w') -> Forall Q l.
Proof.
  intros Hf. induction xs as [|x xs IH]; intros w l w' H; cbn in H.
  - apply ret_inv in H as [-> _]. constructor.
  - apply bind_inv in H as (y & w1 & Hy & H).
    apply bind_inv in H as (ys & w2 & Hys & H).
    apply ret_inv in H as [-> _]. constructor; eauto.
Qed.

(** ** A toy server for the worked examples *)

(** ** The HTTP client: [send_request] *)

Lemma all_strings_JStr (ss : list string) : all_strings (JStr <$> ss) = Some ss.
Proof. induction ss as [|s ss IH]; [done|]. cbn. by rewrite IH. Qed.

Lemma py_join_strings sep (ss : list string) :
  py_join sep (JArr (JStr <$> ss)) = inr (join sep ss).
Proof. unfold py_join. cbn. by rewrite all_strings_JStr. Qed.

Local Arguments py_join : simpl never.

Section SendRequest.

Variable P : platform.
Variable client : Jira.Client.
Variables method resource_url body resp_type : string.
Variable link : bool.
Variable files : option (string * string).

Local Abbreviation rq := (Jira.request_of client method resource_url body link files).
Local Abbreviation run w :=
  (Jira.send_request P client method resource_url body link resp_type files w).

Lemma send_request_ok w result :
  http P (sent w) rq = inr result ->
  resp_ok result = true ->
  run w = (if String.eqb resp_type "json"
           then match response_json result with
                | inr j => inr (Jira.Parsed j)
                | inl e => inl e
                end
           else inr (Jira.Raw result),
           with_sent w (sent w ++ [rq])).
Proof.
  intros Hh Hok. unfold Jira.send_request, bind, http_send. rewrite Hh, Hok. cbn.
  destruct (String.eqb resp_type "json"); [|done].
  unfold lift. by destruct (response_json result).
Qed.

(** Every path through the block under [if not result.ok] raises. *)
Lemma send_request_not_ok_raises w result :
  http P (sent w) rq = inr result ->
  resp_ok result = false ->
  exists e, run w = (inl e, with_sent w (sent w ++ [rq])).
Proof.
  intros Hh Hok. unfold Jira.send_request, bind, http_send. rewrite Hh, Hok. cbn.
  unfold try_except, bind, lift, return_error, raise, response_json.
  repeat (case_match; simplify_eq/=); eauto.
Qed.

(** C9.  On a response that is not [ok], [send_request] raises and never
    returns the body.  When the body is a JSON object the message is built
    from [errorMessages] if that is a non-empty list, else from the values of
    a non-empty [errors] mapping, else from the raw text.  When the body is
    not JSON the message is the unauthorized one for 401, the
    could-not-connect one for 404, the file-upload one for 500 with files,
    and the generic one otherwise.  On an [ok] response the response itself
    is returned, or its parsed body when [resp_type] is ['json']. *)
Theorem send_request_classifies_failures w result :
  http P (sent w) (Jira.request_of client method resource_url body link files)
    = inr result ->
  let outcome :=
    fst (Jira.send_request P client method resource_url body link resp_type files w) in
  let status := str_of_Z (status_code result) in
  (resp_ok result = false ->
     (exists e, outcome = inl e)
     /\ (forall kv ms,
           resp_json result = Some (JObj kv) ->
           assoc "errorMessages" kv = Some (JArr (JStr <$> ms)) -> ms <> [] ->
           outcome = inl (Exn ReturnError
             ("Status code: " +:+ status +:+ newline +:+ "Message: " +:+ join "," ms)))
     /\ (forall kv es vs,
           resp_json result = Some (JObj kv) ->
           truthy (default JNull (assoc "errorMessages" kv)) = false ->
           assoc "errors" kv = Some (JObj es) -> es <> [] ->
           snd <$> es = JStr <$> vs ->
           outcome = inl (Exn ReturnError
             ("Status code: " +:+ status +:+ newline +:+ "Message: " +:+ join "," vs)))
     /\ (forall kv,
           resp_json result = Some (JObj kv) ->
           truthy (default JNull (assoc "errorMessages" kv)) = false ->
           truthy (default JNull (assoc "errors" kv)) = false ->
           outcome = inl (Exn ReturnError
             ("Status code: " +:+ status +:+ newline +:+ "Error text: "
              +:+ resp_text result)))
     /\ (resp_json result = None ->
           (status_code result = 401 ->
              outcome = inl (Exn ReturnError
                ("Unauthorized request, please check authentication related parameters."
                 +:+ Jira.BASIC_AUTH_ERROR_MSG)))
           /\ (status_code result = 404 ->
              outcome = inl (Exn ReturnError
                "Could not connect to the Jira server. Verify that the server URL is correct."))
           /\ (status_code result = 500 -> is_Some files ->
              outcome = inl (Exn ReturnError
                ("Failed to execute request, status code: 500" +:+ newline
                 +:+ "Body: " +:+ resp_text result +:+ newline
                 +:+ "Make sure file name doesn't contain any special characters")))
           /\ (status_code result <> 401 -> status_code result <> 404 ->
               (status_code result <> 500 \/ files = None) ->
              outcome = inl (Exn ReturnError
                ("Failed reaching the server. status code: " +:+ status)))))
  /\ (resp_ok result = true ->
        (resp_type <> "json" -> outcome = inr (Jira.Raw result))
        /\ (forall j, resp_type = "json" -> resp_json result = Some j ->
              outcome = inr (Jira.Parsed j))).
Proof.
  intros Hh outcome status. split.
  - intros Hok. split.
    { destruct (send_request_not_ok_raises w result Hh Hok) as [e He].
      exists e. unfold outcome. by rewrite He. }
    unfold outcome, status, Jira.send_request, bind, http_send. rewrite Hh, Hok. cbn.
    unfold try_except, bind, lift, return_error, raise, response_json.
    repeat apply conj.
    + intros kv ms -> Hm Hne. cbn. rewrite Hm. cbn.
      destruct ms as [|m ms]; [done|]. cbn.
      change (JStr m :: (JStr <$> ms)) with (JStr <$> (m :: ms)).
      by rewrite py_join_strings.
    + intros kv es vs -> Hm He Hne Hvs. cbn. rewrite Hm, He. cbn.
      destruct es as [|e0 es]; [done|]. cbn.
      change (snd e0 :: map snd es) with (snd <$> (e0 :: es)).
      by rewrite Hvs, py_join_strings.
    + intros kv -> Hm He. cbn. by rewrite Hm, He.
    + intros ->. cbn. repeat apply conj.
      * by intros ->.
      * by intros ->.
      * intros -> Hf. cbn. by rewrite bool_decide_eq_true_2.
      * intros H1 H4 H5.
        rewrite (proj2 (Z.eqb_neq _ _) H1), (proj2 (Z.eqb_neq _ _) H4).
        destruct H5 as [H5| ->].
        -- by rewrite (proj2 (Z.eqb_neq _ _) H5).
        -- rewrite (bool_decide_eq_false_2 (is_Some None)); [|by intros [? ?]].
           by rewrite andb_false_r.
  - intros Hok. unfold outcome. rewrite (send_request_ok w result Hh Hok). cbn. split.
    + intros Hne. by rewrite (proj2 (String.eqb_neq _ _) Hne).
    + intros j -> Hj. cbn. unfold response_json. by rewrite Hj.
Qed.

End SendRequest.

(** ** Status changes: [edit_status] *)

Section EditStatus.

Variable P : platform.
Variable client : Jira.Client.

(** [send_request] issues exactly one request, whatever the outcome. *)
Lemma send_request_world method resource_url body link resp_type files w :
  snd (Jira.send_request P client method resource_url body link resp_type files w)
  = with_sent w (sent w ++ [Jira.request_of client method resource_url body link files]).
Proof.
  unfold Jira.send_request, bind, http_send, try_except, bind, lift, return_error,
    raise, ret.
  repeat (case_match; simplify_eq/=); eauto.
Qed.

Lemma send_request_json_world method resource_url body link files w :
  snd (Jira.send_request_json P client method resource_url body link files w)
  = with_sent w (sent w ++ [Jira.request_of client method resource_url body link files]).
Proof.
  unfold Jira.send_request_json, bind.
  pose proof (send_request_world method resource_url body link "json" files w) as Hw.
  destruct (Jira.send_request _ _ _ _ _ _ _ _ w) as [[e|[j|r]] w']; cbn in *; done.
Qed.

Lemma names_of_transitions (ts : list json) (names : list string) w :
  Forall2 (fun t n => py_get t "name" = inr (JStr n)) ts names ->
  map_M (fun transition => lift (py_get transition "name")) ts w
  = (inr (JStr <$> names), w).
Proof.
  intros H. induction H as [|t n ts names Ht _ IH]; [done|].
  cbn. unfold bind, lift in *. rewrite Ht. cbn. by rewrite IH.
Qed.

Lemma edit_status_loop_no_match issue_id status j_res (names : list string) i w :
  (forall n, n ∈ names -> str_lower P n <> str_lower P status) ->
  Jira.edit_status_loop P client issue_id (JStr status) j_res i (JStr <$> names) w
  = (inr None, w).
Proof.
  revert i. induction names as [|n names IH]; intros i Hno; [done|].
  cbn. unfold bind, lift. cbn.
  rewrite (proj2 (String.eqb_neq _ _)); [|apply Hno; left].
  apply IH. intros m Hm. apply Hno. by right.
Qed.

Lemma edit_status_loop_match issue_id status j_res (names : list string) i k n w :
  names !! k = Some n -> str_lower P n = str_lower P status ->
  (forall j m, (j < k)%nat -> names !! j = Some m -> str_lower P m <> str_lower P status) ->
  Jira.edit_status_loop P client issue_id (JStr status) j_res i (JStr <$> names) w
  = (let! all := lift (py_get j_res "transitions") in
     let! chosen := lift (py_nth all (i + k)) in
     let! id := lift (py_get chosen "id") in
     let! r := Jira.send_request P client "POST" (Jira.transitions_url issue_id)
                 (json_dumps P (JObj [("transition", JObj [("id", JStr (py_str P id))])]))
                 false "text" None in
     ret (Some r)) w.
Proof.
  revert i k. induction names as [|m names IH]; intros i k Hk Hn Hfirst; [done|].
  destruct k as [|k].
  - cbn in Hk. simplify_eq. cbn [Jira.edit_status_loop fmap list_fmap].
    rewrite (bind_lift_inr (py_lower P (JStr n)) _ _ _ eq_refl).
    rewrite (bind_lift_inr (py_lower P (JStr status)) _ _ _ eq_refl).
    rewrite Hn, String.eqb_refl. by rewrite Nat.add_0_r.
  - cbn in Hk. cbn [Jira.edit_status_loop fmap list_fmap].
    rewrite (bind_lift_inr (py_lower P (JStr m)) _ _ _ eq_refl).
    rewrite (bind_lift_inr (py_lower P (JStr status)) _ _ _ eq_refl).
    rewrite (proj2 (String.eqb_neq _ _)); [|apply (Hfirst 0%nat); [lia|done]].
    rewrite (IH (S i) k Hk Hn).
    + by replace (S i + k)%nat with (i + S k)%nat by lia.
    + intros j m' Hj Hm'. apply (Hfirst (S j)); [lia|done].
Qed.

(** C8.  [edit_status] first fetches the allowed transitions.  When the
    requested status matches no transition name, case ignored, it fails with
    the not-found error whose message lists every valid name, and the only
    request issued is the lookup: no transition is posted.  When a name
    matches, the transition request is posted for the id of the first
    matching transition, and its outcome is the outcome of [edit_status].
    Two names match when [str.lower] gives the same for both, and the names
    are listed as [repr] writes a list of strings: the statement holds for
    these two functions as the interpreter has them, whatever the
    characters of the names. *)
Theorem edit_status_posts_only_a_matching_transition
    issue_id status w j_res w1 (ts : list json) (names : list string) :
  Jira.list_transitions_data_for_issue P client issue_id w = (inr j_res, w1) ->
  py_get j_res "transitions" = inr (JArr ts) ->
  Forall2 (fun t n => py_get t "name" = inr (JStr n)) ts names ->
  sent w1 = sent w ++ [Jira.request_of client "GET"
                         ("rest/api/2/issue/" +:+ issue_id +:+ "/transitions") "" false None]
  /\ ((forall n, n ∈ names -> str_lower P n <> str_lower P status) ->
      Jira.edit_status P client issue_id (JStr status) w
      = (inl (Exn ReturnError
                ("Status " +:+ dquote +:+ status +:+ dquote +:+ " not found. " +:+ newline
                 +:+ "Valid transitions are: " +:+ py_repr P (JArr (JStr <$> names))
                 +:+ " " +:+ newline)),
         w1))
  /\ (forall k n t id,
        names !! k = Some n -> str_lower P n = str_lower P status ->
        (forall j m, (j < k)%nat -> names !! j = Some m -> str_lower P m <> str_lower P status) ->
        ts !! k = Some t -> py_get t "id" = inr id ->
        Jira.edit_status P client issue_id (JStr status) w
        = Jira.send_request P client "POST" (Jira.transitions_url issue_id)
            (json_dumps P (JObj [("transition", JObj [("id", JStr (py_str P id))])]))
            false "text" None w1).
Proof.
  intros Hlist Hts Hnames. repeat apply conj.
  - pose proof (send_request_json_world "GET"
                  ("rest/api/2/issue/" +:+ issue_id +:+ "/transitions") "" false None w) as Hw.
    unfold Jira.list_transitions_data_for_issue in Hlist. rewrite Hlist in Hw.
    cbn in Hw. by rewrite Hw.
  - intros Hno. unfold Jira.edit_status.
    rewrite (bind_inr _ _ _ _ _ Hlist), (bind_lift_inr _ _ _ _ Hts).
    rewrite (bind_lift_inr _ _ _ ts eq_refl).
    rewrite (bind_inr _ _ _ _ _ (names_of_transitions ts names w1 Hnames)).
    by rewrite (bind_inr _ _ _ _ _ (edit_status_loop_no_match _ _ _ _ _ _ Hno)).
  - intros k n t id Hk Hn Hfirst Ht Hid.
    unfold Jira.edit_status.
    rewrite (bind_inr _ _ _ _ _ Hlist), (bind_lift_inr _ _ _ _ Hts).
    rewrite (bind_lift_inr _ _ _ ts eq_refl).
    rewrite (bind_inr _ _ _ _ _ (names_of_transitions ts names w1 Hnames)).
    unfold bind at 1.
    rewrite (edit_status_loop_match issue_id status j_res names 0 k n w1 Hk Hn Hfirst).
    rewrite (bind_lift_inr _ _ _ _ Hts).
    assert (py_nth (JArr ts) (0 + k) = inr t) as Hnth by (cbn; by rewrite Ht).
    rewrite (bind_lift_inr _ _ _ _ Hnth), (bind_lift_inr _ _ _ _ Hid).
    unfold bind, ret.
    by destruct (Jira.send_request _ _ _ _ _ _ _ _ w1) as [[e|r] w2].
Qed.

End EditStatus.

(** ** Polling: the Jira [fetch_incidents] *)

Lemma fileResult_entry filename data w y w' :
  fileResult filename data w = (inr y, w') -> is_entry y.
Proof. unfold fileResult. intros [= <- _]. by eexists _, _. Qed.

Section Incidents.

Variable P : platform.
Variable client : Jira.Client.

Lemma get_attachments_entries atts date only_new w l w' :
  Jira.get_attachments P client atts date only_new w = (inr l, w') ->
  Forall is_entry l.
Proof.
  unfold Jira.get_attachments. destruct (truthy atts).
  2: { intros H. apply ret_inv in H as [-> _]. constructor. }
  intros H. apply bind_inv in H as (items & w1 & _ & H).
  destruct only_new; cbn in H.
  - apply bind_inv in H as (found & w2 & Hfound & H).
    apply ret_inv in H as [-> _].
    apply Forall_concat. revert Hfound. apply map_M_Forall.
    intros x w0 y w0' Hx.
    apply bind_inv in Hx as (created & w3 & _ & Hx).
    apply bind_inv in Hx as (newer & w4 & _ & Hx).
    destruct newer.
    + apply bind_inv in Hx as ([fn zip] & w5 & _ & Hx).
      apply bind_inv in Hx as (file & w6 & Hfile & Hx).
      apply ret_inv in Hx as [-> _]. constructor; [|constructor].
      by eapply fileResult_entry.
    + apply ret_inv in Hx as [-> _]. constructor.
  - revert H. apply map_M_Forall.
    intros x w0 y w0' Hx.
    apply bind_inv in Hx as ([fn zip] & w5 & _ & Hx).
    by eapply fileResult_entry.
Qed.

Lemma get_incident_entries_entries issue date only_new c a w e w' :
  Jira.get_incident_entries P client issue date only_new c a w = (inr e, w') ->
  Forall is_entry (Jira.attachments e).
Proof.
  unfold Jira.get_incident_entries. intros H.
  apply bind_inv in H as (cs & w1 & _ & H).
  apply bind_inv in H as (ats & w2 & Hats & H).
  apply ret_inv in H as [-> _]. cbn.
  destruct a; [|apply ret_inv in Hats as [-> _]; constructor].
  destruct (truthy _); [|apply ret_inv in Hats as [-> _]; constructor].
  by eapply get_attachments_entries.
Qed.

(** [get_entries_for_fetched_incident] never raises. *)
Lemma get_entries_for_fetched_incident_total ticket_id c a w :
  exists e w',
    Jira.get_entries_for_fetched_incident P client ticket_id c a w = (inr e, w')
    /\ Forall is_entry (Jira.attachments e).
Proof.
  unfold Jira.get_entries_for_fetched_incident, try_except.
  match goal with |- context [match ?m w with _ => _ end] => destruct (m w) as [[ex|e] w1] eqn:Hm end.
  - cbn. eexists _, _. split; [done|]. constructor.
  - eexists _, _. split; [done|].
    apply bind_inv in Hm as ([[hr outs] raw] & w2 & _ & Hm).
    by eapply get_incident_entries_entries.
Qed.

Lemma file_names_of_total (l : list json) :
  Forall is_entry l -> exists names, Jira.file_names_of l = inr names.
Proof.
  induction 1 as [|v l (kv & t & -> & Ht) _ [names IH]]; [by eexists|].
  cbn. rewrite Ht. cbn. rewrite IH.
  destruct (negb (py_eq_num t 4)); cbn; by eexists.
Qed.

(** [create_incident_from_ticket] builds an incident from every
    dictionary. *)
Lemma create_incident_from_ticket_total kv a c mi mo ct at_ w :
  exists incident w',
    Jira.create_incident_from_ticket P client (JObj kv) a c mi mo ct at_ w
    = (inr incident, w').
Proof.
  unfold Jira.create_incident_from_ticket.
  rewrite (bind_lift_inr (py_get (JObj kv) "id") _ _ _ eq_refl).
  match goal with
  | |- exists _ _, bind ?m _ w = _ =>
      assert (exists names w1, m w = (inr names, w1)) as (names & w1 & Hfiles)
  end.
  { destruct a; [|by eexists _, _].
    destruct (get_entries_for_fetched_incident_total
                (default JNull (assoc "id" kv)) false true w) as (e & w1 & He & Hent).
    destruct (file_names_of_total _ Hent) as [names Hnames].
    exists names, w1. eapply bind_ok; [exact He|]. unfold lift. by rewrite Hnames. }
  rewrite (bind_inr _ _ _ _ _ Hfiles).
  match goal with
  | |- exists _ _, bind ?m _ w1 = _ =>
      assert (exists labels w2, m w1 = (inr labels, w2)) as (labels & w2 & Hlabels)
  end.
  { destruct c; [|by eexists _, _].
    destruct (get_entries_for_fetched_incident_total
                (default JNull (assoc "id" kv)) true false w1) as (e & w2 & He & _).
    eexists _, w2. eapply bind_ok; [exact He|]. reflexivity. }
  rewrite (bind_inr _ _ _ _ _ Hlabels).
  cbn. by eexists _, _.
Qed.

(** *** The loop over the tickets *)

Lemma fetch_loop_skip a c mi mo ct at_ curr t rest st w n created :
  Jira.read_ticket t = inr (n, created) -> n <= curr ->
  Jira.fetch_loop P client a c mi mo ct at_ curr (t :: rest) st w
  = Jira.fetch_loop P client a c mi mo ct at_ curr rest st w.
Proof.
  intros Ht Hn. cbn [Jira.fetch_loop].
  rewrite (bind_lift_inr _ _ _ _ Ht).
  by rewrite (proj2 (Z.leb_le _ _) Hn).
Qed.

Lemma fetch_loop_emit a c mi mo ct at_ curr t rest st w n created h incident w1 :
  Jira.read_ticket t = inr (n, created) -> curr < n ->
  py_int (Jira.st_id_offset st) = inr h ->
  Jira.create_incident_from_ticket P client t a c mi mo ct at_ w = (inr incident, w1) ->
  Jira.fetch_loop P client a c mi mo ct at_ curr (t :: rest) st w
  = Jira.fetch_loop P client a c mi mo ct at_ curr rest
      (Jira.FetchState
         (if h <? n then JNum n else Jira.st_id_offset st)
         (if h <? n then created else Jira.st_last_created_time st)
         (Jira.st_incidents st ++ [incident])) w1.
Proof.
  intros Ht Hn Hh Hc. cbn [Jira.fetch_loop].
  rewrite (bind_lift_inr _ _ _ _ Ht).
  rewrite (proj2 (Z.leb_gt _ _) Hn).
  rewrite (bind_lift_inr _ _ _ _ Hh).
  destruct (h <? n); cbn; by rewrite (bind_inr _ _ _ _ _ Hc).
Qed.

(** Tickets at or below the starting offset are all skipped: nothing is
    emitted and nothing changes. *)
Lemma fetch_loop_all_skipped a c mi mo ct at_ curr tickets st w :
  Forall (ticket_id_at_most curr) tickets ->
  Jira.fetch_loop P client a c mi mo ct at_ curr tickets st w = (inr st, w).
Proof.
  induction 1 as [|t tickets (n & created & Ht & Hn) _ IH]; [done|].
  by rewrite (fetch_loop_skip _ _ _ _ _ _ _ _ _ _ _ _ _ Ht Hn).
Qed.

(** The offset only grows in the loop, and ends at or above every ticket. *)
Lemma fetch_loop_offset a c mi mo ct at_ curr tickets st w st' w' h :
  Jira.fetch_loop P client a c mi mo ct at_ curr tickets st w = (inr st', w') ->
  py_int (Jira.st_id_offset st) = inr h -> curr <= h ->
  exists h',
    py_int (Jira.st_id_offset st') = inr h' /\ h <= h'
    /\ (Jira.st_id_offset st' = Jira.st_id_offset st
        \/ (Jira.st_id_offset st' = JNum h' /\ h < h'))
    /\ Forall (ticket_id_at_most h') tickets.
Proof.
  revert st w h. induction tickets as [|t tickets IH]; intros st w h Hrun Hh Hcurr.
  - apply ret_inv in Hrun as [-> _]. exists h. repeat split; [done|lia|by left|constructor].
  - cbn [Jira.fetch_loop] in Hrun.
    apply bind_inv in Hrun as ([n created] & w1 & Ht & Hrun).
    apply lift_inv in Ht as [Ht ->].
    destruct (n <=? curr) eqn:Hn.
    + apply Z.leb_le in Hn.
      destruct (IH _ _ _ Hrun Hh Hcurr) as (h' & Hh' & Hle & Hor & Hall).
      exists h'. repeat split; [done..|].
      constructor; [|done]. exists n, created. split; [done|lia].
    + apply Z.leb_gt in Hn.
      apply bind_inv in Hrun as (high & w2 & Hhigh & Hrun).
      apply lift_inv in Hhigh as [Hhigh ->]. rewrite Hh in Hhigh. simplify_eq.
      apply bind_inv in Hrun as (incident & w3 & _ & Hrun).
      destruct (high <? n) eqn:Hlt.
      * apply Z.ltb_lt in Hlt. cbn in Hrun.
        destruct (IH _ _ n Hrun eq_refl ltac:(lia)) as (h' & Hh' & Hle & Hor & Hall).
        exists h'. repeat split; [done|lia| |].
        -- right. cbn in Hor. destruct Hor as [Hor|[Hor ?]].
           ++ rewrite Hor in Hh'. cbn in Hh'. simplify_eq. split; [done|lia].
           ++ split; [done|lia].
        -- constructor; [|done]. exists n, created. split; [done|lia].
      * apply Z.ltb_ge in Hlt. cbn in Hrun.
        destruct (IH _ _ high Hrun Hh Hcurr) as (h' & Hh' & Hle & Hor & Hall).
        exists h'. repeat split; [done..|].
        constructor; [|done]. exists n, created. split; [done|lia].
Qed.

Lemma py_iter_arr (xs : list json) : py_iter (JArr xs) = inr xs.
Proof. done. Qed.

Lemma read_ticket_dict t n created :
  Jira.read_ticket t = inr (n, created) -> exists kv, t = JObj kv.
Proof. destruct t; try done. by eexists. Qed.

Lemma issues_truthy res (ts : list json) :
  py_get res "issues" = inr (JArr ts) -> ts <> [] -> truthy res = true.
Proof.
  destruct res as [| | | | |kv]; try done. intros H Hne.
  destruct kv; [|done]. cbn in H. by simplify_eq.
Qed.

(** C2.  A poll that starts from offset 100 and is answered with the issues
    99, 101 and 105, in that order, emits the incident of issue 101 and then
    the incident of issue 105, nothing for issue 99, and stores 105 as the
    new [idOffset]. *)
Theorem jira_poll_emits_only_newer_issues
    query id_offset a c mi mo ct at_ fetch_by_created w cursor last_created q res w1
    t99 t101 t105 c99 c101 c105 :
  Jira.starting_cursor (last_run w) id_offset = inr (cursor, last_created) ->
  py_int cursor = inr 100 ->
  Jira.fetch_query P query cursor last_created fetch_by_created = inr q ->
  Jira.run_query P client q "" (JNum 50) w = (inr res, w1) ->
  py_get res "issues" = inr (JArr [t99; t101; t105]) ->
  Jira.read_ticket t99 = inr (99, c99) ->
  Jira.read_ticket t101 = inr (101, c101) ->
  Jira.read_ticket t105 = inr (105, c105) ->
  exists i101 i105 w2 w3,
    Jira.create_incident_from_ticket P client t101 a c mi mo ct at_ w1 = (inr i101, w2)
    /\ Jira.create_incident_from_ticket P client t105 a c mi mo ct at_ w2 = (inr i105, w3)
    /\ Jira.fetch_incidents P client query id_offset a c mi mo ct at_ fetch_by_created w
       = (inr [i101; i105],
          with_last_run w3 (JObj [("idOffset", JNum 105); ("lastCreatedTime", c105)])).
Proof.
  intros Hcur Hint Hq Hrun Hissues H99 H101 H105.
  destruct (read_ticket_dict _ _ _ H101) as [kv101 ->].
  destruct (read_ticket_dict _ _ _ H105) as [kv105 ->].
  destruct (create_incident_from_ticket_total kv101 a c mi mo ct at_ w1)
    as (i101 & w2 & Hi101).
  destruct (create_incident_from_ticket_total kv105 a c mi mo ct at_ w2)
    as (i105 & w3 & Hi105).
  exists i101, i105, w2, w3. split; [done|]. split; [done|].
  unfold Jira.fetch_incidents.
  rewrite (bind_inr getLastRun _ w (last_run w) w eq_refl).
  rewrite (bind_lift_inr _ _ _ _ Hcur), (bind_lift_inr _ _ _ _ Hq).
  rewrite (bind_inr _ _ _ _ _ Hrun).
  rewrite (issues_truthy _ _ Hissues ltac:(done)).
  eapply bind_ok.
  { rewrite (bind_lift_inr _ _ _ _ Hint), (bind_lift_inr _ _ _ _ Hissues).
    rewrite (bind_lift_inr _ _ _ _ (py_iter_arr _)).
    erewrite fetch_loop_skip; [|exact H99|lia].
    erewrite fetch_loop_emit; [|exact H101|lia|exact Hint|exact Hi101].
    erewrite fetch_loop_emit; [|exact H105|lia|reflexivity|exact Hi105].
    reflexivity. }
  reflexivity.
Qed.

(** *** The cursor across polls *)

Lemma starting_cursor_stored off lct id_offset :
  Jira.starting_cursor (JObj [("idOffset", off); ("lastCreatedTime", lct)]) id_offset
  = inr (norm_offset off, py_or lct (JStr "")).
Proof. reflexivity. Qed.

Lemma norm_offset_int v h : py_int v = inr h -> py_int (norm_offset v) = inr h.
Proof.
  unfold norm_offset, py_or. destruct v as [|[]|n|s| |]; try done; cbn.
  - destruct (n =? 0) eqn:Hn; cbn; [|by rewrite Hn].
    apply Z.eqb_eq in Hn as ->. done.
  - destruct (String.eqb s "") eqn:Hs; cbn; [|by rewrite Hs].
    apply String.eqb_eq in Hs as ->. done.
Qed.

Lemma norm_offset_idem v : norm_offset (norm_offset v) = norm_offset v.
Proof.
  unfold norm_offset, py_or. cbn.
  destruct (truthy v) eqn:Hv; cbn; [|done].
  rewrite !Hv. cbn. by rewrite ?Hv.
Qed.

Lemma py_or_idem v d : py_or (py_or v d) d = py_or v d.
Proof.
  unfold py_or. destruct (truthy v) eqn:Hv; [by rewrite Hv|].
  by destruct (truthy d).
Qed.

(** What [run_query] returns: the empty dictionary, or an answer whose
    [issues] are not empty. *)
Lemma run_query_result q start_at max_results w res w' :
  Jira.run_query P client q start_at max_results w = (inr res, w') ->
  res = JObj [] \/ exists v, py_get res "issues" = inr v /\ truthy v = true.
Proof.
  unfold Jira.run_query. intros H.
  apply bind_inv in H as (result & w1 & _ & H).
  unfold try_except in H.
  match type of H with
  | context [match ?m w1 with _ => _ end] => destruct (m w1) as [[e|r] w2] eqn:Hm
  end.
  - destruct (is_ValueError e); [|done]. done.
  - simplify_eq.
    apply bind_inv in Hm as (rj & w3 & _ & Hm).
    apply bind_inv in Hm as (issues & w4 & Hissues & Hm).
    apply lift_inv in Hissues as [Hissues ->].
    destruct (truthy issues) eqn:Ht.
    + apply ret_inv in Hm as [-> _]. right. by exists issues.
    + apply bind_inv in Hm as (messages & w5 & _ & Hm).
      apply bind_inv in Hm as (errors & w6 & _ & Hm).
      destruct (contains _ errors); [|done].
      apply ret_inv in Hm as [-> _]. by left.
Qed.


(** A poll that starts from the cursor a first poll stored, and is answered
    with issues the first poll already saw, skips every one of them: it
    emits nothing and leaves the cursor where it was. *)
Lemma jira_redelivery_emits_nothing
    query id_offset a c mi mo ct at_ fetch_by_created w cursor last_created q res w1
    incidents w'
    query2 id_offset2 a2 c2 mi2 mo2 ct2 at2 fetch_by_created2 v cursor2 last_created2
    q2 res2 v1 :
  Jira.starting_cursor (last_run w) id_offset = inr (cursor, last_created) ->
  Jira.fetch_query P query cursor last_created fetch_by_created = inr q ->
  Jira.run_query P client q "" (JNum 50) w = (inr res, w1) ->
  Jira.fetch_incidents P client query id_offset a c mi mo ct at_ fetch_by_created w
  = (inr incidents, w') ->
  last_run v = last_run w' ->
  Jira.starting_cursor (last_run v) id_offset2 = inr (cursor2, last_created2) ->
  Jira.fetch_query P query2 cursor2 last_created2 fetch_by_created2 = inr q2 ->
  Jira.run_query P client q2 "" (JNum 50) v = (inr res2, v1) ->
  redelivered res res2 ->
  let stored := JObj [("idOffset", cursor2); ("lastCreatedTime", last_created2)] in
  Jira.fetch_incidents P client query2 id_offset2 a2 c2 mi2 mo2 ct2 at2 fetch_by_created2 v
  = (inr [], with_last_run v1 stored)
  /\ Jira.starting_cursor stored id_offset2 = inr (cursor2, last_created2).
Proof.
  intros Hcur Hq Hrun H1 Hlr Hcur2 Hq2 Hrun2 Hre stored.
  unfold Jira.fetch_incidents in H1.
  rewrite (bind_inr getLastRun _ w (last_run w) w eq_refl) in H1.
  rewrite (bind_lift_inr _ _ _ _ Hcur), (bind_lift_inr _ _ _ _ Hq) in H1.
  rewrite (bind_inr _ _ _ _ _ Hrun) in H1.
  apply bind_inv in H1 as (st & w2 & Hst & H1).
  apply bind_inv in H1 as ([] & w3 & Hset & H1).
  apply ret_inv in H1 as [_ ->]. injection Hset as <-.
  cbn in Hlr. rewrite Hlr, starting_cursor_stored in Hcur2.
  injection Hcur2 as <- <-.
  split.
  2: { unfold stored. by rewrite starting_cursor_stored, norm_offset_idem, py_or_idem. }
  unfold Jira.fetch_incidents.
  rewrite (bind_inr getLastRun _ v (last_run v) v eq_refl).
  rewrite Hlr, starting_cursor_stored.
  rewrite (bind_lift_inr _ _ _ _ eq_refl), (bind_lift_inr _ _ _ _ Hq2).
  rewrite (bind_inr _ _ _ _ _ Hrun2).
  destruct Hre as [->|(ts1 & ts2 & Hts1 & Hts2 & Hsub)]; [done|].
  assert (ts2 <> []) as Hne2.
  { destruct (run_query_result _ _ _ _ _ _ Hrun2) as [->|(x & Hx & Htx)]; [done|].
    rewrite Hts2 in Hx. injection Hx as <-. by destruct ts2. }
  assert (ts1 <> []) as Hne1.
  { destruct ts2 as [|t ts2]; [done|]. intros ->.
    specialize (Hsub t ltac:(left)). by apply elem_of_nil in Hsub. }
  rewrite (issues_truthy _ _ Hts1 Hne1) in Hst.
  apply bind_inv in Hst as (curr & w4 & Hcurr & Hst).
  apply lift_inv in Hcurr as [Hcurr ->].
  rewrite (bind_lift_inr _ _ _ _ Hts1), (bind_lift_inr _ _ _ _ (py_iter_arr _)) in Hst.
  destruct (fetch_loop_offset _ _ _ _ _ _ _ _ _ _ _ _ curr Hst Hcurr ltac:(lia))
    as (h' & Hh' & _ & _ & Hall).
  rewrite (issues_truthy _ _ Hts2 Hne2).
  eapply bind_ok.
  { rewrite (bind_lift_inr _ _ _ _ (norm_offset_int _ _ Hh')).
    rewrite (bind_lift_inr _ _ _ _ Hts2), (bind_lift_inr _ _ _ _ (py_iter_arr _)).
    apply fetch_loop_all_skipped.
    apply Forall_forall. intros t Ht.
    exact (proj1 (Forall_forall _ _) Hall t (Hsub t Ht)). }
  reflexivity.
Qed.

End Incidents.

(** ** Polling: the CASB [fetch_incidents] *)

Section CasbLoop.

Variable P : platform.

Lemma casb_loop_seen incident rest ids out k :
  incident_key incident k -> k ∈ ids ->
  CASB.fetch_loop P (incident :: rest) ids out = CASB.fetch_loop P rest ids out.
Proof.
  intros (id & Hid & Hk) Hin. cbn. rewrite Hid. cbn. rewrite Hk. cbn.
  by rewrite bool_decide_eq_true_2.
Qed.

Lemma casb_loop_new incident rest ids out k :
  incident_key incident k -> k ∉ ids ->
  exists record,
    CASB.fetch_loop P (incident :: rest) ids out
    = CASB.fetch_loop P rest ({[k]} ∪ ids) (out ++ [record])
    /\ py_get record "dbotMirrorId" = py_get incident "incidentId".
Proof.
  intros (id & Hid & Hk) Hin. cbn. rewrite Hid. cbn. rewrite Hk. cbn.
  rewrite bool_decide_eq_false_2 by done.
  destruct incident; try done. cbn. eexists. split; [reflexivity|]. done.
Qed.

(** Incidents whose ids are all in the set are all skipped. *)
Lemma casb_loop_all_seen incidents ids out :
  Forall (fun i => exists k, incident_key i k /\ k ∈ ids) incidents ->
  CASB.fetch_loop P incidents ids out = inr (ids, out).
Proof.
  induction 1 as [|i incidents (k & Hk & Hin) _ IH]; [done|].
  by rewrite (casb_loop_seen _ _ _ _ _ Hk Hin).
Qed.

(** The set only grows in the loop, and ends with the id of every incident
    of the response in it. *)
Lemma casb_loop_grows incidents ids out ids' out' :
  CASB.fetch_loop P incidents ids out = inr (ids', out') ->
  ids ⊆ ids'
  /\ Forall (fun i => exists k, incident_key i k /\ k ∈ ids') incidents.
Proof.
  revert ids out. induction incidents as [|i incidents IHl]; intros ids out H.
  - cbn in H. simplify_eq. split; [done|constructor].
  - cbn in H.
    apply res_bind_inv in H as (id & Hid & H).
    apply res_bind_inv in H as (k & Hk & H).
    assert (incident_key i k) as Hik by (by exists id).
    destruct (bool_decide (k ∈ ids)) eqn:Hin.
    + apply bool_decide_eq_true_1 in Hin.
      destruct (IHl _ _ H) as [Hsub Hall]. split; [done|].
      constructor; [|done]. exists k. split; [done|]. set_solver.
    + apply res_bind_inv in H as (occurred & _ & H).
      destruct (IHl _ _ H) as [Hsub Hall]. split; [set_solver|].
      constructor; [|done]. exists k. split; [done|]. set_solver.
Qed.

End CasbLoop.

Section CasbPolling.

Variable P : platform.
Variable arg_to_number : json -> res json.
Variable first_fetch_time : json -> res json.
Variable client : CASB.Client.

(** A poll whose query is answered with a non-empty list of incidents runs
    the loop from the stored set and returns what the loop leaves. *)
Lemma casb_fetch_run params stored w limit start result w1 items ids' out next :
  CASB.query_args arg_to_number first_fetch_time params stored = inr (limit, start) ->
  CASB.incident_query P client limit start (JStr "") JNull JNull JNull w
  = (inr result, w1) ->
  CASB.incidents_of result = inr (JArr items) -> items <> [] ->
  CASB.fetch_loop P items (default ∅ (CASB.ids stored)) [] = inr (ids', out) ->
  CASB.next_start_time result = inr next ->
  CASB.fetch_incidents P arg_to_number first_fetch_time client params stored w
  = (inr (CASB.LastRun next (Some ids'), out), w1).
Proof.
  intros Hargs Hq Hinc Hne Hloop Hnext. unfold CASB.fetch_incidents.
  rewrite (bind_lift_inr _ _ _ _ Hargs), (bind_inr _ _ _ _ _ Hq).
  rewrite (bind_lift_inr _ _ _ _ Hinc).
  destruct items as [|i items]; [done|]. cbn [truthy].
  rewrite (bind_lift_inr _ _ _ _ (py_iter_arr _)).
  rewrite (bind_lift_inr _ _ _ _ Hloop), (bind_lift_inr _ _ _ _ Hnext).
  reflexivity.
Qed.

(** C3.  A first poll answered with the incidents [A, B], both unseen,
    emits a record for each and remembers both ids.  The next poll, started
    from what the first one returned and answered with [B, C], emits a record
    for [C] only, and its seen-id set holds both [B] and [C]. *)
Theorem casb_second_poll_emits_only_unseen
    params stored w limit start r1 w1 next1 iA iB a b :
  CASB.query_args arg_to_number first_fetch_time params stored = inr (limit, start) ->
  CASB.incident_query P client limit start (JStr "") JNull JNull JNull w = (inr r1, w1) ->
  CASB.incidents_of r1 = inr (JArr [iA; iB]) ->
  CASB.next_start_time r1 = inr next1 ->
  incident_key iA a -> incident_key iB b -> a <> b ->
  a ∉ default ∅ (CASB.ids stored) -> b ∉ default ∅ (CASB.ids stored) ->
  exists xA xB lr1,
    CASB.fetch_incidents P arg_to_number first_fetch_time client params stored w
    = (inr (lr1, [xA; xB]), w1)
    /\ py_get xA "dbotMirrorId" = py_get iA "incidentId"
    /\ py_get xB "dbotMirrorId" = py_get iB "incidentId"
    /\ forall params2 v limit2 start2 r2 v1 next2 iB' iC c,
         CASB.query_args arg_to_number first_fetch_time params2 lr1
         = inr (limit2, start2) ->
         CASB.incident_query P client limit2 start2 (JStr "") JNull JNull JNull v
         = (inr r2, v1) ->
         CASB.incidents_of r2 = inr (JArr [iB'; iC]) ->
         CASB.next_start_time r2 = inr next2 ->
         incident_key iB' b -> incident_key iC c ->
         c <> a -> c <> b -> c ∉ default ∅ (CASB.ids stored) ->
         exists xC lr2 seen,
           CASB.fetch_incidents P arg_to_number first_fetch_time client params2 lr1 v
           = (inr (lr2, [xC]), v1)
           /\ py_get xC "dbotMirrorId" = py_get iC "incidentId"
           /\ CASB.ids lr2 = Some seen /\ b ∈ seen /\ c ∈ seen.
Proof.
  intros Hargs Hq Hinc Hnext HA HB Hab Ha Hb.
  destruct (casb_loop_new P iA [iB] _ [] a HA Ha) as (xA & HlA & HxA).
  destruct (casb_loop_new P iB [] ({[a]} ∪ default ∅ (CASB.ids stored)) [xA] b HB
              ltac:(set_solver)) as (xB & HlB & HxB).
  exists xA, xB, (CASB.LastRun next1 (Some ({[b]} ∪ ({[a]} ∪ default ∅ (CASB.ids stored))))).
  split.
  { eapply casb_fetch_run; [exact Hargs|exact Hq|exact Hinc|done| |exact Hnext].
    cbn [app] in HlA, HlB. by rewrite HlA, HlB. }
  split; [done|]. split; [done|].
  intros params2 v limit2 start2 r2 v1 next2 iB' iC c Hargs2 Hq2 Hinc2 Hnext2 HB' HC Hca Hcb Hc.
  set (seen1 := {[b]} ∪ ({[a]} ∪ default ∅ (CASB.ids stored))) in *.
  destruct (casb_loop_new P iC [] seen1 [] c HC ltac:(set_solver)) as (xC & HlC & HxC).
  exists xC, (CASB.LastRun next2 (Some ({[c]} ∪ seen1))), ({[c]} ∪ seen1).
  split.
  { eapply casb_fetch_run; [exact Hargs2|exact Hq2|exact Hinc2|done| |exact Hnext2].
    cbn [CASB.ids default from_option app] in *. unfold id.
    rewrite (casb_loop_seen P iB' [iC] seen1 [] b HB' ltac:(set_solver)).
    by rewrite HlC. }
  split; [done|]. split; [done|]. set_solver.
Qed.


(** A poll that starts from what a first poll returned, and is answered
    with incidents the first poll already saw, finds every id in the set: it
    emits nothing and the set stays as it was. *)
Lemma casb_redelivery_emits_nothing
    params stored w limit start r1 w1 lr1 out1
    params2 v limit2 start2 r2 v1 :
  CASB.query_args arg_to_number first_fetch_time params stored = inr (limit, start) ->
  CASB.incident_query P client limit start (JStr "") JNull JNull JNull w = (inr r1, w1) ->
  CASB.fetch_incidents P arg_to_number first_fetch_time client params stored w
  = (inr (lr1, out1), w1) ->
  CASB.query_args arg_to_number first_fetch_time params2 lr1 = inr (limit2, start2) ->
  CASB.incident_query P client limit2 start2 (JStr "") JNull JNull JNull v = (inr r2, v1) ->
  casb_redelivered r1 r2 ->
  exists lr2,
    CASB.fetch_incidents P arg_to_number first_fetch_time client params2 lr1 v
    = (inr (lr2, []), v1)
    /\ CASB.ids lr2 = CASB.ids lr1.
Proof.
  intros Hargs Hq H1 Hargs2 Hq2 Hre.
  unfold CASB.fetch_incidents in H1 |- *.
  rewrite (bind_lift_inr _ _ _ _ Hargs2), (bind_inr _ _ _ _ _ Hq2).
  destruct Hre as [(v2 & Hv2 & Hfalse)|(ts1 & ts2 & next2 & Hts1 & Hts2 & Hsub & Hnext2)].
  { rewrite (bind_lift_inr _ _ _ _ Hv2), Hfalse. by exists lr1. }
  rewrite (bind_lift_inr _ _ _ _ Hts2).
  destruct ts2 as [|t2 ts2]; [by exists lr1|]. cbn [truthy].
  rewrite (bind_lift_inr _ _ _ _ Hargs), (bind_inr _ _ _ _ _ Hq) in H1.
  rewrite (bind_lift_inr _ _ _ _ Hts1) in H1.
  destruct ts1 as [|t1 ts1].
  { specialize (Hsub t2 ltac:(left)). by apply elem_of_nil in Hsub. }
  cbn [truthy] in H1.
  rewrite (bind_lift_inr _ _ _ _ (py_iter_arr _)) in H1.
  apply bind_inv in H1 as ([ids' out'] & w5 & Hloop & H1).
  apply lift_inv in Hloop as [Hloop ->].
  apply bind_inv in H1 as (next & w6 & _ & H1).
  apply ret_inv in H1 as [[= -> ->] _].
  destruct (casb_loop_grows _ _ _ _ _ _ Hloop) as [_ Hall].
  rewrite (bind_lift_inr _ _ _ _ (py_iter_arr _)).
  cbn [CASB.ids default from_option]. unfold id.
  rewrite (bind_lift_inr _ _ _ (ids', [])).
  2: { apply casb_loop_all_seen. apply Forall_forall. intros t Ht.
       exact (proj1 (Forall_forall _ _) Hall t (Hsub t Ht)). }
  rewrite (bind_lift_inr _ _ _ _ Hnext2).
  by eexists.
Qed.

End CasbPolling.

(** ** The two adapters together *)

(** C1, amended.  Polling again with the cursor the first poll produced,
    against remote data that did not change, emits no record when the
    answer to the second query holds nothing that the answer to the first
    query did not hold, that is when the unchanged data fits in one page of
    the poll.  In the Jira adapter every issue of the answer is then at or
    below the stored [idOffset] and is skipped; in the CASB adapter every
    incident id of the answer is then in the stored seen-id set and is
    skipped.  Either way the cursor stays as the first poll left it. *)
Theorem second_poll_on_unchanged_data_emits_nothing :
  (forall P client
     query id_offset a c mi mo ct at_ fetch_by_created w cursor last_created q res w1
     incidents w'
     query2 id_offset2 a2 c2 mi2 mo2 ct2 at2 fetch_by_created2 v cursor2 last_created2
     q2 res2 v1,
     Jira.starting_cursor (last_run w) id_offset = inr (cursor, last_created) ->
     Jira.fetch_query P query cursor last_created fetch_by_created = inr q ->
     Jira.run_query P client q "" (JNum 50) w = (inr res, w1) ->
     Jira.fetch_incidents P client query id_offset a c mi mo ct at_ fetch_by_created w
     = (inr incidents, w') ->
     last_run v = last_run w' ->
     Jira.starting_cursor (last_run v) id_offset2 = inr (cursor2, last_created2) ->
     Jira.fetch_query P query2 cursor2 last_created2 fetch_by_created2 = inr q2 ->
     Jira.run_query P client q2 "" (JNum 50) v = (inr res2, v1) ->
     redelivered res res2 ->
     let stored := JObj [("idOffset", cursor2); ("lastCreatedTime", last_created2)] in
     Jira.fetch_incidents P client query2 id_offset2 a2 c2 mi2 mo2 ct2 at2
       fetch_by_created2 v
     = (inr [], with_last_run v1 stored)
     /\ Jira.starting_cursor stored id_offset2 = inr (cursor2, last_created2))
  /\ (forall P arg_to_number first_fetch_time client
        params stored w limit start r1 w1 lr1 out1
        params2 v limit2 start2 r2 v1,
        CASB.query_args arg_to_number first_fetch_time params stored
        = inr (limit, start) ->
        CASB.incident_query P client limit start (JStr "") JNull JNull JNull w
        = (inr r1, w1) ->
        CASB.fetch_incidents P arg_to_number first_fetch_time client params stored w
        = (inr (lr1, out1), w1) ->
        CASB.query_args arg_to_number first_fetch_time params2 lr1
        = inr (limit2, start2) ->
        CASB.incident_query P client limit2 start2 (JStr "") JNull JNull JNull v
        = (inr r2, v1) ->
        casb_redelivered r1 r2 ->
        exists lr2,
          CASB.fetch_incidents P arg_to_number first_fetch_time client params2 lr1 v
          = (inr (lr2, []), v1)
          /\ CASB.ids lr2 = CASB.ids lr1).
Proof.
  split.
  - exact jira_redelivery_emits_nothing.
  - exact casb_redelivery_emits_nothing.
Qed.

(** C1, as stated, fails: a fixed remote dataset can be larger than one
    page.  Against the issues 1 to 60, which never change, a search returns
    50 issues at a time; the first poll emits the issues 1 to 50, and the
    poll that starts from the cursor it stored emits the issues 51 to 60. *)
Lemma second_poll_on_a_large_dataset_emits_more :
  let P := demo_platform (dataset_server sixty_issues) in
  let poll := Jira.fetch_incidents P demo_client "project=SOC" (JNum 0) false false false
                false JNull JNull false in
  (forall before before' rq, http P before rq = http P before' rq)
  /\ exists first second w1 w2,
       poll empty_world = (inr first, w1)
       /\ List.length first = 50%nat
       /\ py_get (last_run w1) "idOffset" = inr (JNum 50)
       /\ poll w1 = (inr second, w2)
       /\ List.length second = 10%nat
       /\ second <> [].
Proof.
  cbv zeta. split; [reflexivity|].
  eexists _, _, _, _. split; [vm_compute; reflexivity|].
  split; [reflexivity|]. split; [reflexivity|].
  split; [vm_compute; reflexivity|].
  split; [reflexivity|discriminate].
Qed.


(** ** Incoming mirror: [get_remote_data_command] *)

Section GetRemoteData.

Variable P : platform.
Variable client : Jira.Client.

(** C4.  When the issue's [fields.updated] is not strictly after the last
    sync, [get_remote_data_command] returns a mirrored object that holds
    only the cleared [in_mirror_error] and an empty list of entries, and
    issues no request beyond the one that fetched the issue. *)
Theorem get_remote_data_skips_unmodified_issue
    remote_incident_id last_update w human_readable outputs issue w1 updated :
  Jira.get_issue P client remote_incident_id JNull false w
  = (inr (human_readable, outputs, issue), w1) ->
  dict_safe_get_str issue ["fields"; "updated"] = inr updated ->
  dt_gt_opt (parse P updated) (parse P last_update) = inr false ->
  Jira.get_remote_data_command P client remote_incident_id last_update w
  = (inr {| Jira.mirrored_object := JObj [("in_mirror_error", JStr "")];
            Jira.response_entries := [] |},
     w1).
Proof.
  intros Hissue Hupdated Hcmp.
  unfold Jira.get_remote_data_command, try_bind.
  rewrite (bind_inr _ _ _ _ _ Hissue).
  rewrite (bind_lift_inr _ _ _ _ Hupdated), (bind_lift_inr _ _ _ _ Hcmp).
  reflexivity.
Qed.

Lemma closing_entry_truthy : truthy Jira.closing_entry = true.
Proof. reflexivity. Qed.

(** C5, amended.  When the issue's status name is [Done] and its
    [fields.updated] is strictly after the last sync, the response holds
    the issue, with a cleared [in_mirror_error], and exactly one entry, the
    close directive; no comment or attachment is fetched: no request is
    issued beyond the one that fetched the issue. *)
Theorem get_remote_data_closes_modified_done_issue
    remote_incident_id last_update w human_readable outputs issue w1 updated :
  Jira.get_issue P client remote_incident_id JNull false w
  = (inr (human_readable, outputs, issue), w1) ->
  dict_safe_get_str issue ["fields"; "updated"] = inr updated ->
  dt_gt_opt (parse P updated) (parse P last_update) = inr true ->
  Jira.status_name issue = inr (JStr "Done") ->
  exists kv,
    issue = JObj kv
    /\ Jira.get_remote_data_command P client remote_incident_id last_update w
       = (inr {| Jira.mirrored_object := JObj (assoc_set "in_mirror_error" (JStr "") kv);
                 Jira.response_entries := [Jira.closing_entry] |},
          w1)
    /\ demisto_get Jira.closing_entry ["Contents"; "dbotIncidentClose"] = JBool true.
Proof.
  intros Hissue Hupdated Hcmp Hstatus.
  destruct issue as [| | | | |kv]; try done. exists kv. split; [done|]. split; [|done].
  unfold Jira.get_remote_data_command, try_bind.
  rewrite (bind_inr _ _ _ _ _ Hissue).
  rewrite (bind_lift_inr _ _ _ _ Hupdated), (bind_lift_inr _ _ _ _ Hcmp).
  cbn [ret]. unfold try_except, Jira.handle_incoming_closing_incident.
  rewrite (bind_lift_inr _ _ _ Jira.closing_entry).
  2: { by rewrite Hstatus. }
  rewrite closing_entry_truthy.
  reflexivity.
Qed.

End GetRemoteData.

(** C5, as stated, fails: a [Done] issue that was not modified after the
    last sync gets no close directive at all. *)
Lemma done_issue_without_close_directive :
  let P := demo_platform (issue_server (done_issue "100")) in
  Jira.status_name (done_issue "100") = inr (JStr "Done")
  /\ exists r w',
       Jira.get_remote_data_command P demo_client "10" "100" empty_world = (inr r, w')
       /\ Jira.response_entries r = []
       /\ ~ emits_one_close_directive r.
Proof.
  split; [reflexivity|].
  eexists _, _. split; [vm_compute; reflexivity|]. split; [reflexivity|].
  intros (e & He & _). discriminate He.
Qed.

(** ** Outgoing mirror: [update_remote_system_command] *)

Lemma for_each_stops {A} (body : A -> M unit) before x after e w w1 w2 :
  for_each before body w = (inr tt, w1) ->
  body x w1 = (inl e, w2) ->
  for_each (before ++ x :: after) body w = (inl e, w2).
Proof.
  revert w. induction before as [|y ys IH]; intros w Hbefore Hx; cbn in *.
  - apply ret_inv in Hbefore as [_ <-]. by rewrite (bind_inl _ _ _ _ _ Hx).
  - apply bind_inv in Hbefore as ([] & w0 & Hy & Hys).
    rewrite (bind_inr _ _ _ _ _ Hy). by apply IH.
Qed.

Section UpdateRemoteSystem.

Variable P : platform.
Variable client : Jira.Client.

(** Whatever happens inside, the command returns the remote id. *)
Lemma update_remote_system_returns_remote_id remote_args w :
  fst (Jira.update_remote_system_command P client remote_args w)
  = inr (Jira.remote_incident_id remote_args).
Proof. reflexivity. Qed.

(** C7.  With an empty delta and no entries, [update_remote_system_command]
    returns the remote id and leaves the world as it found it: no request
    is sent to the server, and nothing is logged. *)
Theorem update_remote_system_without_changes_sends_nothing remote_args w :
  truthy (Jira.delta remote_args) = false ->
  truthy (Jira.args_entries remote_args) = false ->
  Jira.update_remote_system_command P client remote_args w
  = (inr (Jira.remote_incident_id remote_args), w).
Proof.
  intros Hdelta Hentries.
  unfold Jira.update_remote_system_command, finally_return, try_except, Jira.push_fields.
  rewrite Hdelta, Hentries. reflexivity.
Qed.

(** C6, amended.  When the push of one entry fails, the failure is caught
    and logged, and the command returns the remote id; the entries after
    the failing one are not attempted: the world the command leaves is the
    one the failing push left, with the logged line added. *)
Theorem update_remote_system_stops_at_failing_entry
    remote_args before entry after e w w0 w1 w2 :
  Jira.push_fields P client remote_args w = (inr tt, w0) ->
  Jira.args_entries remote_args = JArr (before ++ entry :: after) ->
  for_each before (Jira.push_entry P client (Jira.remote_incident_id remote_args)) w0
  = (inr tt, w1) ->
  Jira.push_entry P client (Jira.remote_incident_id remote_args) entry w1 = (inl e, w2) ->
  Jira.update_remote_system_command P client remote_args w
  = (inr (Jira.remote_incident_id remote_args),
     with_error_log w2
       (error_log w2 ++ [outgoing_mirror_error (Jira.remote_incident_id remote_args) e])).
Proof.
  intros Hfields Hentries Hbefore Hentry.
  unfold Jira.update_remote_system_command, finally_return, try_except.
  rewrite (bind_inr _ _ _ _ _ Hfields), Hentries.
  replace (truthy (JArr (before ++ entry :: after))) with true
    by (by destruct before).
  rewrite (bind_lift_inr _ _ _ _ (py_iter_arr _)).
  rewrite (for_each_stops _ _ _ _ _ _ _ _ Hbefore Hentry).
  reflexivity.
Qed.

End UpdateRemoteSystem.

(** C6, as stated, fails: of two comments, the server refuses the first;
    the command logs the failure and returns the remote id, and the second
    comment, which the server would have accepted, is never sent. *)
Lemma failing_entry_blocks_later_entries :
  let P := demo_platform
             (refusing_server (repr_with ascii_repr (JObj [("body", JStr "first")]))) in
  let run := Jira.update_remote_system_command P demo_client two_comments empty_world in
  fst run = inr "10"
  /\ sent (snd run) = [comment_push P demo_client "10" "first"]
  /\ (comment_push P demo_client "10" "second" ∉ sent (snd run))
  /\ (exists rs, http P [] (comment_push P demo_client "10" "second") = inr rs
                 /\ resp_ok rs = true)
  /\ error_log (snd run) = [outgoing_mirror_error "10" (Exn RequestError "Connection refused")].
Proof.
  cbv zeta. repeat apply conj.
  - reflexivity.
  - vm_compute. reflexivity.
  - vm_compute. intros H. apply list_elem_of_singleton in H. discriminate H.
  - eexists. split; vm_compute; reflexivity.
  - vm_compute. reflexivity.
Qed.


(** The names of the not-found error are written as [repr] writes them: a
    name with an apostrophe comes in double quotes. *)
Example edit_status_writes_names_as_repr :
  fst (Jira.edit_status (demo_platform (search_server transitions_with_apostrophe))
         demo_client "7" (JStr "Resolve") empty_world)
  = inl (Exn ReturnError
           ("Status " +:+ dquote +:+ "Resolve" +:+ dquote +:+ " not found. " +:+ newline
            +:+ "Valid transitions are: ['Open', " +:+ dquote +:+ "Won't Do" +:+ dquote
            +:+ "] " +:+ newline)).
Proof. vm_compute. reflexivity. Qed.

(** * The theorems on concrete runs *)

(** [send_request_classifies_failures] on a 404 answer whose body lists an
    error message. *)
Lemma send_request_classifies_failures_example :
  fst (Jira.send_request (demo_platform (failing_server 404 "" (Some no_such_issue)))
         demo_client "GET" "rest/api/latest/issue/7" "" false "json" None empty_world)
  = inl (Exn ReturnError
           ("Status code: 404" +:+ newline +:+ "Message: Issue Does Not Exist")).
Proof.
  pose proof (send_request_classifies_failures
                (demo_platform (failing_server 404 "" (Some no_such_issue)))
                demo_client "GET" "rest/api/latest/issue/7" "" "json" false None
                empty_world (answer false 404 "" (Some no_such_issue)) eq_refl) as H.
  cbv zeta in H. destruct H as [H _]. destruct (H eq_refl) as (_ & Hmessages & _).
  exact (Hmessages _ ["Issue Does Not Exist"%string] eq_refl eq_refl ltac:(discriminate)).
Defined.

(** [edit_status_posts_only_a_matching_transition] on the transitions
    [Open], [In Progress] and [Done]: [Resolve] matches none of them, and
    [done] matches the third. *)
Lemma edit_status_posts_only_a_matching_transition_example :
  let P := demo_platform (search_server transitions_doc) in
  (exists w1,
     Jira.edit_status P demo_client "7" (JStr "Resolve") empty_world
     = (inl (Exn ReturnError
               ("Status " +:+ dquote +:+ "Resolve" +:+ dquote +:+ " not found. " +:+ newline
                +:+ "Valid transitions are: ['Open', 'In Progress', 'Done'] " +:+ newline)),
        w1)
     /\ sent w1 = [Jira.request_of demo_client "GET" "rest/api/2/issue/7/transitions" ""
                     false None])
  /\ fst (Jira.edit_status P demo_client "7" (JStr "done") empty_world)
     = inr (Jira.Raw (answer true 200 "" (Some transitions_doc))).
Proof.
  cbv zeta.
  destruct (edit_status_posts_only_a_matching_transition
              (demo_platform (search_server transitions_doc)) demo_client "7" "Resolve"
              empty_world transitions_doc _
              [JObj [("id", JStr "11"); ("name", JStr "Open")];
               JObj [("id", JStr "21"); ("name", JStr "In Progress")];
               JObj [("id", JStr "31"); ("name", JStr "Done")]]
              ["Open"; "In Progress"; "Done"]%string
              eq_refl eq_refl) as (Hsent & Hmiss & _).
  { repeat constructor. }
  split.
  - eexists. split.
    + apply Hmiss. intros n Hn.
      repeat (apply elem_of_cons in Hn as [->|Hn]; [discriminate|]).
      by apply elem_of_nil in Hn.
    + exact Hsent.
  - vm_compute. reflexivity.
Defined.

(** [jira_poll_emits_only_newer_issues] on a run: the poll from offset 100
    against the issues 99, 101 and 105. *)
Lemma jira_poll_emits_only_newer_issues_example :
  let P := demo_platform (search_server three_issues) in
  exists i101 i105 w',
    Jira.fetch_incidents P demo_client "project=SOC" (JNum 100) false false false false
      JNull JNull false empty_world
    = (inr [i101; i105], w')
    /\ py_get i101 "name" = inr (JStr "Jira issue: 101")
    /\ py_get i105 "name" = inr (JStr "Jira issue: 105")
    /\ py_get (last_run w') "idOffset" = inr (JNum 105).
Proof.
  cbv zeta.
  destruct (jira_poll_emits_only_newer_issues
              (demo_platform (search_server three_issues)) demo_client
              "project=SOC" (JNum 100) false false false false JNull JNull false
              empty_world (JNum 100) (JStr "") "project=SOC AND id >= 100" three_issues _
              (issue "99" "a") (issue "101" "b") (issue "105" "c")
              (JStr "199") (JStr "1101") (JStr "1105")
              eq_refl eq_refl eq_refl eq_refl eq_refl eq_refl eq_refl eq_refl)
    as (i101 & i105 & w2 & w3 & H101 & H105 & Hrun).
  exists i101, i105. eexists. split; [exact Hrun|].
  vm_compute in H101. injection H101 as <- <-.
  vm_compute in H105. injection H105 as <- <-.
  repeat split.
Defined.

(** [casb_second_poll_emits_only_unseen] on a run: a poll answered with
    [A, B], then a poll answered with [B, C]. *)
Lemma casb_second_poll_emits_only_unseen_example :
  let first := casb_poll (CASB.LastRun JNull None) empty_world in
  exists xA xB lr1,
    fst first = inr (lr1, [xA; xB])
    /\ exists xC lr2 seen,
         fst (casb_poll lr1 (snd first)) = inr (lr2, [xC])
         /\ py_get xC "dbotMirrorId" = inr (JStr "C")
         /\ CASB.ids lr2 = Some seen
         /\ CASB.KStr "B" ∈ seen /\ CASB.KStr "C" ∈ seen.
Proof.
  cbv zeta.
  edestruct (casb_second_poll_emits_only_unseen
              casb_platform (fun v => inr v) (fun _ => inr (JStr "t0")) casb_client
              (JObj []) (CASB.LastRun JNull None) empty_world (JNum 50) (JStr "t0")
              (casb_answer ["A"; "B"] "t1") _ (JStr "t1")
              (casb_incident "A") (casb_incident "B") (CASB.KStr "A") (CASB.KStr "B")
              eq_refl eq_refl eq_refl eq_refl)
    as (xA & xB & lr1 & Hfirst & _ & _ & Hsecond).
  { by eexists. }
  { by eexists. }
  { discriminate. }
  { apply not_elem_of_empty. }
  { apply not_elem_of_empty. }
  exists xA, xB, lr1. fold (casb_poll (CASB.LastRun JNull None)) in Hfirst.
  split; [by rewrite Hfirst|].
  assert (CASB.start_time lr1 = JStr "t1") as Hstart.
  { unfold casb_poll, CASB.fetch_incidents in Hfirst. cbn in Hfirst.
    by injection Hfirst as <- _. }
  edestruct (Hsecond (JObj []) (snd (casb_poll (CASB.LastRun JNull None) empty_world))
               (JNum 50) (JStr "t1")
               (casb_answer ["B"; "C"] "t2")
               (snd (CASB.incident_query casb_platform casb_client (JNum 50) (JStr "t1")
                       (JStr "") JNull JNull JNull
                       (snd (casb_poll (CASB.LastRun JNull None) empty_world))))
               (JStr "t2")
               (casb_incident "B") (casb_incident "C") (CASB.KStr "C"))
    as (xC & lr2 & seen & Hrun & HxC & Hids & HB & HC).
  { unfold CASB.query_args. rewrite Hstart. reflexivity. }
  { reflexivity. }
  { reflexivity. }
  { reflexivity. }
  { by eexists. }
  { by eexists. }
  { discriminate. }
  { discriminate. }
  { apply not_elem_of_empty. }
  exists xC, lr2, seen. fold (casb_poll lr1) in Hrun. rewrite Hrun.
  repeat split; done.
Defined.

(** [second_poll_on_unchanged_data_emits_nothing] on two runs: each adapter
    polls twice against a server whose answer does not change. *)
Lemma second_poll_on_unchanged_data_emits_nothing_example :
  (exists first, fst (jira_poll empty_world) = inr first
                 /\ List.length first = 2%nat
                 /\ fst (jira_poll (snd (jira_poll empty_world))) = inr [])
  /\ (exists lr1 first lr2,
        fst (casb_same_poll (CASB.LastRun JNull None) empty_world) = inr (lr1, first)
        /\ List.length first = 2%nat
        /\ fst (casb_same_poll lr1 (snd (casb_same_poll (CASB.LastRun JNull None) empty_world)))
           = inr (lr2, [])).
Proof.
  destruct second_poll_on_unchanged_data_emits_nothing as [Hjira Hcasb]. split.
  - assert (exists first w',
              jira_poll empty_world = (inr first, w')
              /\ List.length first = 2%nat
              /\ last_run w' = JObj [("idOffset", JNum 105); ("lastCreatedTime", JStr "1105")])
      as (first & w' & Hfirst & Hlen & Hlast).
    { eexists _, _. split; [vm_compute; reflexivity|]. split; reflexivity. }
    exists first. rewrite Hfirst. split; [done|]. split; [done|]. cbn [snd].
    edestruct (Hjira (demo_platform (search_server three_issues)) demo_client
                 "project=SOC" (JNum 100) false false false false JNull JNull false
                 empty_world (JNum 100) (JStr "") "project=SOC AND id >= 100"%string
                 three_issues
                 (snd (Jira.run_query (demo_platform (search_server three_issues))
                         demo_client "project=SOC AND id >= 100" "" (JNum 50) empty_world))
                 first w'
                 "project=SOC" (JNum 100) false false false false JNull JNull false
                 w' (JNum 105) (JStr "1105") "project=SOC AND id >= 105"%string
                 three_issues
                 (snd (Jira.run_query (demo_platform (search_server three_issues))
                         demo_client "project=SOC AND id >= 105" "" (JNum 50) w'))
                 eq_refl eq_refl eq_refl Hfirst eq_refl) as [Hsecond _].
    { by rewrite Hlast. }
    { reflexivity. }
    { reflexivity. }
    { right. eexists _, _. split; [reflexivity|]. split; [reflexivity|]. done. }
    unfold jira_poll. by rewrite Hsecond.
  - assert (exists lr1 first w1,
              casb_same_poll (CASB.LastRun JNull None) empty_world = (inr (lr1, first), w1)
              /\ List.length first = 2%nat
              /\ CASB.start_time lr1 = JStr "t1"
              /\ w1 = snd (CASB.incident_query
                             (demo_platform (search_server (casb_answer ["A"; "B"] "t1")))
                             casb_client (JNum 50) (JStr "t0") (JStr "") JNull JNull JNull
                             empty_world))
      as (lr1 & first & w1 & Hfirst & Hlen & Hstart & Hw1).
    { eexists _, _, _. split; [reflexivity|]. split; [reflexivity|]. split; reflexivity. }
    exists lr1, first. rewrite Hfirst. cbn [snd].
    edestruct (Hcasb (demo_platform (search_server (casb_answer ["A"; "B"] "t1")))
                 (fun v => inr v) (fun _ => inr (JStr "t0")) casb_client
                 (JObj []) (CASB.LastRun JNull None) empty_world (JNum 50) (JStr "t0")
                 (casb_answer ["A"; "B"] "t1") w1 lr1 first
                 (JObj []) w1 (JNum 50) (JStr "t1") (casb_answer ["A"; "B"] "t1")
                 (snd (CASB.incident_query
                         (demo_platform (search_server (casb_answer ["A"; "B"] "t1")))
                         casb_client (JNum 50) (JStr "t1") (JStr "") JNull JNull JNull w1))
                 eq_refl) as (lr2 & Hsecond & _).
    { by rewrite Hw1. }
    { exact Hfirst. }
    { unfold CASB.query_args. by rewrite Hstart. }
    { reflexivity. }
    { right. eexists _, _, _. split; [reflexivity|]. split; [reflexivity|]. split; done. }
    exists lr2. split; [done|]. split; [done|]. unfold casb_same_poll. by rewrite Hsecond.
Defined.


(** [get_remote_data_skips_unmodified_issue] on an issue updated at the
    instant of the last sync. *)
Lemma get_remote_data_skips_unmodified_issue_example :
  exists w1,
    Jira.get_remote_data_command (demo_platform (issue_server (done_issue "100")))
      demo_client "10" "100" empty_world
    = (inr {| Jira.mirrored_object := JObj [("in_mirror_error", JStr "")];
              Jira.response_entries := [] |}, w1).
Proof.
  assert (exists hr outs w1,
            Jira.get_issue (demo_platform (issue_server (done_issue "100")))
              demo_client "10" JNull false empty_world
            = (inr (hr, outs, done_issue "100"), w1)) as (hr & outs & w1 & Hissue).
  { eexists _, _, _. vm_compute. reflexivity. }
  exists w1.
  exact (get_remote_data_skips_unmodified_issue _ _ "10" "100" _ _ _ _ _ "100"
           Hissue eq_refl eq_refl).
Defined.

(** [get_remote_data_closes_modified_done_issue] on a [Done] issue updated
    after the last sync. *)
Lemma get_remote_data_closes_modified_done_issue_example :
  exists mirrored w1,
    Jira.get_remote_data_command (demo_platform (issue_server (done_issue "200")))
      demo_client "10" "100" empty_world
    = (inr {| Jira.mirrored_object := mirrored;
              Jira.response_entries := [Jira.closing_entry] |}, w1)
    /\ py_get mirrored "in_mirror_error" = inr (JStr "").
Proof.
  assert (exists hr outs w1,
            Jira.get_issue (demo_platform (issue_server (done_issue "200")))
              demo_client "10" JNull false empty_world
            = (inr (hr, outs, done_issue "200"), w1)) as (hr & outs & w1 & Hissue).
  { eexists _, _, _. vm_compute. reflexivity. }
  destruct (get_remote_data_closes_modified_done_issue _ _ "10" "100" _ _ _ _ _ "200"
              Hissue eq_refl eq_refl eq_refl) as (kv & Hkv & Hrun & _).
  eexists _, w1. split; [exact Hrun|].
  injection Hkv as <-. reflexivity.
Defined.

(** [update_remote_system_without_changes_sends_nothing] on an incident
    with no delta and no entries. *)
Lemma update_remote_system_without_changes_sends_nothing_example :
  Jira.update_remote_system_command (demo_platform (refusing_server "")) demo_client
    nothing_to_push empty_world
  = (inr "10"%string, empty_world).
Proof.
  exact (update_remote_system_without_changes_sends_nothing
           (demo_platform (refusing_server "")) demo_client nothing_to_push empty_world
           eq_refl eq_refl).
Defined.

(** [update_remote_system_stops_at_failing_entry] on three comments of
    which the server refuses the second: the third is never sent. *)
Lemma update_remote_system_stops_at_failing_entry_example :
  let P := demo_platform (refusing_server (repr_with ascii_repr (JObj [("body", JStr "second")]))) in
  let run := Jira.update_remote_system_command P demo_client three_comments empty_world in
  fst run = inr "10"%string
  /\ sent (snd run) = [comment_push P demo_client "10" "first";
                       comment_push P demo_client "10" "second"]
  /\ error_log (snd run)
     = [outgoing_mirror_error "10" (Exn RequestError "Connection refused")].
Proof.
  cbv zeta.
  rewrite (update_remote_system_stops_at_failing_entry
             (demo_platform (refusing_server (repr_with ascii_repr (JObj [("body", JStr "second")]))))
             demo_client three_comments
             [comment_of "1@7" "first"] (comment_of "2@7" "second")
             [comment_of "3@7" "third"]
             (Exn RequestError "Connection refused")
             empty_world empty_world
             (with_sent empty_world
                [comment_push (demo_platform (refusing_server "")) demo_client "10" "first"])
             (with_sent empty_world
                [comment_push (demo_platform (refusing_server "")) demo_client "10" "first";
                 comment_push (demo_platform (refusing_server "")) demo_client "10" "second"])
             eq_refl eq_refl eq_refl eq_refl).
  repeat split.
Defined.

(** * Further properties of the adapters *)

(** ** The search: [run_query] *)

Section RunQuery.

Variable P : platform.
Variable client : Jira.Client.

(** X1.  Called without [extra_fields] and [nofields], as [fetch_incidents]
    and [get_id_offset] call it, [run_query] decides on the body of the
    answer alone, whatever its status.  A body that is not JSON is the
    failure [Failed to send request] with the reason of the response; a body
    with issues is returned as it is; a body with no issues and no
    [errorMessages] is the empty dictionary; a body with no issues and error
    messages is the failure [No issues were found] with the messages joined
    by commas.  Exactly one request is sent in such a call. *)
Theorem run_query_reads_the_body_alone query start_at max_results w result :
  http P (sent w) (search_request client query start_at max_results) = inr result ->
  let run := Jira.run_query P client query start_at max_results w in
  snd run = with_sent w (sent w ++ [search_request client query start_at max_results])
  /\ (resp_json result = None ->
      fst run = inl (Exn PlainException
                       ("Failed to send request, reason: " +:+ resp_reason result)))
  /\ (forall kv issues,
        resp_json result = Some (JObj kv) ->
        assoc "issues" kv = Some issues -> truthy issues = true ->
        fst run = inr (JObj kv))
  /\ (forall kv,
        resp_json result = Some (JObj kv) ->
        truthy (default JNull (assoc "issues" kv)) = false ->
        assoc "errorMessages" kv = None ->
        fst run = inr (JObj []))
  /\ (forall kv ms,
        resp_json result = Some (JObj kv) ->
        truthy (default JNull (assoc "issues" kv)) = false ->
        assoc "errorMessages" kv = Some (JArr (JStr <$> ms)) ->
        contains no_issues_text (join "," ms) = false ->
        fst run = inl (Exn PlainException
                         ("No issues were found, error message from Jira: "
                          +:+ join "," ms))).
Proof.
  intros Hh. cbv zeta. unfold search_request in *.
  unfold Jira.run_query, bind, try_except, http_send, lift, ret, raise, response_json.
  rewrite Hh. cbn [fst snd].
  repeat apply conj.
  - repeat (case_match; simplify_eq/=); eauto.
  - intros ->. reflexivity.
  - intros kv issues -> Hi Ht. cbn. rewrite Hi. cbn. by rewrite Ht.
  - intros kv -> Ht Hm. cbn. rewrite Ht, Hm. reflexivity.
  - intros kv ms -> Ht Hm Hc. cbn. rewrite Ht, Hm. cbn.
    rewrite py_join_strings. unfold no_issues_text in Hc. by rewrite Hc.
Qed.

End RunQuery.

(** ** The fields of an issue: [get_issue_fields] *)

Lemma assoc_set_same k v kv : assoc k (assoc_set k v kv) = Some v.
Proof.
  induction kv as [|[k' v'] kv IH]; cbn.
  - by rewrite String.eqb_refl.
  - destruct (String.eqb k k') eqn:E; cbn; [by rewrite String.eqb_refl|].
    by rewrite E.
Qed.

Lemma assoc_set_other k k' v kv : k <> k' -> assoc k (assoc_set k' v kv) = assoc k kv.
Proof.
  intros Hne. induction kv as [|[k0 v0] kv IH]; cbn.
  - by rewrite (proj2 (String.eqb_neq _ _) Hne).
  - destruct (String.eqb k' k0) eqn:E; cbn.
    + apply String.eqb_eq in E as <-. by rewrite (proj2 (String.eqb_neq _ _) Hne).
    + destruct (String.eqb k k0); [done|exact IH].
Qed.

Lemma startswith_customfield_neq name k :
  startswith "customfield" name = true -> startswith "customfield" k = false -> k <> name.
Proof. intros H1 H2 ->. congruence. Qed.

Section IssueFields.

Variable P : platform.
Variable client : Jira.Client.
Variable issue_args : list (string * json).

(** The custom fields of a mirrored delta land under their own names and
    leave the other fields alone. *)
Lemma copy_custom_fields_keeps (args : list (string * json)) fkv :
  exists fkv',
    Jira.copy_custom_fields args (JObj [("fields", JObj fkv)])
    = inr (JObj [("fields", JObj fkv')])
    /\ forall k, startswith "customfield" k = false -> assoc k fkv' = assoc k fkv.
Proof.
  revert fkv. induction args as [|[name value] args IH]; intros fkv.
  - exists fkv. done.
  - cbn [Jira.copy_custom_fields].
    destruct (negb (String.eqb name "") && startswith "customfield" name) eqn:E; cbn [res_bind].
    + apply andb_true_iff in E as [_ E].
      destruct (IH (assoc_set name value fkv)) as (fkv' & Hrun & Hkeep).
      exists fkv'. cbn. split; [exact Hrun|].
      intros k Hk. rewrite (Hkeep k Hk). apply assoc_set_other.
      by apply startswith_customfield_neq.
    + apply IH.
Qed.

(** The first part of [get_issue_fields], up to the project lookup, when no
    issue document is given: [fields] is a dictionary, it has an [issuetype]
    only for a creation, and a [project] only when one was named. *)
Lemma get_issue_fields_first_part (issue_creating mirroring : bool) :
  exists fkv,
    Jira.run_steps
      [ (fun issue =>
           res_bind (py_get issue "fields") (fun fields =>
           if truthy fields then inr issue else py_setitem issue "fields" (JObj [])));
        (fun issue =>
           if mirroring then Jira.copy_custom_fields issue_args issue else inr issue);
        (fun issue =>
           res_bind (Jira.fields_get issue "issuetype") (fun issuetype =>
           if negb (truthy issuetype) && issue_creating
           then Jira.set_path issue ["fields"; "issuetype"] (JObj []) else inr issue));
        Jira.copy_arg issue_args "summary" ["summary"] id;
        (fun issue =>
           res_bind (Jira.fields_get issue "project") (fun project =>
           if negb (truthy project)
              && (truthy (Jira.arg issue_args "projectKey")
                  || truthy (Jira.arg issue_args "projectName"))
           then Jira.set_path issue ["fields"; "project"] (JObj []) else inr issue));
        Jira.copy_arg issue_args "projectKey" ["project"; "key"] id;
        Jira.copy_arg issue_args "projectName" ["project"; "name"] id ] (JObj [])
    = inr (JObj [("fields", JObj fkv)])
    /\ assoc "issuetype" fkv = (if issue_creating then Some (JObj []) else None)
    /\ (truthy (Jira.arg issue_args "projectKey") = false ->
        truthy (Jira.arg issue_args "projectName") = false ->
        assoc "project" fkv = None).
Proof.
  cbn [Jira.run_steps py_get assoc default truthy res_bind py_setitem assoc_set].
  assert (exists fkv1,
            (if mirroring
             then Jira.copy_custom_fields issue_args (JObj [("fields", JObj [])])
             else inr (JObj [("fields", JObj [])]))
            = inr (JObj [("fields", JObj fkv1)])
            /\ assoc "issuetype" fkv1 = None /\ assoc "project" fkv1 = None)
    as (fkv1 & -> & Hit1 & Hpr1).
  { destruct mirroring.
    - destruct (copy_custom_fields_keeps issue_args []) as (fkv' & -> & Hkeep).
      exists fkv'. split; [done|]. split; by rewrite Hkeep.
    - by exists []. }
  cbn [res_bind]. unfold Jira.fields_get at 1. cbn [py_item assoc String.eqb Ascii.eqb Bool.eqb res_bind py_get].
  rewrite Hit1. cbn [default truthy negb andb].
  set (fkv2 := if issue_creating then assoc_set "issuetype" (JObj []) fkv1 else fkv1).
  assert ((if issue_creating
           then Jira.set_path (JObj [("fields", JObj fkv1)]) ["fields"; "issuetype"] (JObj [])
           else inr (JObj [("fields", JObj fkv1)]))
          = inr (JObj [("fields", JObj fkv2)])) as ->.
  { unfold fkv2. by destruct issue_creating. }
  assert (assoc "issuetype" fkv2 = (if issue_creating then Some (JObj []) else None)) as Hit2.
  { unfold fkv2. destruct issue_creating; [apply assoc_set_same|done]. }
  assert (assoc "project" fkv2 = None) as Hpr2.
  { unfold fkv2. destruct issue_creating; [|done]. by rewrite assoc_set_other. }
  clearbody fkv2. clear fkv1 Hit1 Hpr1.
  cbn [res_bind]. unfold Jira.copy_arg at 1.
  set (fkv3 := if truthy (Jira.arg issue_args "summary")
               then assoc_set "summary" (Jira.arg issue_args "summary") fkv2 else fkv2).
  assert ((if truthy (Jira.arg issue_args "summary")
           then Jira.set_path (JObj [("fields", JObj fkv2)]) ["fields"; "summary"]
                  (id (Jira.arg issue_args "summary"))
           else inr (JObj [("fields", JObj fkv2)]))
          = inr (JObj [("fields", JObj fkv3)])) as ->.
  { unfold fkv3. by destruct (truthy _). }
  assert (assoc "issuetype" fkv3 = (if issue_creating then Some (JObj []) else None)) as Hit3.
  { unfold fkv3. destruct (truthy _); [|done]. by rewrite assoc_set_other. }
  assert (assoc "project" fkv3 = None) as Hpr3.
  { unfold fkv3. destruct (truthy _); [|done]. by rewrite assoc_set_other. }
  clearbody fkv3. clear fkv2 Hit2 Hpr2.
  cbn [res_bind]. unfold Jira.fields_get at 1.
  cbn [py_item assoc String.eqb Ascii.eqb Bool.eqb res_bind py_get].
  rewrite Hpr3. cbn [default truthy negb andb].
  unfold Jira.copy_arg.
  destruct (truthy (Jira.arg issue_args "projectKey")) eqn:Hk;
    destruct (truthy (Jira.arg issue_args "projectName")) eqn:Hn;
    repeat (progress (cbn [orb res_bind Jira.set_path py_item assoc String.eqb Ascii.eqb
                           Bool.eqb py_setitem assoc_set id];
                      rewrite ?assoc_set_same));
    eexists; (split; [reflexivity|]); (split; [|try done]);
    rewrite ?assoc_set_other by done; try exact Hit3; try exact Hpr3.
Qed.

(** X7.  Without an issue document in the arguments, an [issueTypeName]
    makes [get_issue_fields] fail with [KeyError: 'issuetype'] unless an
    issue is being created: [fields] has no [issuetype] to put the name in.
    Nothing is sent to the server. *)
Theorem get_issue_fields_issue_type_name_needs_creation mirroring w :
  assoc "issue_json" issue_args = None ->
  assoc "issueJson" issue_args = None ->
  truthy (Jira.arg issue_args "issueTypeName") = true ->
  Jira.get_issue_fields P issue_args client false mirroring w
  = (inl (Exn KeyError "'issuetype'"), w).
Proof.
  intros H1 H2 Htype.
  destruct (get_issue_fields_first_part false mirroring) as (fkv & Hrun & Hit & _).
  unfold Jira.get_issue_fields, Jira.issue_json_of. rewrite H1, H2.
  rewrite (bind_inr _ _ _ _ _ (ret_eq (JObj []) w)).
  rewrite (bind_lift_inr _ _ _ _ Hrun).
  rewrite (bind_inr _ _ _ _ _ (ret_eq _ w)).
  unfold lift. f_equal.
  cbn [Jira.run_steps]. unfold Jira.copy_arg at 1. rewrite Htype.
  cbn [Jira.set_path py_item assoc String.eqb Ascii.eqb Bool.eqb res_bind].
  by rewrite Hit.
Qed.

(** X8.  Creating an issue without naming a project, by key or by name, in
    the arguments or in an issue document, is refused before anything is
    sent to the server. *)
Theorem get_issue_fields_creation_needs_a_project mirroring w :
  assoc "issue_json" issue_args = None ->
  assoc "issueJson" issue_args = None ->
  truthy (Jira.arg issue_args "projectKey") = false ->
  truthy (Jira.arg issue_args "projectName") = false ->
  Jira.get_issue_fields P issue_args client true mirroring w
  = (inl (Exn ReturnError
            "You must provide at least one of the following: project_key or project_name"),
     w).
Proof.
  intros H1 H2 Hkey Hname.
  destruct (get_issue_fields_first_part true mirroring) as (fkv & Hrun & _ & Hpr).
  specialize (Hpr Hkey Hname).
  unfold Jira.get_issue_fields, Jira.issue_json_of. rewrite H1, H2.
  rewrite (bind_inr _ _ _ _ _ (ret_eq (JObj []) w)).
  rewrite (bind_lift_inr _ _ _ _ Hrun).
  apply bind_inl.
  erewrite bind_lift_inr by reflexivity.
  cbn [py_get_default]. rewrite Hpr. cbn [default].
  do 4 (erewrite bind_lift_inr by reflexivity).
  apply bind_inl. unfold Jira.get_project_id. apply bind_inl. reflexivity.
Qed.

End IssueFields.

(** ** Projects, transitions and edits *)

Section Lookups.

Variable P : platform.
Variable client : Jira.Client.

Lemma find_project_none project_key project_name ps kns :
  Forall2 project_named ps kns ->
  Forall (fun kn => ~ project_matches P project_key project_name kn) kns ->
  Jira.find_project P (JStr project_key) (JStr project_name) ps = inr None.
Proof.
  intros H. induction H as [|p kn ps kns [Hk Hn] _ IH]; [done|].
  intros Hno. apply Forall_cons in Hno as [Hkn Hno].
  cbn [Jira.find_project py_lower res_bind]. rewrite Hk. cbn [res_bind py_lower].
  unfold project_matches in Hkn.
  rewrite (proj2 (String.eqb_neq _ _)) by (intros E; apply Hkn; by left).
  rewrite Hn. cbn [res_bind py_lower].
  rewrite (proj2 (String.eqb_neq _ _)) by (intros E; apply Hkn; by right).
  cbn [res_bind]. by apply IH.
Qed.

Lemma find_project_first project_key project_name ps kns i p kn :
  Forall2 project_named ps kns ->
  ps !! i = Some p -> kns !! i = Some kn ->
  project_matches P project_key project_name kn ->
  (forall j kn', (j < i)%nat -> kns !! j = Some kn' ->
                 ~ project_matches P project_key project_name kn') ->
  Jira.find_project P (JStr project_key) (JStr project_name) ps
  = res_bind (py_get p "id") (fun id => inr (Some id)).
Proof.
  intros H. revert i. induction H as [|p0 kn0 ps kns [Hk Hn] _ IH]; intros i Hp Hkn Hm Hfirst.
  { done. }
  cbn [Jira.find_project py_lower res_bind]. rewrite Hk. cbn [res_bind py_lower].
  destruct i as [|i].
  - cbn in Hp, Hkn. simplify_eq.
    destruct (String.eqb (str_lower P project_key) (str_lower P (fst kn))) eqn:E; cbn [res_bind].
    + done.
    + rewrite Hn. cbn [res_bind py_lower].
      destruct Hm as [Hm|Hm].
      * rewrite Hm, String.eqb_refl in E. done.
      * by rewrite Hm, String.eqb_refl.
  - cbn in Hp, Hkn.
    assert (~ project_matches P project_key project_name kn0) as Hno.
    { apply (Hfirst 0%nat); [lia|done]. }
    unfold project_matches in Hno.
    rewrite (proj2 (String.eqb_neq _ _)) by (intros E; apply Hno; by left).
    rewrite Hn. cbn [res_bind py_lower].
    rewrite (proj2 (String.eqb_neq _ _)) by (intros E; apply Hno; by right).
    cbn [res_bind]. apply (IH i); [done..|].
    intros j kn' Hj Hkn'. apply (Hfirst (S j)); [lia|done].
Qed.

(** X9.  [get_project_id] asks the server for the projects once, and takes
    the first project whose key or whose name is the wanted one, case
    ignored, that is the same under [str.lower]: it returns the [id] of that
    project.  When no project matches it fails with [Project not found]. *)
Theorem get_project_id_takes_the_first_match
    (project_key project_name : string) w result w1 (ps : list json) kns :
  truthy (JStr project_key) || truthy (JStr project_name) = true ->
  Jira.send_request_json P client "GET" "rest/api/latest/issue/createmeta" "" false None w
  = (inr result, w1) ->
  py_get result "projects" = inr (JArr ps) ->
  Forall2 project_named ps kns ->
  sent w1 = sent w ++ [Jira.request_of client "GET" "rest/api/latest/issue/createmeta" ""
                         false None]
  /\ (Forall (fun kn => ~ project_matches P project_key project_name kn) kns ->
      Jira.get_project_id P client (JStr project_key) (JStr project_name) w
      = (inl (Exn ReturnError "Project not found"), w1))
  /\ (forall i p kn id,
        ps !! i = Some p -> kns !! i = Some kn ->
        project_matches P project_key project_name kn ->
        (forall j kn', (j < i)%nat -> kns !! j = Some kn' ->
                       ~ project_matches P project_key project_name kn') ->
        py_get p "id" = inr id ->
        Jira.get_project_id P client (JStr project_key) (JStr project_name) w
        = (inr id, w1)).
Proof.
  intros Hgiven Hsend Hps Hnamed.
  assert (forall found,
            Jira.find_project P (JStr project_key) (JStr project_name) ps = inr found ->
            Jira.get_project_id P client (JStr project_key) (JStr project_name) w
            = match found with
              | Some id => (inr id, w1)
              | None => (inl (Exn ReturnError "Project not found"), w1)
              end) as Hrun.
  { intros found Hfound. unfold Jira.get_project_id.
    replace (negb (truthy (JStr project_key)) && negb (truthy (JStr project_name)))
      with false by (by rewrite <- negb_orb, Hgiven).
    rewrite (bind_inr _ _ _ _ _ (ret_eq tt w)), (bind_inr _ _ _ _ _ Hsend).
    rewrite (bind_lift_inr _ _ _ _ Hps), (bind_lift_inr _ _ _ _ (py_iter_arr _)).
    rewrite (bind_lift_inr _ _ _ _ Hfound). by destruct found. }
  repeat apply conj.
  - pose proof (send_request_json_world P client "GET" "rest/api/latest/issue/createmeta" ""
                  false None w) as Hw.
    rewrite Hsend in Hw. cbn in Hw. by rewrite Hw.
  - intros Hno. by rewrite (Hrun None (find_project_none _ _ _ _ Hnamed Hno)).
  - intros i p kn id Hp Hkn Hm Hfirst Hid.
    rewrite (Hrun (Some id)); [done|].
    rewrite (find_project_first _ _ _ _ _ _ _ Hnamed Hp Hkn Hm Hfirst). by rewrite Hid.
Qed.

Lemma edit_transition_loop_no_match issue_id transition_name (ts names : list json) w :
  Forall2 (fun t n => py_get t "name" = inr n) ts names ->
  Forall (fun n => py_eq n transition_name = false) names ->
  Jira.edit_transition_loop P client issue_id transition_name ts w = (inr None, w).
Proof.
  intros H. induction H as [|t n ts names Ht _ IH]; [done|].
  intros Hno. apply Forall_cons in Hno as [Hn Hno].
  cbn [Jira.edit_transition_loop]. rewrite (bind_lift_inr _ _ _ _ Ht), Hn. by apply IH.
Qed.

Lemma edit_transition_loop_match issue_id transition_name (ts names : list json) k t n id w :
  Forall2 (fun t n => py_get t "name" = inr n) ts names ->
  ts !! k = Some t -> names !! k = Some n -> py_eq n transition_name = true ->
  (forall j m, (j < k)%nat -> names !! j = Some m -> py_eq m transition_name = false) ->
  py_get t "id" = inr id ->
  Jira.edit_transition_loop P client issue_id transition_name ts w
  = (let! r := Jira.send_request P client "POST" (Jira.transitions_url issue_id)
                 (json_dumps P (JObj [("transition", JObj [("id", id)])]))
                 false "text" None in
     ret (Some r)) w.
Proof.
  intros H. revert k. induction H as [|t0 n0 ts names Ht _ IH]; intros k Hk Hn Heq Hfirst Hid.
  { done. }
  cbn [Jira.edit_transition_loop]. rewrite (bind_lift_inr _ _ _ _ Ht).
  destruct k as [|k].
  - cbn in Hk, Hn. simplify_eq. rewrite Heq. by rewrite (bind_lift_inr _ _ _ _ Hid).
  - cbn in Hk, Hn. rewrite (Hfirst 0%nat n0) by (done || lia).
    apply (IH k); [done..| |done].
    intros j m Hj Hm. apply (Hfirst (S j)); [lia|done].
Qed.

(** X10.  [edit_transition] first fetches the allowed transitions and looks
    for one whose name equals the requested name exactly, case included.
    Without one it fails with the not-found error that lists the
    transitions as the server gave them, written as [repr] writes them, and
    the only request sent is the lookup.  With one, it posts the [id] of the
    first such transition, as the server gave it, and its outcome is the
    outcome of that request. *)
Theorem edit_transition_matches_the_exact_name
    issue_id transition_name w j_res w1 (ts names : list json) :
  Jira.list_transitions_data_for_issue P client issue_id w = (inr j_res, w1) ->
  py_get j_res "transitions" = inr (JArr ts) ->
  Forall2 (fun t n => py_get t "name" = inr n) ts names ->
  sent w1 = sent w ++ [Jira.request_of client "GET"
                         ("rest/api/2/issue/" +:+ issue_id +:+ "/transitions") "" false None]
  /\ (Forall (fun n => py_eq n transition_name = false) names ->
      Jira.edit_transition P client issue_id transition_name w
      = (inl (Exn ReturnError
                ("Transitions " +:+ dquote +:+ py_str P transition_name +:+ dquote
                 +:+ " not found. " +:+ newline +:+ "Valid transitions are: "
                 +:+ py_repr P (JArr ts) +:+ " " +:+ newline)),
         w1))
  /\ (forall k t n id,
        ts !! k = Some t -> names !! k = Some n -> py_eq n transition_name = true ->
        (forall j m, (j < k)%nat -> names !! j = Some m ->
                     py_eq m transition_name = false) ->
        py_get t "id" = inr id ->
        Jira.edit_transition P client issue_id transition_name w
        = Jira.send_request P client "POST" (Jira.transitions_url issue_id)
            (json_dumps P (JObj [("transition", JObj [("id", id)])]))
            false "text" None w1).
Proof.
  intros Hlist Hts Hnames. repeat apply conj.
  - pose proof (send_request_json_world P client "GET"
                  ("rest/api/2/issue/" +:+ issue_id +:+ "/transitions") "" false None w) as Hw.
    unfold Jira.list_transitions_data_for_issue in Hlist. rewrite Hlist in Hw.
    cbn in Hw. by rewrite Hw.
  - intros Hno. unfold Jira.edit_transition.
    rewrite (bind_inr _ _ _ _ _ Hlist), (bind_lift_inr _ _ _ _ Hts).
    rewrite (bind_lift_inr _ _ _ _ (py_iter_arr _)).
    by rewrite (bind_inr _ _ _ _ _ (edit_transition_loop_no_match _ _ _ _ _ Hnames Hno)).
  - intros k t n id Hk Hn Heq Hfirst Hid. unfold Jira.edit_transition.
    rewrite (bind_inr _ _ _ _ _ Hlist), (bind_lift_inr _ _ _ _ Hts).
    rewrite (bind_lift_inr _ _ _ _ (py_iter_arr _)).
    unfold bind at 1.
    rewrite (edit_transition_loop_match _ _ _ _ _ _ _ _ _ Hnames Hk Hn Heq Hfirst Hid).
    unfold bind, ret.
    by destruct (Jira.send_request _ _ _ _ _ _ _ _ w1) as [[e|r] w2].
Qed.

(** X11.  [edit_issue_command] sends the field edit before it looks at
    [status] and [transition]: when both are given it fails with
    [Please provide only status or transition, but not both.], and the
    fields of the issue have been edited by then. *)
Theorem edit_issue_command_edits_before_it_refuses
    issue_id mirroring args w issue w1 r w2 :
  Jira.get_issue_fields P (edit_kwargs args) client
    (truthy (default JNull (assoc "issue_creating" args))) mirroring w = (inr issue, w1) ->
  Jira.send_request P client "PUT" ("rest/api/latest/issue/" +:+ issue_id +:+ "/")
    (json_dumps P issue) false "text" None w1 = (inr r, w2) ->
  truthy (default JNull (assoc "status" args)) = true ->
  truthy (default JNull (assoc "transition" args)) = true ->
  Jira.edit_issue_command P client issue_id mirroring args w
  = (inl (Exn ReturnError "Please provide only status or transition, but not both."), w2)
  /\ sent w2 = sent w1 ++ [Jira.request_of client "PUT"
                             ("rest/api/latest/issue/" +:+ issue_id +:+ "/")
                             (json_dumps P issue) false None].
Proof.
  intros Hfields Hput Hstatus Htransition. split.
  - unfold Jira.edit_issue_command. unfold edit_kwargs in Hfields.
    rewrite (bind_inr _ _ _ _ _ Hfields), (bind_inr _ _ _ _ _ Hput).
    rewrite Hstatus, Htransition. reflexivity.
  - pose proof (send_request_world P client "PUT"
                  ("rest/api/latest/issue/" +:+ issue_id +:+ "/") (json_dumps P issue)
                  false "text" None w1) as Hw.
    rewrite Hput in Hw. cbn in Hw. by rewrite Hw.
Qed.

End Lookups.

(** ** The entries of an issue *)

Section Entries.

Variable P : platform.
Variable client : Jira.Client.

(** X4.  With [only_new], [get_comments] keeps the comments whose [updated]
    date is after the incident's date, in their order, and drops the
    others; a comment whose date cannot be compared with the incident's
    date fails the whole listing. *)
Theorem get_comments_keeps_the_newer_comments (cs : list json) date :
  (forall flags,
     Forall2 (fun c newer => dated_after P date "updated" c = inr newer) cs flags ->
     Jira.get_comments P (JArr cs) date true
     = inr (JArr (fst <$> filter (fun p => snd p = true) (zip cs flags))))
  /\ (forall c e,
        c ∈ cs -> dated_after P date "updated" c = inl e ->
        exists e', Jira.get_comments P (JArr cs) date true = inl e').
Proof.
  unfold Jira.get_comments. cbn [negb py_iter res_bind]. split.
  - intros flags H.
    match goal with
    | |- res_bind (?each cs) _ = _ =>
        assert (each cs = inr (fst <$> filter (fun p => snd p = true) (zip cs flags))) as ->
    end; [|done].
    induction H as [|c newer cs flags Hc _ IH]; [done|].
    unfold dated_after in Hc. apply res_bind_inv in Hc as (s & Hs & Hlt).
    rewrite Hs. cbn [res_bind]. rewrite Hlt. cbn [res_bind]. rewrite IH. cbn [res_bind].
    cbn [zip zip_with]. rewrite filter_cons. cbn [snd].
    destruct newer; by rewrite ?decide_True, ?decide_False by done.
  - intros c e Hin Hc.
    match goal with
    | |- exists _, res_bind (?each cs) _ = _ =>
        assert (exists e', each cs = inl e') as [e' ->]
    end; [|by eexists].
    induction cs as [|c0 cs IH]; [by apply elem_of_nil in Hin|].
    apply elem_of_cons in Hin as [<-|Hin].
    + unfold dated_after in Hc.
      destruct (dict_safe_get_str c ["updated"]) as [e0|s] eqn:Hs; cbn in *.
      * by eexists.
      * rewrite Hc. by eexists.
    + destruct (IH Hin) as [e' He'].
      destruct (dict_safe_get_str c0 ["updated"]) as [e0|s]; cbn; [by eexists|].
      destruct (dt_lt_opt date (parse P s)) as [e1|b]; cbn; [by eexists|].
      rewrite He'. by eexists.
Qed.

(** X5.  With [only_new], [get_attachments] downloads nothing when no
    attachment was created after the incident's date: no request is sent
    and no file is handed to the host. *)
Theorem get_attachments_skips_old_attachments (atts : list json) date w :
  Forall (fun a => dated_after P date "created" a = inr false) atts ->
  Jira.get_attachments P client (JArr atts) date true w = (inr [], w).
Proof.
  intros H. unfold Jira.get_attachments.
  destruct atts as [|a0 atts0]; [done|]. cbn [truthy negb].
  rewrite (bind_lift_inr _ _ _ _ (py_iter_arr _)).
  match goal with
  | |- bind (map_M ?f ?l) _ w = _ =>
      assert (map_M f l w = (inr (map (fun _ => []) l), w)) as Hmap
  end.
  { induction H as [|a atts Ha _ IH]; [done|].
    cbn [map_M map]. unfold dated_after in Ha.
    apply res_bind_inv in Ha as (s & Hs & Hlt).
    eapply bind_ok.
    { rewrite (bind_lift_inr _ _ _ _ Hs), (bind_lift_inr _ _ _ _ Hlt). reflexivity. }
    rewrite (bind_inr _ _ _ _ _ IH). reflexivity. }
  rewrite (bind_inr _ _ _ _ _ Hmap). unfold ret. f_equal. f_equal.
  clear. induction (a0 :: atts0) as [|x l IH]; [done|]. cbn. exact IH.
Qed.

(** X6.  [get_entries_for_fetched_incident] never raises: when the issue
    cannot be fetched, or its comments or attachments cannot, the entries
    are empty. *)
Theorem get_entries_for_fetched_incident_swallows_failures
    ticket_id should_get_comments should_get_attachments w :
  (exists e,
     fst (Jira.get_entries_for_fetched_incident P client ticket_id should_get_comments
            should_get_attachments w) = inr e)
  /\ (forall ex w1,
        Jira.get_issue P client (py_str P ticket_id) JNull false w = (inl ex, w1) ->
        Jira.get_entries_for_fetched_incident P client ticket_id should_get_comments
          should_get_attachments w
        = (inr (Jira.Entries (JArr []) []), w1))
  /\ (forall hr outs raw w1 ex w2,
        Jira.get_issue P client (py_str P ticket_id) JNull false w
        = (inr (hr, outs, raw), w1) ->
        Jira.get_incident_entries P client raw None false should_get_comments
          should_get_attachments w1 = (inl ex, w2) ->
        Jira.get_entries_for_fetched_incident P client ticket_id should_get_comments
          should_get_attachments w
        = (inr (Jira.Entries (JArr []) []), w2)).
Proof.
  unfold Jira.get_entries_for_fetched_incident, try_except. repeat apply conj.
  - match goal with
    | |- context [match ?m w with _ => _ end] => destruct (m w) as [[ex|e] w1]
    end; by eexists.
  - intros ex w1 H. by rewrite (bind_inl _ _ _ _ _ H).
  - intros hr outs raw w1 ex w2 H1 H2. rewrite (bind_inr _ _ _ _ _ H1). by rewrite H2.
Qed.

End Entries.

(** ** What the incoming mirror reports, and what a poll emits *)

Section IncomingMirror.

Variable P : platform.
Variable client : Jira.Client.










Lemma mirror_in_failed_outcome remote_incident_id kv e w :
  Jira.mirror_in_failed remote_incident_id (JObj kv) e w
  = if contains "Rate limit exceeded" (exn_msg e) then (inl rate_limit_failure, w)
    else (inr {| Jira.mirrored_object :=
                   if truthy (JObj kv)
                   then JObj (assoc_set "in_mirror_error" (JStr (exn_msg e)) kv)
                   else JObj [("id", JStr remote_incident_id);
                              ("in_mirror_error", JStr (exn_msg e))];
                 Jira.response_entries := [] |}, w).
Proof.
  unfold Jira.mirror_in_failed.
  destruct (contains _ _); [done|].
  rewrite (bind_inr _ _ _ _ _ (ret_eq tt w)).
  by destruct kv.
Qed.

(** X12.  When fetching the issue fails with an exception that
    [except Exception] catches, that is with any failure but the exit of
    [return_error] (a refused connection, for one), [get_remote_data_command]
    does not raise: it returns a mirrored object that holds the remote id and
    the message of the failure under [in_mirror_error], and no entries.  Only
    a failure whose message contains [Rate limit exceeded] ends the command,
    with [API rate limit]. *)
Theorem get_remote_data_reports_a_failed_fetch remote_incident_id last_update w e w1 :
  Jira.get_issue P client remote_incident_id JNull false w = (inl e, w1) ->
  caught e ->
  Jira.get_remote_data_command P client remote_incident_id last_update w
  = if contains "Rate limit exceeded" (exn_msg e) then (inl rate_limit_failure, w1)
    else (inr {| Jira.mirrored_object :=
                   JObj [("id", JStr remote_incident_id);
                         ("in_mirror_error", JStr (exn_msg e))];
                 Jira.response_entries := [] |}, w1).
Proof.
  intros Hissue _. unfold Jira.get_remote_data_command, try_bind.
  rewrite (bind_inl _ _ _ _ _ Hissue). cbn [any_exception].
  by rewrite mirror_in_failed_outcome.
Qed.


(** *** What a poll emits *)

Lemma fetch_loop_emits a c mi mo ct at_ curr tickets st w st' w' :
  Jira.fetch_loop P client a c mi mo ct at_ curr tickets st w = (inr st', w') ->
  exists fresh,
    Jira.st_incidents st' = Jira.st_incidents st ++ fresh
    /\ Forall2 (made_from P client a c mi mo ct at_) (tickets_above curr tickets) fresh.
Proof.
  revert st w. induction tickets as [|t tickets IH]; intros st w Hrun.
  - apply ret_inv in Hrun as [-> _]. exists []. by rewrite app_nil_r.
  - cbn [Jira.fetch_loop] in Hrun.
    apply bind_inv in Hrun as ([n created] & w1 & Ht & Hrun).
    apply lift_inv in Ht as [Ht ->].
    unfold tickets_above. rewrite filter_cons.
    assert (is_above curr t = (curr <? n)) as Habove by (unfold is_above; by rewrite Ht).
    destruct (n <=? curr) eqn:Hn.
    + apply Z.leb_le in Hn.
      rewrite decide_False by (rewrite Habove, (proj2 (Z.ltb_ge _ _)); [done|lia]).
      by apply IH in Hrun.
    + apply Z.leb_gt in Hn.
      rewrite decide_True by (rewrite Habove; apply Z.ltb_lt; lia).
      apply bind_inv in Hrun as (high & w2 & Hhigh & Hrun).
      apply lift_inv in Hhigh as [Hhigh ->].
      apply bind_inv in Hrun as (incident & w3 & Hinc & Hrun).
      apply IH in Hrun as (fresh & Hfresh & Hall). cbn in Hfresh.
      exists (incident :: fresh). split.
      * rewrite Hfresh. destruct (high <? n); by rewrite <- app_assoc.
      * constructor; [|done]. by exists w, w3.
Qed.

(** X14.  A successful Jira poll emits one incident for each issue of the
    answer whose id is above the offset the poll started from, in the order
    of the answer, and nothing else: no such issue is dropped, and no issue
    at or below the offset is emitted. *)
Theorem jira_poll_emits_the_issues_above_the_offset
    query id_offset a c mi mo ct at_ fetch_by_created w cursor last_created curr q res w1
    (tickets : list json) incidents w' :
  Jira.starting_cursor (last_run w) id_offset = inr (cursor, last_created) ->
  py_int cursor = inr curr ->
  Jira.fetch_query P query cursor last_created fetch_by_created = inr q ->
  Jira.run_query P client q "" (JNum 50) w = (inr res, w1) ->
  py_get res "issues" = inr (JArr tickets) ->
  Jira.fetch_incidents P client query id_offset a c mi mo ct at_ fetch_by_created w
  = (inr incidents, w') ->
  Forall2 (made_from P client a c mi mo ct at_) (tickets_above curr tickets) incidents.
Proof.
  intros Hcur Hint Hq Hrun Hissues H. unfold Jira.fetch_incidents in H.
  rewrite (bind_inr getLastRun _ w (last_run w) w eq_refl) in H.
  rewrite (bind_lift_inr _ _ _ _ Hcur), (bind_lift_inr _ _ _ _ Hq) in H.
  rewrite (bind_inr _ _ _ _ _ Hrun) in H.
  apply bind_inv in H as (st & w2 & Hst & H).
  apply bind_inv in H as ([] & w3 & _ & H). apply ret_inv in H as [-> _].
  destruct (truthy res) eqn:Hres.
  - rewrite (bind_lift_inr _ _ _ _ Hint), (bind_lift_inr _ _ _ _ Hissues) in Hst.
    rewrite (bind_lift_inr _ _ _ _ (py_iter_arr _)) in Hst.
    apply fetch_loop_emits in Hst as (fresh & -> & Hall). done.
  - apply ret_inv in Hst as [-> _]. cbn.
    destruct (run_query_result P client _ _ _ _ _ _ Hrun) as [->|(v & Hv & Htv)].
    + cbn in Hissues. done.
    + destruct res as [| | | | |kv]; try done. destruct kv; [|done].
      cbn in Hv. injection Hv as <-. done.
Qed.

End IncomingMirror.

(** ** What the outgoing mirror sends *)

Section OutgoingMirror.

Variable P : platform.
Variable client : Jira.Client.

Lemma for_each_sent_comments remote_id (es : list json) w :
  accepting P -> Forall is_note_entry es ->
  for_each es (Jira.push_entry P client remote_id) w
  = (inr tt,
     with_sent w (sent w ++ map (fun e => comment_push P client remote_id (entry_contents P e)) es)).
Proof.
  intros Hacc Hes. revert w. induction Hes as [|e es (kv & -> & Htype) _ IH]; intros w.
  - cbn. rewrite app_nil_r. by destruct w.
  - cbn [for_each map].
    assert (Jira.push_entry P client remote_id (JObj kv) w
            = (inr tt, with_sent w (sent w ++ [comment_push P client remote_id
                                                 (entry_contents P (JObj kv))]))) as Hpush.
    { unfold Jira.push_entry.
      do 2 (erewrite bind_lift_inr by reflexivity).
      rewrite Htype. erewrite bind_lift_inr by reflexivity.
      unfold Jira.add_comment. cbn [truthy String.eqb Ascii.eqb negb app].
      destruct (Hacc (sent w) (comment_push P client remote_id (entry_contents P (JObj kv))))
        as (r & j & Hr & Hok & Hj).
      unfold Jira.send_request_json.
      pose proof (send_request_ok P client "POST"
                    ("rest/api/latest/issue/" +:+ remote_id +:+ "/comment")
                    (json_dumps P (JObj [("body", JStr (entry_contents P (JObj kv)))]))
                    "json" false None w r Hr Hok) as Hsend.
      cbn in Hsend. unfold response_json in Hsend. rewrite Hj in Hsend.
      unfold entry_contents in *. cbn [py_get_default].
      eapply bind_ok.
      { eapply bind_ok; [exact Hsend|]. reflexivity. }
      reflexivity. }
    rewrite (bind_inr _ _ _ _ _ Hpush), IH. cbn. by rewrite <- app_assoc.
Qed.

(** X2.  When the server accepts every request, [update_remote_system_command]
    with no delta sends one comment request for each entry that is not a
    file, in the order of the entries, each with the body
    [{"body": str(contents)}], logs nothing and returns the remote id. *)
Theorem update_remote_system_pushes_every_comment_in_order remote_args (es : list json) w :
  accepting P ->
  truthy (Jira.delta remote_args) = false ->
  Jira.args_entries remote_args = JArr es ->
  Forall is_note_entry es ->
  Jira.update_remote_system_command P client remote_args w
  = (inr (Jira.remote_incident_id remote_args),
     with_sent w
       (sent w ++ map (fun e => comment_push P client (Jira.remote_incident_id remote_args)
                                  (entry_contents P e)) es)).
Proof.
  intros Hacc Hdelta Hentries Hes.
  unfold Jira.update_remote_system_command, finally_return, try_except, Jira.push_fields.
  rewrite Hdelta, Hentries. cbn [andb].
  rewrite (bind_inr _ _ _ _ _ (ret_eq tt w)).
  destruct es as [|e es].
  - cbn. rewrite app_nil_r. by destruct w.
  - cbn [truthy]. rewrite (bind_lift_inr _ _ _ _ (py_iter_arr _)).
    by rewrite (for_each_sent_comments _ _ _ Hacc Hes).
Qed.

(** X3.  When the field edit of [update_remote_system_command] fails, the
    failure is logged and the remote id returned, and no entry is pushed:
    the world is the one the failed edit left, with the logged line. *)
Theorem update_remote_system_failed_edit_blocks_entries remote_args e w w0 :
  Jira.push_fields P client remote_args w = (inl e, w0) ->
  Jira.update_remote_system_command P client remote_args w
  = (inr (Jira.remote_incident_id remote_args),
     with_error_log w0
       (error_log w0 ++ [outgoing_mirror_error (Jira.remote_incident_id remote_args) e])).
Proof.
  intros Hfields.
  unfold Jira.update_remote_system_command, finally_return, try_except.
  rewrite (bind_inl _ _ _ _ _ Hfields). reflexivity.
Qed.

End OutgoingMirror.

(** ** The rows of an issue *)

Section Formatting.

Variable P : platform.

Lemma name_and_email_missing person :
  truthy person = false -> Jira.name_and_email P person = inr (JStr "null(null)").
Proof. unfold Jira.name_and_email. by intros ->. Qed.

Lemma name_and_email_partial pkv name :
  pkv <> [] ->
  assoc "displayName" pkv = Some (JStr name) -> assoc "emailAddress" pkv = None ->
  Jira.name_and_email P (JObj pkv) = inr (JStr (name +:+ "(null)")).
Proof.
  intros Hne Hn He. unfold Jira.name_and_email. destruct pkv; [done|].
  cbn [truthy py_get_default res_bind]. by rewrite Hn, He.
Qed.

(** X30.  The display row and the context row that
    [generate_md_context_get_issue] builds for an issue show a missing
    assignee as [null(null)], and an assignee without an e-mail address as
    its display name followed by [(null)]. *)
Theorem md_context_shows_a_missing_assignee_as_null kv mds contexts :
  Jira.generate_md_context_get_issue P (JObj kv) = inr (mds, contexts) ->
  exists md context,
    mds = JArr [md] /\ contexts = JArr [context]
    /\ (truthy (demisto_get (JObj kv) ["fields"; "assignee"]) = false ->
        py_get md "assignee" = inr (JStr "null(null)")
        /\ py_get context "Assignee" = inr (JStr "null(null)"))
    /\ (forall pkv name,
          demisto_get (JObj kv) ["fields"; "assignee"] = JObj pkv -> pkv <> [] ->
          assoc "displayName" pkv = Some (JStr name) ->
          assoc "emailAddress" pkv = None ->
          py_get md "assignee" = inr (JStr (name +:+ "(null)"))
          /\ py_get context "Assignee" = inr (JStr (name +:+ "(null)"))).
Proof.
  unfold Jira.generate_md_context_get_issue. intros H.
  apply res_bind_inv in H as ([mdl ctxl] & H & [= <- <-]).
  cbn [Jira.md_context_of_elements] in H.
  apply res_bind_inv in H as ([md ctx] & Hel & H). cbn in H. injection H as <- <-.
  exists md, ctx. split; [done|]. split; [done|].
  unfold Jira.md_context_of_element in Hel.
  apply res_bind_inv in Hel as (names & _ & Hel).
  apply res_bind_inv in Hel as ([] & _ & Hel).
  apply res_bind_inv in Hel as (assignee & Hassignee & Hel).
  apply res_bind_inv in Hel as (creator & _ & Hel).
  apply res_bind_inv in Hel as (reporter & _ & Hel).
  apply res_bind_inv in Hel as (attachment & _ & [= <- <-]).
  split.
  - intros Hmissing. rewrite (name_and_email_missing _ Hmissing) in Hassignee.
    injection Hassignee as <-. split; reflexivity.
  - intros pkv name Hperson Hne Hn He. rewrite Hperson in Hassignee.
    rewrite (name_and_email_partial _ _ Hne Hn He) in Hassignee.
    injection Hassignee as <-. split; reflexivity.
Qed.

End Formatting.

(** ** The CASB poll, for any answer *)

Section CasbDedup.

Variable P : platform.


Variable arg_to_number : json -> res json.
Variable first_fetch_time : json -> res json.
Variable client : CASB.Client.


(** X16.  When the answer of the server holds no incidents, the CASB poll
    emits nothing and returns the stored last run as it is: the start time
    is not moved to the [nextStartTime] of the answer. *)
Theorem casb_poll_without_incidents_keeps_the_last_run
    params stored w limit start result w1 incidents :
  CASB.query_args arg_to_number first_fetch_time params stored = inr (limit, start) ->
  CASB.incident_query P client limit start (JStr "") JNull JNull JNull w
  = (inr result, w1) ->
  CASB.incidents_of result = inr incidents -> truthy incidents = false ->
  CASB.fetch_incidents P arg_to_number first_fetch_time client params stored w
  = (inr (stored, []), w1).
Proof.
  intros Hargs Hq Hinc Hempty. unfold CASB.fetch_incidents.
  rewrite (bind_lift_inr _ _ _ _ Hargs), (bind_inr _ _ _ _ _ Hq).
  rewrite (bind_lift_inr _ _ _ _ Hinc), Hempty. reflexivity.
Qed.

End CasbDedup.

(** ** The id offset and the custom fields *)

Section IdOffset.

Variable P : platform.
Variable client : Jira.Client.

(** X17.  [get_id_offset] reports the id of the first issue of the answer.
    When the search finds no issue there is nothing to take the first of:
    the command fails with a [TypeError] and reports nothing. *)
Theorem get_id_offset_needs_an_issue w res w1 :
  Jira.run_query P client "ORDER BY created ASC" "" (JNum 1) w = (inr res, w1) ->
  (res = JObj [] ->
   Jira.get_id_offset P client w
   = (inl (Exn TypeError "'NoneType' object is not subscriptable"), w1))
  /\ (forall first rest id,
        py_get res "issues" = inr (JArr (first :: rest)) ->
        py_get first "id" = inr id ->
        Jira.get_id_offset P client w
        = (inr tt,
           with_results w1
             (results w1 ++ [outputs_entry ("ID Offset: " +:+ py_str P id)
                               (JObj [("Ticket.idOffSet", id)]) JNull]))).
Proof.
  intros Hrun. unfold Jira.get_id_offset. rewrite (bind_inr _ _ _ _ _ Hrun). split.
  - intros ->. reflexivity.
  - intros first rest id Hissues Hid.
    rewrite (bind_lift_inr _ _ _ _ Hissues).
    rewrite (bind_lift_inr (py_first (JArr (first :: rest))) _ _ _ eq_refl).
    rewrite (bind_lift_inr _ _ _ _ Hid). reflexivity.
Qed.

(** X18.  [get_custom_fields] never raises.  When the request fails, or is
    answered with a status other than 200, it returns no field and logs one
    line; when the answer has status 200 and a body that is not JSON, it
    returns no field and logs nothing.  One request is sent in every
    case. *)
Theorem get_custom_fields_never_raises w :
  (exists fields, fst (Jira.get_custom_fields P client w) = inr fields)
  /\ sent (snd (Jira.get_custom_fields P client w))
     = sent w ++ [Jira.fields_request client]
  /\ (forall e,
        http P (sent w) (Jira.fields_request client) = inl e ->
        Jira.get_custom_fields P client w
        = (inr [],
           World (sent w ++ [Jira.fields_request client])
             (error_log w
              ++ ["Could not get custom fields because got the next exception: "
                  +:+ exn_msg e])
             (results w) (last_run w) (file_count w)))
  /\ (forall res,
        http P (sent w) (Jira.fields_request client) = inr res ->
        status_code res <> 200 ->
        Jira.get_custom_fields P client w
        = (inr [],
           World (sent w ++ [Jira.fields_request client])
             (error_log w
              ++ ["Could not get custom fields. status code: "
                  +:+ str_of_Z (status_code res) +:+ ". reason: " +:+ resp_reason res])
             (results w) (last_run w) (file_count w)))
  /\ (forall res,
        http P (sent w) (Jira.fields_request client) = inr res ->
        status_code res = 200 -> resp_json res = None ->
        Jira.get_custom_fields P client w
        = (inr [], with_sent w (sent w ++ [Jira.fields_request client]))).
Proof.
  unfold Jira.get_custom_fields, finally_return_or, try_bind, http_send.
  repeat apply conj.
  - destruct (http P (sent w) _) as [e|res]; cbn.
    + by eexists.
    + destruct (status_code res =? 200); cbn.
      * unfold bind, lift. destruct (response_json res) as [e|j]; [by eexists|].
        destruct (py_iter j) as [e|l]; [by eexists|].
        destruct (Jira.fields_by_id l []); by eexists.
      * by eexists.
  - destruct (http P (sent w) _) as [e|res]; cbn; [done|].
    destruct (status_code res =? 200); cbn; [|done].
    unfold bind, lift. destruct (response_json res) as [e|j]; [done|].
    destruct (py_iter j) as [e|l]; [done|].
    by destruct (Jira.fields_by_id l []).
  - intros e ->. reflexivity.
  - intros res -> Hne. rewrite (proj2 (Z.eqb_neq _ _) Hne). reflexivity.
  - intros res -> -> Hj. cbn. unfold bind, lift, response_json. by rewrite Hj.
Qed.

End IdOffset.

(** ** The account id of a user *)

Section AccountId.

Variable P : platform.
Variable client : Jira.Client.

Lemma matching_ids_none attribute id_key (users : list json) ids :
  Forall (fun user => Jira.user_matches P attribute user = inr false) users ->
  Jira.matching_ids P attribute id_key users ids = inr ids.
Proof.
  induction 1 as [|user users Hu _ IH]; [done|].
  cbn [Jira.matching_ids]. by rewrite Hu.
Qed.

Lemma py_eq_str_inv s x : py_eq (JStr s) x = true -> x = JStr s.
Proof.
  destruct x; cbn; try done. intros H. apply String.eqb_eq in H. by subst.
Qed.

Lemma existsb_py_eq_str s (l : list json) :
  existsb (py_eq (JStr s)) l = true <-> JStr s ∈ l.
Proof.
  induction l as [|x l IH]; cbn.
  - split; [done|]. by intros H%elem_of_nil.
  - rewrite orb_true_iff, IH, elem_of_cons. split.
    + intros [H|H]; [left; symmetry; by apply py_eq_str_inv|by right].
    + intros [<-|H]; [left; cbn; apply String.eqb_refl|by right].
Qed.

(** The ids gathered from the users: no id twice, and the ids of the users
    that match, besides what was there. *)
Lemma matching_ids_strings attribute id_key (users : list json) seen ids :
  Forall2 (user_with P attribute id_key) users seen -> NoDup ids ->
  exists ids',
    Jira.matching_ids P attribute id_key users ids = inr ids'
    /\ NoDup ids'
    /\ forall x, x ∈ ids' <-> x ∈ ids \/ exists s, (true, s) ∈ seen /\ x = JStr s.
Proof.
  intros H. revert ids. induction H as [|user [m s] users seen [Hm Hid] _ IH]; intros ids Hnd.
  - exists ids. split; [done|]. split; [done|]. intros x. split; [by left|].
    intros [H|(s & H & _)]; [done|]. by apply elem_of_nil in H.
  - cbn [Jira.matching_ids]. cbn in Hm, Hid. rewrite Hm. cbn [res_bind].
    destruct m.
    + rewrite Hid. cbn [res_bind Jira.user_matches]. unfold set_add. cbn [hashable res_bind].
      destruct (existsb (py_eq (JStr s)) ids) eqn:E.
      * apply existsb_py_eq_str in E.
        destruct (IH ids Hnd) as (ids' & Hrun & Hnd' & Hmem).
        exists ids'. split; [done|]. split; [done|]. intros x. rewrite Hmem. split.
        -- intros [H|(s' & H & ->)]; [by left|]. right. exists s'. split; [by right|done].
        -- intros [H|(s' & H & ->)]; [by left|].
           apply elem_of_cons in H as [[= <-]|H]; [by left|]. right. by exists s'.
      * assert (JStr s ∉ ids) as Hnot.
        { intros Hin. apply existsb_py_eq_str in Hin. congruence. }
        destruct (IH (ids ++ [JStr s])) as (ids' & Hrun & Hnd' & Hmem).
        { apply NoDup_app. split; [done|]. split; [|apply NoDup_singleton].
          intros x Hx Hx'. apply list_elem_of_singleton in Hx'. by subst. }
        exists ids'. split; [done|]. split; [done|]. intros x. rewrite Hmem. split.
        -- intros [H|(s' & H & ->)].
           ++ apply elem_of_app in H as [H|H]; [by left|].
              apply list_elem_of_singleton in H as ->. right. exists s. split; [by left|done].
           ++ right. exists s'. split; [by right|done].
        -- intros [H|(s' & H & ->)].
           ++ left. apply elem_of_app. by left.
           ++ apply elem_of_cons in H as [[= <-]|H].
              ** left. apply elem_of_app. right. by apply list_elem_of_singleton.
              ** right. by exists s'.
    + destruct (IH ids Hnd) as (ids' & Hrun & Hnd' & Hmem).
      exists ids'. split; [done|]. split; [done|]. intros x. rewrite Hmem. split.
      * intros [H|(s' & H & ->)]; [by left|]. right. exists s'. split; [by right|done].
      * intros [H|(s' & H & ->)]; [by left|].
        apply elem_of_cons in H as [[= ]|H]. right. by exists s'.
Qed.

(** X19.  When no user of the answer has the attribute as its display name
    or e-mail address, case ignored as [str.lower] folds it,
    [get_account_id_from_attribute] falls back on the
    number of users: with no user it reports that no account id was found;
    with exactly one user it takes the id of that user, although nothing
    of it matched; with more it reports that it could not choose. *)
Theorem get_account_id_without_an_exact_match
    attribute max_results is_jirav2api w (users : list json) w1 :
  Jira.search_user P client attribute max_results (String.eqb is_jirav2api "true") w
  = (inr (JArr users), w1) ->
  Forall (fun user => Jira.user_matches P attribute user = inr false) users ->
  let run := Jira.get_account_id_from_attribute P client attribute max_results
               is_jirav2api w in
  (users = [] ->
   run = (inr (Jira.Message
                 ("No Account ID was found for attribute: " +:+ attribute +:+ ".")), w1))
  /\ (forall user id,
        users = [user] -> py_get user (account_id_key is_jirav2api) = inr id ->
        hashable id = true ->
        run = (inr (account_id_found P attribute id), w1))
  /\ (forall user1 user2 rest,
        users = user1 :: user2 :: rest ->
        run = (inr (several_users_none_exact attribute), w1)).
Proof.
  intros Hsearch Hnone. cbv zeta. unfold Jira.get_account_id_from_attribute.
  rewrite (bind_inr _ _ _ _ _ Hsearch), (bind_lift_inr _ _ _ _ (py_iter_arr _)).
  rewrite (bind_lift_inr _ _ _ _ (matching_ids_none _ _ _ _ Hnone)).
  repeat apply conj.
  - intros ->. reflexivity.
  - intros user id -> Hid Hhash. unfold account_id_key in Hid.
    eapply bind_ok.
    { rewrite (bind_lift_inr _ _ _ _ Hid). unfold set_add. rewrite Hhash. reflexivity. }
    reflexivity.
  - intros user1 user2 rest ->. reflexivity.
Qed.

(** X20.  When users of the answer have the attribute as their display name
    or e-mail address, case ignored as [str.lower] folds it,
    [get_account_id_from_attribute] looks at their ids
    only: if they all carry the same id it returns that id, however many
    users there are; if two of them carry different ids it reports that
    several account ids were found. *)
Theorem get_account_id_with_exact_matches
    attribute max_results is_jirav2api w (users : list json) seen w1 :
  Jira.search_user P client attribute max_results (String.eqb is_jirav2api "true") w
  = (inr (JArr users), w1) ->
  Forall2 (user_with P attribute (account_id_key is_jirav2api)) users seen ->
  let run := Jira.get_account_id_from_attribute P client attribute max_results
               is_jirav2api w in
  (forall s,
     (true, s) ∈ seen -> (forall s', (true, s') ∈ seen -> s' = s) ->
     run = (inr (account_id_found P attribute (JStr s)), w1))
  /\ (forall s1 s2,
        (true, s1) ∈ seen -> (true, s2) ∈ seen -> s1 <> s2 ->
        run = (inr (several_account_ids attribute), w1)).
Proof.
  intros Hsearch Hseen. cbv zeta. unfold Jira.get_account_id_from_attribute.
  rewrite (bind_inr _ _ _ _ _ Hsearch), (bind_lift_inr _ _ _ _ (py_iter_arr _)).
  destruct (matching_ids_strings _ _ _ _ [] Hseen (NoDup_nil_2 (A:=json)))
    as (ids & Hrun & Hnd & Hmem).
  unfold account_id_key in Hrun. rewrite (bind_lift_inr _ _ _ _ Hrun).
  split.
  - intros s Hs Hall.
    assert (ids = [JStr s]) as ->.
    { assert (JStr s ∈ ids) as Hin by (apply Hmem; right; by exists s).
      assert (forall x, x ∈ ids -> x = JStr s) as Hsame.
      { intros x Hx. apply Hmem in Hx as [Hx|(s' & Hs' & ->)].
        - by apply elem_of_nil in Hx.
        - by rewrite (Hall s' Hs'). }
      destruct ids as [|x ids]; [by apply elem_of_nil in Hin|].
      destruct ids as [|y ids].
      - by rewrite (Hsame x ltac:(left)).
      - apply NoDup_cons in Hnd as [Hx _]. exfalso. apply Hx.
        rewrite (Hsame x ltac:(left)), (Hsame y ltac:(right; left)). left. }
    reflexivity.
  - intros s1 s2 H1 H2 Hne.
    assert (JStr s1 ∈ ids) as Hin1 by (apply Hmem; right; by exists s1).
    assert (JStr s2 ∈ ids) as Hin2 by (apply Hmem; right; by exists s2).
    destruct ids as [|x ids]; [by apply elem_of_nil in Hin1|].
    destruct ids as [|y ids].
    + apply list_elem_of_singleton in Hin1, Hin2. congruence.
    + reflexivity.
Qed.

End AccountId.

(** ** Creating, linking and deleting issues *)

Section IssueCommands.

Variable P : platform.
Variable tableToMarkdown_removeNull : string -> json -> json -> string.
Variable getParam : string -> json.
Variable client : Jira.Client.

(** X21.  When the server answers the creation with a dictionary,
    [create_issue_command] reports the [id] and [key] of that answer as the
    ticket, and the answer itself as the raw response, after the project
    was written into it: the project key of the arguments wins over the
    configured one. *)
Theorem create_issue_reports_the_answer_with_its_project args w issue w1 kv w2 :
  assoc "client" args = None -> assoc "issue_creating" args = None ->
  Jira.get_issue_fields P (Jira.kwargs_without ["mirroring"] args) client true
    (truthy (arg_of args "mirroring")) w = (inr issue, w1) ->
  Jira.send_request_json P client "POST" "rest/api/latest/issue" (json_dumps P issue)
    false None w1 = (inr (JObj kv), w2) ->
  let reported :=
    JObj (with_project getParam (arg_of args "projectName") (arg_of args "projectKey") kv) in
  Jira.create_issue_command P getParam client args w
  = (inr tt,
     with_results w2
       (results w2
        ++ [outputs_entry (tableToMarkdown P (command P) (JArr [reported]) (JStr ""))
              (JObj [("Ticket", JArr [JObj [("Id", demisto_get reported ["id"]);
                                            ("Key", demisto_get reported ["key"])]])])
              reported])).
Proof.
  intros Hclient Hcreating Hfields Hpost. cbv zeta.
  unfold Jira.create_issue_command, arg_of in *. rewrite Hclient, Hcreating.
  rewrite !(bool_decide_eq_false_2 (is_Some None)) by (by intros [? ?]).
  rewrite (bind_inr _ _ _ _ _ Hfields), (bind_inr _ _ _ _ _ Hpost).
  unfold Jira.generate_md_context_create_issue, with_project.
  destruct (truthy (default JNull (assoc "projectName" args)));
    destruct (truthy (default JNull (assoc "projectKey" args)));
    destruct (truthy (getParam "projectKey")); reflexivity.
Qed.

(** X22.  [add_link_command] sends the name of the application only
    together with its type.  With a name and no type, the link that is
    posted carries an empty [application]; with a type, the [application]
    carries the type and the name as given, a missing name included. *)
Theorem add_link_sends_the_application_name_only_with_a_type
    issue_id title url summary global_id relationship application_type application_name w :
  exists link,
    sent (snd (Jira.add_link_command P tableToMarkdown_removeNull client issue_id title url
                 summary global_id relationship application_type application_name w))
    = sent w ++ [Jira.request_of client "POST"
                   ("rest/api/latest/issue/" +:+ issue_id +:+ "/remotelink")
                   (json_dumps P (JObj link)) false None]
    /\ assoc "object" link = Some (JObj [("url", url); ("title", title)])
    /\ assoc "application" link
       = if truthy application_type
         then Some (JObj [("type", application_type); ("name", application_name)])
         else if truthy application_name then Some (JObj []) else None.
Proof.
  assert (forall link,
            sent (snd ((let! data := Jira.send_request_json P client "POST"
                                       ("rest/api/latest/issue/" +:+ issue_id +:+ "/remotelink")
                                       (json_dumps P link) false None in
                        let data := match data with JArr xs => xs | _ => [data] end in
                        let md_list :=
                          map (fun element =>
                                 JObj [("id", demisto_get element ["id"]);
                                       ("key", demisto_get element ["updateAuthor"; "key"]);
                                       ("comment", demisto_get element ["body"]);
                                       ("ticket_link", demisto_get element ["self"])]) data in
                        let human_readable :=
                          tableToMarkdown_removeNull (command P) (JArr md_list) (JStr "") in
                        return_outputs human_readable (JObj []) (JArr data)) w))
            = sent w ++ [Jira.request_of client "POST"
                           ("rest/api/latest/issue/" +:+ issue_id +:+ "/remotelink")
                           (json_dumps P link) false None]) as Hsent.
  { intros link. unfold bind.
    pose proof (send_request_json_world P client "POST"
                  ("rest/api/latest/issue/" +:+ issue_id +:+ "/remotelink")
                  (json_dumps P link) false None w) as Hw.
    destruct (Jira.send_request_json _ _ _ _ _ _ _ w) as [[e|j] w']; cbn in *; by subst. }
  unfold Jira.add_link_command.
  destruct (truthy summary), (truthy global_id), (truthy relationship),
    (truthy application_type), (truthy application_name);
    cbn [orb]; repeat (erewrite bind_lift_inr by reflexivity);
    eexists; (split; [apply Hsent|]); split; reflexivity.
Qed.

(** X23.  [delete_issue_command] reports [Issue deleted successfully.] for
    an answer with status 204 and [Failed to delete issue.] for any other
    answer that is a success; for an answer that is a failure it raises,
    and reports nothing. *)
Theorem delete_issue_reports_by_status issue_id_or_key args w issue w1 result :
  assoc "client" args = None ->
  Jira.get_issue_fields P (Jira.kwargs_without ["issue_creating"; "mirroring"] args) client
    (truthy (arg_of args "issue_creating")) (truthy (arg_of args "mirroring")) w
  = (inr issue, w1) ->
  http P (sent w1)
    (Jira.request_of client "DELETE" ("rest/api/latest/issue/" +:+ issue_id_or_key)
       (json_dumps P issue) false None) = inr result ->
  let run := Jira.delete_issue_command P client issue_id_or_key args w in
  (resp_ok result = true ->
   exists w2,
     run = (inr tt, w2)
     /\ results w2
        = results w1 ++ [JStr (if status_code result =? 204
                               then "Issue deleted successfully."
                               else "Failed to delete issue.")])
  /\ (resp_ok result = false ->
      exists e w2, run = (inl e, w2) /\ results w2 = results w1).
Proof.
  intros Hclient Hfields Hanswer. cbv zeta.
  unfold Jira.delete_issue_command, arg_of in *. rewrite Hclient.
  rewrite (bool_decide_eq_false_2 (is_Some None)) by (by intros [? ?]).
  rewrite (bind_inr _ _ _ _ _ Hfields). split.
  - intros Hok.
    rewrite (bind_inr _ _ _ _ _
               (send_request_ok P client "DELETE" _ _ "text" false None w1 result
                  Hanswer Hok)).
    cbn [String.eqb Ascii.eqb Bool.eqb].
    destruct (status_code result =? 204); eexists; split; reflexivity.
  - intros Hok.
    destruct (send_request_not_ok_raises P client "DELETE" _ _ "text" false None w1 result
                Hanswer Hok) as [e He].
    rewrite (bind_inl _ _ _ _ _ He). by eexists _, _.
Qed.

End IssueCommands.

(** ** The issues modified since the last update *)

Section ModifiedRemoteData.

Variable P : platform.
Variable parse_in_timezone : json -> string -> option datetime.
Variable client : Jira.Client.

(** X24.  [get_modified_remote_data_command] never raises.  When the
    request for the user's time zone fails, or is answered with a status
    other than 200, it returns no id and logs one line, and the search for
    the modified issues is not sent. *)
Theorem get_modified_remote_data_needs_the_time_zone last_update w :
  (exists ids,
     fst (Jira.get_modified_remote_data_command P parse_in_timezone client last_update w)
     = inr ids)
  /\ (forall e,
        http P (sent w) (Jira.user_info_request client) = inl e ->
        Jira.get_modified_remote_data_command P parse_in_timezone client last_update w
        = (inr [],
           World (sent w ++ [Jira.user_info_request client])
             (error_log w
              ++ ["Could not get Jira's timezone for get-modified-remote-data. "
                  +:+ "failed because: " +:+ exn_msg e])
             (results w) (last_run w) (file_count w)))
  /\ (forall res,
        http P (sent w) (Jira.user_info_request client) = inr res ->
        status_code res <> 200 ->
        Jira.get_modified_remote_data_command P parse_in_timezone client last_update w
        = (inr [],
           World (sent w ++ [Jira.user_info_request client])
             (error_log w
              ++ ["Could not get Jira's time zone for get-modified-remote-data. "
                  +:+ "status code: " +:+ str_of_Z (status_code res)
                  +:+ ". reason: " +:+ resp_reason res])
             (results w) (last_run w) (file_count w))).
Proof.
  unfold Jira.get_modified_remote_data_command, finally_return_or, try_bind,
    Jira.get_user_info_data, http_send.
  repeat apply conj.
  - destruct (http P (sent w) _) as [e|res]; cbn; [by eexists|].
    match goal with
    | |- exists _, fst (let (_, _) := ?m in _) = _ => destruct m as [[e|ids] w']
    end; by eexists.
  - intros e ->. reflexivity.
  - intros res -> Hne. rewrite (proj2 (Z.eqb_neq _ _) Hne). reflexivity.
Qed.

(** X25.  With the time zone of the user at hand,
    [get_modified_remote_data_command] searches for the issues updated
    after the last update, written to the minute in that time zone, and
    returns the ids of the issues found, in their order, leaving out the
    issues without an id.  When the search fails it returns no id, and
    logs nothing. *)
Theorem get_modified_remote_data_returns_the_ids_found
    last_update w res body timezone_name date :
  http P (sent w) (Jira.user_info_request client) = inr res ->
  status_code res = 200 ->
  resp_json res = Some body ->
  py_get body "timeZone" = inr timezone_name -> truthy timezone_name = true ->
  parse_in_timezone timezone_name last_update = Some date ->
  let w1 := with_sent w (sent w ++ [Jira.user_info_request client]) in
  let search :=
    Jira.issue_query_command P client (modified_since_query (strftime_minute P date)) ""
      (JNum 100) (JStr "") w1 in
  let run := Jira.get_modified_remote_data_command P parse_in_timezone client last_update w in
  (forall e w2, search = (inl e, w2) -> run = (inr [], w2))
  /\ (forall hr outs context w2 (issues : list json),
        search = (inr (hr, outs, context), w2) ->
        py_get_default context "issues" (JArr []) = inr (JArr issues) ->
        forall ids,
          Forall2 (fun issue id => py_get issue "id" = inr id) issues ids ->
          run = (inr (filter (fun id => truthy id = true) ids), w2)).
Proof.
  intros Hanswer Hstatus Hbody Hzone Htz Hdate. cbv zeta.
  unfold Jira.get_modified_remote_data_command, finally_return_or, try_bind,
    Jira.get_user_info_data, http_send, modified_since_query.
  rewrite Hanswer, Hstatus. cbn [Z.eqb Pos.eqb].
  assert (response_json res = inr body) as Hjson by (unfold response_json; by rewrite Hbody).
  rewrite (bind_lift_inr _ _ _ _ Hjson), (bind_lift_inr _ _ _ _ Hzone), Htz.
  cbn [negb]. rewrite (bind_inr _ _ _ _ _ (ret_eq tt _)). rewrite Hdate.
  split.
  - intros e w2 Hsearch. by rewrite (bind_inl _ _ _ _ _ Hsearch).
  - intros hr outs context w2 issues Hsearch Hissues ids Hids.
    rewrite (bind_inr _ _ _ _ _ Hsearch), (bind_lift_inr _ _ _ _ Hissues).
    rewrite (bind_lift_inr _ _ _ _ (py_iter_arr _)).
    assert (Jira.truthy_ids issues = inr (filter (fun id => truthy id = true) ids)) as Hf.
    { clear -Hids. induction Hids as [|issue id issues ids Hid _ IH]; [done|].
      cbn [Jira.truthy_ids]. rewrite Hid. cbn [res_bind]. rewrite filter_cons.
      destruct (truthy id) eqn:Ht.
      - rewrite IH. cbn [res_bind]. by rewrite decide_True.
      - rewrite IH. cbn [res_bind]. by rewrite decide_False. }
    unfold lift. by rewrite Hf.
Qed.

End ModifiedRemoteData.

(** ** The CASB policies, by page and by name *)

Lemma slice_window {A} (first size : Z) (xs : list A) :
  0 <= first -> 0 <= size ->
  slice first (first + size) xs = take (Z.to_nat size) (drop (Z.to_nat first) xs).
Proof.
  intros Hf Hs. unfold slice, slice_bound.
  rewrite !(proj2 (Z.ltb_ge _ _)) by lia.
  set (len := Z.of_nat (List.length xs)).
  assert (List.length xs = Z.to_nat len) as Hlen by (unfold len; lia).
  destruct (decide (len <= first)) as [Hge|Hlt].
  - rewrite !Z.min_r by lia. rewrite Z.sub_diag. cbn [Z.to_nat take].
    rewrite (drop_ge xs (Z.to_nat first)) by lia. by rewrite take_nil.
  - rewrite (Z.min_l first len) by lia.
    destruct (decide (first + size <= len)) as [Hin|Hout].
    + rewrite Z.min_l by lia. do 2 f_equal. lia.
    + rewrite Z.min_r by lia.
      rewrite !take_ge; [done| |]; rewrite length_drop; lia.
Qed.

Section CasbCommands.

Variable P : platform.
Variable arg_to_number : json -> res (option Z).
Variable format_time : json -> res json.
Variable table : string -> json -> string.
Variable client : CASB.Client.

(** X26.  [calculate_offset_and_limit] lets a limit win over the page: with
    a limit that is not zero the window is the first [limit] items, and the
    page is not read.  Without one, a page and a page size that are not zero
    give the window of that page, which starts where the page before it
    ends; otherwise the window is the first 50 items. *)
Theorem calculate_offset_and_limit_windows kwargs :
  let calculated := CASB.calculate_offset_and_limit arg_to_number kwargs in
  (forall limit,
     arg_to_number (arg_of kwargs "limit") = inr (Some limit) -> limit <> 0 ->
     calculated = inr (0, limit))
  /\ (forall limit,
        arg_to_number (arg_of kwargs "limit") = inr limit ->
        CASB.number_truthy limit = false ->
        (forall page page_size,
           arg_to_number (arg_of kwargs "page") = inr (Some page) -> page <> 0 ->
           arg_to_number (arg_of kwargs "page_size") = inr (Some page_size) ->
           page_size <> 0 ->
           calculated = inr ((page - 1) * page_size, page * page_size))
        /\ (forall page,
              arg_to_number (arg_of kwargs "page") = inr page ->
              CASB.number_truthy page = false ->
              calculated = inr (0, 50))
        /\ (forall page page_size,
              arg_to_number (arg_of kwargs "page") = inr page ->
              arg_to_number (arg_of kwargs "page_size") = inr page_size ->
              CASB.number_truthy page_size = false ->
              calculated = inr (0, 50))).
Proof.
  cbv zeta. unfold CASB.calculate_offset_and_limit, arg_of. split.
  - intros limit -> Hne. cbn. by rewrite (proj2 (Z.eqb_neq _ _) Hne).
  - intros limit -> Hlimit. cbn [res_bind]. rewrite Hlimit. repeat apply conj.
    + intros page page_size -> Hp -> Hs. cbn.
      rewrite (proj2 (Z.eqb_neq _ _) Hp). cbn.
      rewrite (proj2 (Z.eqb_neq _ _) Hs). cbn.
      do 2 f_equal. lia.
    + intros page -> Hpage. cbn [res_bind]. by rewrite Hpage.
    + intros page page_size -> Hs Hsize. cbn [res_bind].
      destruct (CASB.number_truthy page); [|done].
      rewrite Hs. cbn [res_bind]. by rewrite Hsize.
Qed.

Lemma filter_policies_all (policies rows : list json) :
  Forall2 (fun policy row => CASB.policy_row policy = inr row) policies rows ->
  CASB.filter_policies [] policies = inr rows.
Proof.
  induction 1 as [|policy row policies rows Hrow _ IH]; [done|].
  cbn [CASB.filter_policies res_bind]. rewrite Hrow. cbn [res_bind]. by rewrite IH.
Qed.

(** X27.  Without a limit and without names, [policy_dictionary_list_command]
    returns the rows of the policies of one page: page [page] of size
    [page_size] holds the policies from place [(page - 1) * page_size] on,
    [page_size] of them or as many as are left, so that the pages follow
    one another without a gap and without an overlap. *)
Theorem policy_dictionary_list_returns_one_page
    args w limit page page_size (policies rows : list json) w1 :
  arg_to_number (arg_of args "limit") = inr limit ->
  CASB.number_truthy limit = false ->
  arg_to_number (arg_of args "page") = inr (Some page) -> 1 <= page ->
  arg_to_number (arg_of args "page_size") = inr (Some page_size) -> 1 <= page_size ->
  argToList P (arg_of args "name") = [] ->
  CASB.policy_dictionary_list P client w = (inr (JArr policies), w1) ->
  Forall2 (fun policy row => CASB.policy_row policy = inr row) policies rows ->
  let shown :=
    JArr (take (Z.to_nat page_size) (drop (Z.to_nat ((page - 1) * page_size)) rows)) in
  CASB.policy_dictionary_list_command P arg_to_number table client args w
  = (inr {| outputs := shown;
            outputs_prefix := Some "MVisionCASB.dictionaries";
            outputs_key_field := Some "ID";
            readable_output := table "List of MVISION CASB Policies" shown;
            raw_response := shown |},
     w1).
Proof.
  intros Hlimit Hnolimit Hpage Hp Hsize Hs Hnames Hlist Hrows. cbv zeta.
  unfold CASB.policy_dictionary_list_command.
  assert (CASB.calculate_offset_and_limit arg_to_number args
          = inr ((page - 1) * page_size, (page - 1) * page_size + page_size)) as Hcalc.
  { unfold CASB.calculate_offset_and_limit, arg_of in *.
    rewrite Hlimit. cbn [res_bind]. rewrite Hnolimit, Hpage. cbn [res_bind].
    cbn [CASB.number_truthy]. rewrite (proj2 (Z.eqb_neq _ _)) by lia. cbn [negb].
    rewrite Hsize. cbn [res_bind CASB.number_truthy].
    rewrite (proj2 (Z.eqb_neq _ _)) by lia. reflexivity. }
  rewrite (bind_lift_inr _ _ _ _ Hcalc). unfold arg_of in Hnames. rewrite Hnames.
  rewrite (bind_inr _ _ _ _ _ Hlist).
  erewrite bind_lift_inr by reflexivity. rewrite (bind_lift_inr _ _ _ _ (py_iter_arr _)).
  rewrite slice_window by nia.
  erewrite bind_lift_inr; [reflexivity|].
  apply filter_policies_all. by apply Forall2_take, Forall2_drop.
Qed.

(** X28.  With names, [policy_dictionary_list_command] returns only rows
    whose [Name] is one of the names. *)
Theorem policy_dictionary_list_keeps_the_named_policies args w r w' row rows :
  argToList P (arg_of args "name") <> [] ->
  CASB.policy_dictionary_list_command P arg_to_number table client args w = (inr r, w') ->
  outputs r = JArr rows -> row ∈ rows ->
  exists name,
    py_get row "Name" = inr name
    /\ existsb (py_eq name) (argToList P (arg_of args "name")) = true.
Proof.
  intros Hnames Hrun Hout Hrow. unfold CASB.policy_dictionary_list_command, arg_of in *.
  apply bind_inv in Hrun as ([offset limit] & w1 & _ & Hrun).
  apply bind_inv in Hrun as (result & w2 & _ & Hrun).
  apply bind_inv in Hrun as (policies & w3 & _ & Hrun).
  apply bind_inv in Hrun as (items & w4 & _ & Hrun).
  apply bind_inv in Hrun as (filtered & w5 & Hf & Hrun).
  apply lift_inv in Hf as [Hf _]. apply ret_inv in Hrun as [-> _].
  cbn in Hout. injection Hout as <-.
  set (names := argToList P (default JNull (assoc "name" args))) in *.
  clearbody names. clear -Hnames Hf Hrow.
  revert filtered Hf Hrow. induction items as [|policy items IH]; intros filtered Hf Hrow.
  - cbn in Hf. injection Hf as <-. by apply elem_of_nil in Hrow.
  - cbn [CASB.filter_policies] in Hf.
    destruct names as [|n names]; [done|].
    apply res_bind_inv in Hf as (keep & Hkeep & Hf).
    apply res_bind_inv in Hkeep as (name & Hname & [= <-]).
    apply res_bind_inv in Hf as (here & Hhere & Hf).
    apply res_bind_inv in Hf as (more & Hmore & [= <-]).
    apply elem_of_app in Hrow as [Hrow|Hrow]; [|by eapply IH].
    destruct (py_eq name n || existsb (py_eq name) names) eqn:E.
    + apply res_bind_inv in Hhere as (row' & Hrow' & [= <-]).
      apply list_elem_of_singleton in Hrow as ->.
      unfold CASB.policy_row in Hrow'.
      apply res_bind_inv in Hrow' as (id & _ & Hrow').
      apply res_bind_inv in Hrow' as (name' & Hname' & Hrow').
      apply res_bind_inv in Hrow' as (lm & _ & [= <-]).
      rewrite Hname in Hname'. injection Hname' as <-. exists name. split; [done|exact E].
    + injection Hhere as <-. by apply elem_of_nil in Hrow.
Qed.

End CasbCommands.

(** ** The CASB incidents, by page *)

Section CasbPaging.

Variable P : platform.
Variable arg_to_number : json -> res (option Z).
Variable format_time : json -> res json.
Variable table : string -> json -> string.
Variable client : CASB.Client.

(** [incident_query] sends one request, whatever comes of it. *)
Lemma incident_query_world limit start_time end_time actor_ids service_names categories w :
  exists rq,
    snd (CASB.incident_query P client limit start_time end_time actor_ids service_names
           categories w)
    = with_sent w (sent w ++ [rq])
    /\ asks_for limit rq.
Proof.
  unfold CASB.incident_query, CASB.http_request, bind, http_send.
  eexists. split.
  { cbn. destruct (http P (sent w) _) as [e|r]; [reflexivity|].
    destruct (negb (resp_ok r)); [done|]. by destruct (resp_json r). }
  split; reflexivity.
Qed.

Lemma query_pages_requests pages page_size start_time end_time actor_ids service_names
    categories result w r w' :
  CASB.query_pages P client pages page_size start_time end_time actor_ids service_names
    categories result w = (inr r, w') ->
  exists requests,
    w' = with_sent w (sent w ++ requests)
    /\ List.length requests = pages
    /\ Forall (asks_for page_size) requests.
Proof.
  revert start_time result w. induction pages as [|pages IH]; intros start_time result w H.
  - apply ret_inv in H as [_ ->]. exists []. rewrite app_nil_r.
    split; [by destruct w|]. split; [done|constructor].
  - cbn [CASB.query_pages] in H.
    apply bind_inv in H as (result1 & w1 & Hq & H).
    apply bind_inv in H as (start1 & w2 & Hs & H). apply lift_inv in Hs as [_ ->].
    destruct (incident_query_world page_size start_time end_time actor_ids service_names
                categories w) as (rq & Hw & Hrq).
    rewrite Hq in Hw. cbn in Hw. subst w1.
    apply IH in H as (requests & -> & Hlen & Hall).
    exists (rq :: requests). cbn. rewrite <- app_assoc. split; [done|].
    split; [by rewrite Hlen|by constructor].
Qed.

(** X29.  With a page number and a page size that are not zero,
    [incident_query_command] walks the pages from the first: when it
    returns, it has sent one query for each page up to the page asked for,
    each for at most [page_size] incidents, and nothing else.  A negative
    page number sends no query at all, and no incident is shown. *)
Theorem incident_query_sends_one_query_per_page args w r w' page_number page_size :
  arg_to_number (arg_of args "page_number") = inr (Some page_number) -> page_number <> 0 ->
  arg_to_number (arg_of args "page_size") = inr (Some page_size) -> page_size <> 0 ->
  CASB.incident_query_command P arg_to_number format_time table client args w
  = (inr r, w') ->
  (exists requests,
     w' = with_sent w (sent w ++ requests)
     /\ List.length requests = Z.to_nat page_number
     /\ Forall (asks_for (JNum page_size)) requests)
  /\ (page_number < 0 -> r = no_incidents_found /\ w' = w).
Proof.
  intros Hn Hn0 Hs Hs0 H. unfold CASB.incident_query_command, arg_of in *.
  apply bind_inv in H as (limit & w1 & Hl & H). apply lift_inv in Hl as [_ ->].
  apply bind_inv in H as (start_time & w1 & Hl & H). apply lift_inv in Hl as [_ ->].
  apply bind_inv in H as (end_time & w1 & Hl & H). apply lift_inv in Hl as [_ ->].
  apply bind_inv in H as (categories & w1 & Hc & H).
  assert (w1 = w) as ->.
  { destruct (argToList P (default JNull (assoc "categories" args))).
    - destruct (argToList P (default JNull (assoc "incident_types" args)));
        by apply ret_inv in Hc as [_ ->].
    - apply bind_inv in Hc as (mapped & w2 & Hm & Hc). apply lift_inv in Hm as [_ ->].
      by apply ret_inv in Hc as [_ ->]. }
  rewrite (bind_lift_inr _ _ _ _ Hn) in H.
  cbn [CASB.number_truthy] in H. rewrite (proj2 (Z.eqb_neq _ _) Hn0) in H. cbn [negb] in H.
  rewrite (bind_lift_inr _ _ _ _ Hs) in H.
  cbn [CASB.number_truthy] in H. rewrite (proj2 (Z.eqb_neq _ _) Hs0) in H.
  cbn [negb orb default CASB.number_json] in H.
  apply bind_inv in H as (result & w1 & Hpages & H). unfold id in Hpages.
  assert (w' = w1) as ->.
  { apply bind_inv in H as (body & w2 & Hb & H). apply lift_inv in Hb as [_ ->].
    apply bind_inv in H as (incidents & w2 & Hb & H). apply lift_inv in Hb as [_ ->].
    destruct (truthy incidents); [|by apply ret_inv in H as [_ ->]].
    apply bind_inv in H as (items & w2 & Hb & H). apply lift_inv in Hb as [_ ->].
    apply bind_inv in H as (rows & w2 & Hb & H). apply lift_inv in Hb as [_ ->].
    by apply ret_inv in H as [_ ->]. }
  split.
  - by eapply query_pages_requests.
  - intros Hneg. replace (Z.to_nat page_number) with 0%nat in Hpages by lia.
    apply ret_inv in Hpages as [-> ->].
    rewrite (bind_lift_inr (py_get_default (JObj []) "body" (JObj [])) _ _ _ eq_refl) in H.
    rewrite (bind_lift_inr (py_get (JObj []) "incidents") _ _ _ eq_refl) in H.
    cbn [truthy] in H. by apply ret_inv in H as [-> _].
Qed.

End CasbPaging.

(** * The further properties on concrete runs *)

(** [run_query_reads_the_body_alone] on a 400 answer whose body lists an
    error message. *)
Lemma run_query_reads_the_body_alone_example :
  fst (Jira.run_query (demo_platform (failing_server 400 "" (Some no_such_issue)))
         demo_client "project=SOC" "" (JNum 50) empty_world)
  = inl (Exn PlainException
           "No issues were found, error message from Jira: Issue Does Not Exist").
Proof.
  pose proof (run_query_reads_the_body_alone
                (demo_platform (failing_server 400 "" (Some no_such_issue)))
                demo_client "project=SOC" "" (JNum 50) empty_world
                (answer false 400 "" (Some no_such_issue)) eq_refl) as H.
  cbv zeta in H. destruct H as (_ & _ & _ & _ & H).
  exact (H _ ["Issue Does Not Exist"%string] eq_refl eq_refl eq_refl eq_refl).
Defined.

(** [update_remote_system_pushes_every_comment_in_order] on two comments. *)
Lemma update_remote_system_pushes_every_comment_in_order_example :
  let P := demo_platform (search_server (JObj [])) in
  Jira.update_remote_system_command P demo_client two_comments empty_world
  = (inr "10"%string,
     with_sent empty_world [comment_push P demo_client "10" "first";
                            comment_push P demo_client "10" "second"]).
Proof.
  cbv zeta.
  apply (update_remote_system_pushes_every_comment_in_order
           (demo_platform (search_server (JObj []))) demo_client two_comments
           [comment_of "1@7" "first"; comment_of "2@7" "second"] empty_world).
  - intros before rq. by eexists _, _.
  - reflexivity.
  - reflexivity.
  - repeat (apply List.Forall_cons; [eexists; split; reflexivity|]). apply List.Forall_nil.
Defined.

(** [update_remote_system_failed_edit_blocks_entries] on a delta that names
    an issue type: the edit fails before a request is sent, and the comment
    is not pushed. *)
Lemma update_remote_system_failed_edit_blocks_entries_example :
  Jira.update_remote_system_command (demo_platform (search_server (JObj []))) demo_client
    type_change_and_comment empty_world
  = (inr "10"%string,
     with_error_log empty_world
       [outgoing_mirror_error "10" (Exn KeyError "'issuetype'")]).
Proof.
  exact (update_remote_system_failed_edit_blocks_entries
           (demo_platform (search_server (JObj []))) demo_client type_change_and_comment
           (Exn KeyError "'issuetype'") empty_world empty_world eq_refl).
Defined.

(** [get_comments_keeps_the_newer_comments] on an incident of date 100 and
    comments of the dates 50, 150 and 120. *)
Lemma get_comments_keeps_the_newer_comments_example :
  Jira.get_comments (demo_platform (search_server (JObj [])))
    (JArr [dated_item "1" "50"; dated_item "2" "150"; dated_item "3" "120"])
    (Some (Datetime 100 true)) true
  = inr (JArr [dated_item "2" "150"; dated_item "3" "120"]).
Proof.
  destruct (get_comments_keeps_the_newer_comments
              (demo_platform (search_server (JObj [])))
              [dated_item "1" "50"; dated_item "2" "150"; dated_item "3" "120"]
              (Some (Datetime 100 true))) as [H _].
  apply (H [false; true; true]). repeat constructor.
Defined.

(** [get_attachments_skips_old_attachments] on an incident of date 100 and
    attachments of the dates 50 and 70. *)
Lemma get_attachments_skips_old_attachments_example :
  Jira.get_attachments (demo_platform (search_server (JObj []))) demo_client
    (JArr [dated_item "1" "50"; dated_item "2" "70"]) (Some (Datetime 100 true)) true empty_world
  = (inr [], empty_world).
Proof.
  apply get_attachments_skips_old_attachments. repeat constructor.
Defined.

(** [get_entries_for_fetched_incident_swallows_failures] on an issue the
    server does not have. *)
Lemma get_entries_for_fetched_incident_swallows_failures_example :
  fst (Jira.get_entries_for_fetched_incident
         (demo_platform (failing_server 404 "" (Some no_such_issue))) demo_client
         (JStr "7") true true empty_world)
  = inr (Jira.Entries (JArr []) []).
Proof.
  destruct (get_entries_for_fetched_incident_swallows_failures
              (demo_platform (failing_server 404 "" (Some no_such_issue))) demo_client
              (JStr "7") true true empty_world) as (_ & H & _).
  assert (exists ex w1,
            Jira.get_issue (demo_platform (failing_server 404 "" (Some no_such_issue)))
              demo_client "7" JNull false empty_world = (inl ex, w1))
    as (ex & w1 & Hissue).
  { eexists _, _. vm_compute. reflexivity. }
  by rewrite (H ex w1 Hissue).
Defined.

(** [get_issue_fields_issue_type_name_needs_creation] on an edit that
    names an issue type. *)
Lemma get_issue_fields_issue_type_name_needs_creation_example :
  Jira.get_issue_fields (demo_platform (search_server (JObj [])))
    [("issueTypeName", JStr "Bug")] demo_client false false empty_world
  = (inl (Exn KeyError "'issuetype'"), empty_world).
Proof.
  exact (get_issue_fields_issue_type_name_needs_creation
           (demo_platform (search_server (JObj []))) demo_client
           [("issueTypeName", JStr "Bug")] false empty_world eq_refl eq_refl eq_refl).
Defined.

(** [get_issue_fields_creation_needs_a_project] on a creation with a
    summary alone. *)
Lemma get_issue_fields_creation_needs_a_project_example :
  Jira.get_issue_fields (demo_platform (search_server (JObj [])))
    [("summary", JStr "s")] demo_client true false empty_world
  = (inl (Exn ReturnError
            "You must provide at least one of the following: project_key or project_name"),
     empty_world).
Proof.
  exact (get_issue_fields_creation_needs_a_project
           (demo_platform (search_server (JObj []))) demo_client
           [("summary", JStr "s")] false empty_world eq_refl eq_refl eq_refl eq_refl).
Defined.

(** [get_project_id_takes_the_first_match] on the projects [OPS] and
    [SOC], asked for the key [soc]. *)
Lemma get_project_id_takes_the_first_match_example :
  fst (Jira.get_project_id (demo_platform (search_server two_projects)) demo_client
         (JStr "soc") (JStr "") empty_world)
  = inr (JStr "2").
Proof.
  destruct (get_project_id_takes_the_first_match
              (demo_platform (search_server two_projects)) demo_client "soc" ""
              empty_world two_projects
              (snd (Jira.send_request_json (demo_platform (search_server two_projects))
                      demo_client "GET" "rest/api/latest/issue/createmeta" "" false None
                      empty_world))
              [JObj [("id", JStr "1"); ("key", JStr "OPS"); ("name", JStr "Operations")];
               JObj [("id", JStr "2"); ("key", JStr "SOC"); ("name", JStr "Security")]]
              [("OPS", "Operations"); ("SOC", "Security")]%string
              eq_refl eq_refl eq_refl) as (_ & _ & H).
  { repeat constructor. }
  rewrite (H 1%nat _ ("SOC", "Security")%string (JStr "2") eq_refl eq_refl).
  - reflexivity.
  - by left.
  - intros j kn' Hj Hkn [Hm|Hm]; destruct j as [|j]; try lia;
      injection Hkn as <-; vm_compute in Hm; discriminate.
  - reflexivity.
Defined.

(** [edit_transition_matches_the_exact_name] on the transitions [Open],
    [In Progress] and [Done]: [done] is none of them. *)
Lemma edit_transition_matches_the_exact_name_example :
  fst (Jira.edit_transition (demo_platform (search_server transitions_doc)) demo_client "7"
         (JStr "done") empty_world)
  = inl (Exn ReturnError
           ("Transitions " +:+ dquote +:+ "done" +:+ dquote +:+ " not found. " +:+ newline
            +:+ "Valid transitions are: " +:+ repr_with ascii_repr (demisto_get transitions_doc ["transitions"])
            +:+ " " +:+ newline)).
Proof.
  destruct (edit_transition_matches_the_exact_name
              (demo_platform (search_server transitions_doc)) demo_client "7" (JStr "done")
              empty_world transitions_doc
              (snd (Jira.list_transitions_data_for_issue
                      (demo_platform (search_server transitions_doc)) demo_client "7"
                      empty_world))
              [JObj [("id", JStr "11"); ("name", JStr "Open")];
               JObj [("id", JStr "21"); ("name", JStr "In Progress")];
               JObj [("id", JStr "31"); ("name", JStr "Done")]]
              [JStr "Open"; JStr "In Progress"; JStr "Done"]
              eq_refl eq_refl) as (_ & H & _).
  { repeat constructor. }
  rewrite H; [reflexivity|]. repeat constructor.
Defined.

(** [edit_issue_command_edits_before_it_refuses] on an edit of the summary
    that names a status and a transition. *)
Lemma edit_issue_command_edits_before_it_refuses_example :
  let P := demo_platform (search_server (JObj [])) in
  exists w2,
    Jira.edit_issue_command P demo_client "7" false edit_args empty_world
    = (inl (Exn ReturnError "Please provide only status or transition, but not both."), w2)
    /\ sent w2 = [Jira.request_of demo_client "PUT" "rest/api/latest/issue/7/"
                    (json_dumps P (JObj [("fields", JObj [("summary", JStr "s")])]))
                    false None].
Proof.
  cbv zeta. eexists.
  apply (edit_issue_command_edits_before_it_refuses
           (demo_platform (search_server (JObj []))) demo_client "7" false edit_args
           empty_world (JObj [("fields", JObj [("summary", JStr "s")])]) empty_world
           (Jira.Raw (answer true 200 "" (Some (JObj []))))); reflexivity.
Defined.

(** [get_remote_data_reports_a_failed_fetch] on a server that refuses the
    connection. *)
Lemma get_remote_data_reports_a_failed_fetch_example :
  fst (Jira.get_remote_data_command (demo_platform (refusing_server "")) demo_client
         "10" "100" empty_world)
  = inr {| Jira.mirrored_object :=
             JObj [("id", JStr "10"); ("in_mirror_error", JStr "Connection refused")];
           Jira.response_entries := [] |}.
Proof.
  assert (exists w1,
            Jira.get_issue (demo_platform (refusing_server "")) demo_client "10" JNull
              false empty_world
            = (inl (Exn RequestError "Connection refused"), w1)) as (w1 & Hissue).
  { eexists. vm_compute. reflexivity. }
  by rewrite (get_remote_data_reports_a_failed_fetch _ _ "10" "100" _ _ _ Hissue
                ltac:(discriminate)).
Defined.


(** [jira_poll_emits_the_issues_above_the_offset] on the poll from offset
    100 against the issues 99, 101 and 105. *)
Lemma jira_poll_emits_the_issues_above_the_offset_example :
  exists incidents,
    fst (jira_poll empty_world) = inr incidents
    /\ Forall2 (made_from (demo_platform (search_server three_issues)) demo_client
                  false false false false JNull JNull)
         [issue "101" "b"; issue "105" "c"] incidents.
Proof.
  assert (exists incidents w', jira_poll empty_world = (inr incidents, w'))
    as (incidents & w' & Hpoll).
  { eexists _, _. vm_compute. reflexivity. }
  exists incidents. split; [by rewrite Hpoll|].
  exact (jira_poll_emits_the_issues_above_the_offset
           (demo_platform (search_server three_issues)) demo_client "project=SOC" (JNum 100)
           false false false false JNull JNull false empty_world (JNum 100) (JStr "") 100
           "project=SOC AND id >= 100" three_issues
           (snd (Jira.run_query (demo_platform (search_server three_issues)) demo_client
                   "project=SOC AND id >= 100" "" (JNum 50) empty_world))
           [issue "99" "a"; issue "101" "b"; issue "105" "c"] incidents w'
           eq_refl eq_refl eq_refl eq_refl eq_refl Hpoll).
Defined.


(** [casb_poll_without_incidents_keeps_the_last_run] on an answer with no
    incidents and the next start time [t9]. *)
Lemma casb_poll_without_incidents_keeps_the_last_run_example :
  fst (casb_poll_of [] (CASB.LastRun (JStr "t3") None) empty_world)
  = inr (CASB.LastRun (JStr "t3") None, []).
Proof.
  unfold casb_poll_of.
  by rewrite (casb_poll_without_incidents_keeps_the_last_run
                (demo_platform (search_server (casb_answer [] "t9")))
                (fun v => inr v) (fun _ => inr (JStr "t0")) casb_client (JObj [])
                (CASB.LastRun (JStr "t3") None) empty_world (JNum 50) (JStr "t3")
                (casb_answer [] "t9")
                (snd (CASB.incident_query
                        (demo_platform (search_server (casb_answer [] "t9"))) casb_client
                        (JNum 50) (JStr "t3") (JStr "") JNull JNull JNull empty_world))
                (JArr []) eq_refl eq_refl eq_refl eq_refl).
Defined.

(** [get_id_offset_needs_an_issue] on a server without issues. *)
Lemma get_id_offset_needs_an_issue_example :
  fst (Jira.get_id_offset (demo_platform (search_server (JObj []))) demo_client empty_world)
  = inl (Exn TypeError "'NoneType' object is not subscriptable").
Proof.
  destruct (get_id_offset_needs_an_issue
              (demo_platform (search_server (JObj []))) demo_client empty_world (JObj [])
              (snd (Jira.run_query (demo_platform (search_server (JObj []))) demo_client
                      "ORDER BY created ASC" "" (JNum 1) empty_world))
              eq_refl) as [H _].
  by rewrite (H eq_refl).
Defined.

(** [get_custom_fields_never_raises] on a server that answers with the
    status 500. *)
Lemma get_custom_fields_never_raises_example :
  Jira.get_custom_fields (demo_platform (failing_server 500 "" None)) demo_client empty_world
  = (inr [],
     World [Jira.fields_request demo_client]
       ["Could not get custom fields. status code: 500. reason: "] [] (JObj []) 0).
Proof.
  destruct (get_custom_fields_never_raises
              (demo_platform (failing_server 500 "" None)) demo_client empty_world)
    as (_ & _ & _ & H & _).
  exact (H (answer false 500 "" None) eq_refl ltac:(discriminate)).
Defined.

(** [get_account_id_without_an_exact_match] on a search for [john] that
    finds one user, Jane. *)
Lemma get_account_id_without_an_exact_match_example :
  fst (Jira.get_account_id_from_attribute
         (demo_platform (search_server (JArr [jira_user "abc" "Jane" "jane@example.com"])))
         demo_client "john" "50" "false" empty_world)
  = inr (account_id_found (demo_platform (search_server (JArr []))) "john" (JStr "abc")).
Proof.
  pose proof (get_account_id_without_an_exact_match
                (demo_platform (search_server (JArr [jira_user "abc" "Jane" "jane@example.com"])))
                demo_client "john" "50" "false" empty_world
                [jira_user "abc" "Jane" "jane@example.com"]
                (snd (Jira.search_user
                        (demo_platform
                           (search_server (JArr [jira_user "abc" "Jane" "jane@example.com"])))
                        demo_client "john" "50" false empty_world))
                eq_refl ltac:(repeat constructor)) as H.
  cbv zeta in H. destruct H as (_ & H & _).
  by rewrite (H _ (JStr "abc") eq_refl eq_refl eq_refl).
Defined.

(** [get_account_id_with_exact_matches] on a search for [john] that finds
    two users of that name with different ids. *)
Lemma get_account_id_with_exact_matches_example :
  fst (Jira.get_account_id_from_attribute
         (demo_platform
            (search_server (JArr [jira_user "abc" "John" "j1@example.com";
                                  jira_user "abd" "Jo" "jo@example.com";
                                  jira_user "abe" "john" "j2@example.com"])))
         demo_client "john" "50" "false" empty_world)
  = inr (several_account_ids "john").
Proof.
  pose proof (get_account_id_with_exact_matches
                (demo_platform
                   (search_server (JArr [jira_user "abc" "John" "j1@example.com";
                                         jira_user "abd" "Jo" "jo@example.com";
                                         jira_user "abe" "john" "j2@example.com"])))
                demo_client "john" "50" "false" empty_world
                [jira_user "abc" "John" "j1@example.com"; jira_user "abd" "Jo" "jo@example.com";
                 jira_user "abe" "john" "j2@example.com"]
                [(true, "abc"); (false, "abd"); (true, "abe")]%string
                (snd (Jira.search_user
                        (demo_platform
                           (search_server (JArr [jira_user "abc" "John" "j1@example.com";
                                                 jira_user "abd" "Jo" "jo@example.com";
                                                 jira_user "abe" "john" "j2@example.com"])))
                        demo_client "john" "50" false empty_world))
                eq_refl ltac:(repeat constructor)) as H.
  cbv zeta in H. destruct H as (_ & H).
  rewrite (H "abc" "abe")%string; [reflexivity| | |discriminate].
  - apply elem_of_cons. by left.
  - do 2 (apply elem_of_cons; right). apply elem_of_cons. by left.
Defined.

(** [create_issue_reports_the_answer_with_its_project] on the creation of
    an issue in the project [SOC]. *)
Lemma create_issue_reports_the_answer_with_its_project_example :
  results (snd (Jira.create_issue_command (demo_platform (search_server two_projects))
                  no_param demo_client create_args empty_world))
  = [outputs_entry "jira"
       (JObj [("Ticket", JArr [JObj [("Id", JStr "10001"); ("Key", JStr "SOC-1")]])])
       (JObj (with_project no_param JNull (JStr "SOC")
                [("projects", demisto_get two_projects ["projects"]);
                 ("id", JStr "10001"); ("key", JStr "SOC-1")]))].
Proof.
  assert (exists w2,
            Jira.send_request_json (demo_platform (search_server two_projects)) demo_client
              "POST" "rest/api/latest/issue"
              (json_dumps (demo_platform (search_server two_projects))
                 (JObj [("fields",
                         JObj [("issuetype", JObj []); ("summary", JStr "s");
                               ("project", JObj [("key", JStr "SOC"); ("id", JStr "2")])])]))
              false None
              (snd (Jira.get_issue_fields (demo_platform (search_server two_projects))
                      (Jira.kwargs_without ["mirroring"] create_args) demo_client true
                      false empty_world))
            = (inr (JObj [("projects", demisto_get two_projects ["projects"]);
                          ("id", JStr "10001"); ("key", JStr "SOC-1")]), w2)
            /\ results w2 = []) as (w2 & Hsend & Hresults).
  { eexists. split; [vm_compute; reflexivity|reflexivity]. }
  pose proof (create_issue_reports_the_answer_with_its_project
                (demo_platform (search_server two_projects)) no_param demo_client create_args
                empty_world _ _ _ _ eq_refl eq_refl eq_refl Hsend) as H.
  cbv zeta in H. rewrite H. cbn [snd results with_results]. rewrite Hresults. reflexivity.
Defined.

(** [delete_issue_reports_by_status] on a server that answers the deletion
    with the status 200. *)
Lemma delete_issue_reports_by_status_example :
  exists w2,
    Jira.delete_issue_command (demo_platform (search_server (JObj []))) demo_client "SOC-1"
      [] empty_world = (inr tt, w2)
    /\ results w2 = [JStr "Failed to delete issue."].
Proof.
  pose proof (delete_issue_reports_by_status
                (demo_platform (search_server (JObj []))) demo_client "SOC-1" [] empty_world
                (JObj [("fields", JObj [])]) empty_world
                (answer true 200 "" (Some (JObj []))) eq_refl eq_refl eq_refl) as H.
  cbv zeta in H. destruct H as [H _]. exact (H eq_refl).
Defined.

(** [get_modified_remote_data_needs_the_time_zone] on a server that answers
    with the status 503. *)
Lemma get_modified_remote_data_needs_the_time_zone_example :
  Jira.get_modified_remote_data_command (demo_platform (failing_server 503 "" None))
    parse_as_integer demo_client "100" empty_world
  = (inr [],
     World [Jira.user_info_request demo_client]
       ["Could not get Jira's time zone for get-modified-remote-data. status code: 503. reason: "]
       [] (JObj []) 0).
Proof.
  destruct (get_modified_remote_data_needs_the_time_zone
              (demo_platform (failing_server 503 "" None)) parse_as_integer demo_client
              "100" empty_world) as (_ & _ & H).
  exact (H (answer false 503 "" None) eq_refl ltac:(discriminate)).
Defined.

(** [get_modified_remote_data_returns_the_ids_found] on a search that finds
    three issues, one of them without an id. *)
Lemma get_modified_remote_data_returns_the_ids_found_example :
  fst (Jira.get_modified_remote_data_command (demo_platform (search_server modified_issues))
         parse_as_integer demo_client "100" empty_world)
  = inr [JStr "10"; JStr "12"].
Proof.
  pose proof (get_modified_remote_data_returns_the_ids_found
                (demo_platform (search_server modified_issues)) parse_as_integer demo_client
                "100" empty_world (answer true 200 "" (Some modified_issues)) modified_issues
                (JStr "UTC") (Datetime 100 true)
                eq_refl eq_refl eq_refl eq_refl eq_refl eq_refl) as H.
  cbv zeta in H. destruct H as [_ H].
  assert (exists hr outs w2,
            Jira.issue_query_command (demo_platform (search_server modified_issues))
              demo_client
              (modified_since_query
                 (strftime_minute (demo_platform (search_server modified_issues))
                    (Datetime 100 true))) "" (JNum 100) (JStr "")
              (with_sent empty_world
                 (sent empty_world ++ [Jira.user_info_request demo_client]))
            = (inr (hr, outs, modified_issues), w2)) as (hr & outs & w2 & Hsearch).
  { eexists _, _, _. vm_compute. reflexivity. }
  rewrite (H hr outs modified_issues w2
             [JObj [("id", JStr "10"); ("fields", JObj [])];
              JObj [("id", JStr ""); ("fields", JObj [])];
              JObj [("id", JStr "12"); ("fields", JObj [])]]
             Hsearch eq_refl [JStr "10"; JStr ""; JStr "12"]); [reflexivity|].
  repeat constructor.
Defined.

(** [calculate_offset_and_limit_windows] on the third page of size 5. *)
Lemma calculate_offset_and_limit_windows_example :
  CASB.calculate_offset_and_limit number_of_arg [("page", JNum 3); ("page_size", JNum 5)]
  = inr (10, 15).
Proof.
  pose proof (calculate_offset_and_limit_windows number_of_arg
                [("page", JNum 3); ("page_size", JNum 5)]) as H.
  cbv zeta in H. destruct H as [_ H].
  destruct (H None eq_refl eq_refl) as [Hpage _].
  exact (Hpage 3 5 eq_refl ltac:(discriminate) eq_refl ltac:(discriminate)).
Defined.

(** [policy_dictionary_list_returns_one_page] on the second page of size 2
    of five policies. *)
Lemma policy_dictionary_list_returns_one_page_example :
  exists r,
    fst (CASB.policy_dictionary_list_command (listing_platform (search_server five_policies))
           number_of_arg table_name casb_client [("page", JNum 2); ("page_size", JNum 2)]
           empty_world) = inr r
    /\ outputs r = JArr [casb_policy_shown 3 "c"; casb_policy_shown 4 "d"].
Proof.
  pose proof (policy_dictionary_list_returns_one_page
                (listing_platform (search_server five_policies)) number_of_arg table_name
                casb_client [("page", JNum 2); ("page_size", JNum 2)] empty_world None 2 2
                [casb_policy 1 "a"; casb_policy 2 "b"; casb_policy 3 "c"; casb_policy 4 "d";
                 casb_policy 5 "e"]
                [casb_policy_shown 1 "a"; casb_policy_shown 2 "b"; casb_policy_shown 3 "c";
                 casb_policy_shown 4 "d"; casb_policy_shown 5 "e"]
                (snd (CASB.policy_dictionary_list
                        (listing_platform (search_server five_policies)) casb_client
                        empty_world))
                eq_refl eq_refl eq_refl ltac:(lia) eq_refl ltac:(lia) eq_refl eq_refl
                ltac:(repeat constructor)) as H.
  cbv zeta in H. rewrite H. eexists. split; reflexivity.
Defined.

(** [policy_dictionary_list_keeps_the_named_policies] on the names [b] and
    [e] and five policies. *)
Lemma policy_dictionary_list_keeps_the_named_policies_example :
  exists name,
    py_get (casb_policy_shown 5 "e") "Name" = inr name
    /\ existsb (py_eq name) [JStr "b"; JStr "e"] = true.
Proof.
  assert (exists r w',
            CASB.policy_dictionary_list_command
              (listing_platform (search_server five_policies)) number_of_arg table_name
              casb_client [("name", JArr [JStr "b"; JStr "e"])] empty_world = (inr r, w')
            /\ outputs r = JArr [casb_policy_shown 2 "b"; casb_policy_shown 5 "e"])
    as (r & w' & Hrun & Hout).
  { eexists _, _. split; [vm_compute; reflexivity|reflexivity]. }
  apply (policy_dictionary_list_keeps_the_named_policies
           (listing_platform (search_server five_policies)) number_of_arg table_name
           casb_client [("name", JArr [JStr "b"; JStr "e"])] empty_world r w'
           (casb_policy_shown 5 "e") [casb_policy_shown 2 "b"; casb_policy_shown 5 "e"]
           ltac:(discriminate) Hrun Hout).
  apply elem_of_cons; right. apply elem_of_cons. by left.
Defined.

(** [incident_query_sends_one_query_per_page] on the third page of size 2. *)
Lemma incident_query_sends_one_query_per_page_example :
  exists r requests,
    CASB.incident_query_command
      (listing_platform (search_server (casb_answer ["A"; "B"] "t1"))) number_of_arg
      (fun v => inr v) table_name casb_client [("page_number", JNum 3); ("page_size", JNum 2)]
      empty_world = (inr r, with_sent empty_world requests)
    /\ List.length requests = 3%nat
    /\ Forall (asks_for (JNum 2)) requests.
Proof.
  assert (exists r w',
            CASB.incident_query_command
              (listing_platform (search_server (casb_answer ["A"; "B"] "t1"))) number_of_arg
              (fun v => inr v) table_name casb_client
              [("page_number", JNum 3); ("page_size", JNum 2)] empty_world = (inr r, w'))
    as (r & w' & Hrun).
  { eexists _, _. vm_compute. reflexivity. }
  destruct (incident_query_sends_one_query_per_page _ _ _ _ _ _ _ _ _ 3 2
              eq_refl ltac:(discriminate) eq_refl ltac:(discriminate) Hrun)
    as [(requests & Hw & Hlen & Hasks) _].
  exists r, requests. rewrite Hrun, Hw. done.
Defined.

(** [md_context_shows_a_missing_assignee_as_null] on an issue whose
    assignee has a display name and no e-mail address. *)
Lemma md_context_shows_a_missing_assignee_as_null_example :
  exists md context,
    Jira.generate_md_context_get_issue (demo_platform (search_server (JObj []))) assigned_issue = inr (JArr [md], JArr [context])
    /\ py_get md "assignee" = inr (JStr "Ann(null)")
    /\ py_get context "Assignee" = inr (JStr "Ann(null)").
Proof.
  assert (exists mds contexts,
            Jira.generate_md_context_get_issue (demo_platform (search_server (JObj []))) assigned_issue = inr (mds, contexts))
    as (mds & contexts & Hrun).
  { eexists _, _. vm_compute. reflexivity. }
  destruct (md_context_shows_a_missing_assignee_as_null _ _ _ _ Hrun)
    as (md & context & -> & -> & _ & H).
  exists md, context. split; [exact Hrun|].
  exact (H [("displayName", JStr "Ann")] "Ann"%string eq_refl ltac:(discriminate)
           eq_refl eq_refl).
Defined.
